(** * BOSSINN: shop purchases, the stay ledger and the transaction history

    A shallow embedding of the billing core of the dashboard:

    - [ShopPurchaseService.processPurchase] (pages/shop/ShopPurchaseService.ts,
      the first file of src/unnamed/part_001), the write batch that turns a cart into inventory decrements, purchase
      records, an adjustment of the check-in document and one entry of the
      check-in's payments sub-collection;
    - the cart handlers of the shop screen (pages/shop/Shop.tsx,
      src/unnamed/part_000): [addToCart], [removeFromCart],
      [removeItemCompletely];
    - [fetchPaymentHistory] of the room-history screen (BookedRooms.tsx,
      src/unnamed/part_002);
    - the base-rent computation of the house screen, known from
      HOUSE_PENDING_AMOUNT_FIX.md;
    - around these: the checkout of the shop screen ([handleCheckout]), the
      payment table and [handleAddPayment] of the room-history screen, the
      quantity and delete handlers of the inventory screen
      (pages/inventory/Inventory.tsx), and the totals and pages of the payment
      log (pages/payments).

    Modelling conventions.  A JavaScript [number] holding a quantity or an
    amount of money is an integer of [Z].  Quantities are whole on every path
    of the application.  Amounts of money need not be: unit prices are entered
    in steps of 0.01, and the code adds them as IEEE doubles.  A statement
    over [Z] that pins one computed amount holds of the code as it stands; a
    statement that equates sums added in different groupings or orders holds
    of the code for whole amounts (which doubles add exactly, below 2^53) and
    says so.  Module [Doubles] carries the same sums over doubles, for the
    behaviour with fractional prices.  A Firestore [Timestamp] is
    the integer it denotes; [Timestamp.now()] is the clock reading [now]
    handed to the operation.  The document store is an explicit value of type
    [Db] that every operation receives and returns.  Document identifiers are
    Firestore identifiers (no slash); the empty identifier is the only one for
    which [doc] raises. *)

From Stdlib Require Import ZArith List Lia.
From Stdlib Require PrimFloat.
From stdpp Require Import gmap strings list fin_maps pretty.

Local Open Scope Z_scope.

(** ** Documents and screen-side values *)

(** [CartItem] of ShopPurchaseService.ts and Shop.tsx. *)
Module CartItem.
Record t : Type := mk {
  inventoryId : string;
  itemName : string;
  quantity : Z;
  unitPrice : Z
}.
End CartItem.

(** [InventoryItem] of Shop.tsx: an inventory document together with its id. *)
Module InventoryItem.
Record t : Type := mk {
  id : string;
  itemName : string;
  quantity : Z;
  unitPrice : Z;
  category : string
}.
End InventoryItem.

(** A document of the [inventory] collection. *)
Module InventoryDoc.
Record t : Type := mk {
  itemName : string;
  quantity : Z;
  unitPrice : Z;
  category : string
}.
Definition increment_quantity (delta : Z) (d : t) : t :=
  mk (itemName d) (quantity d + delta) (unitPrice d) (category d).
Definition with_unitPrice (p : Z) (d : t) : t :=
  mk (itemName d) (quantity d) p (category d).
End InventoryDoc.

(** A document of the [purchases] collection, as written by
    [processPurchase]. *)
Module PurchaseDoc.
Record t : Type := mk {
  checkinId : string;
  inventoryId : string;
  itemName : string;
  quantity : Z;
  amount : Z;
  paymentStatus : string;
  createdAt : Z
}.
End PurchaseDoc.

(** A document of the [checkins] collection, as written by CheckIn.tsx. *)
Module CheckinDoc.
Record t : Type := mk {
  guestName : string;
  roomId : string;
  rent : Z;
  initialPayment : Z;
  isCheckedOut : bool;
  checkedInAt : Z
}.
Definition increment_initialPayment (delta : Z) (c : t) : t :=
  mk (guestName c) (roomId c) (rent c) (initialPayment c + delta)
     (isCheckedOut c) (checkedInAt c).
End CheckinDoc.

(** A document of a [checkins/{id}/payments] sub-collection. *)
Module PaymentDoc.
Record t : Type := mk {
  amount : Z;
  mode : string;
  type : string;
  timestamp : Z;
  description : string
}.
End PaymentDoc.

(** [PaymentEntry] of BookedRooms.tsx: a payment document read back with its
    id; the description is optional. *)
Module PaymentEntry.
Record t : Type := mk {
  id : string;
  amount : Z;
  mode : string;
  type : string;
  timestamp : Z;
  description : option string
}.
End PaymentEntry.

(** [Customer] of BookedRooms.tsx.  The check-in time is read from the
    document and may be missing, which the code handles with
    [customer.checkedInAt || Timestamp.now()]. *)
Module Customer.
Record t : Type := mk {
  id : string;
  guestName : string;
  phoneNumber : string;
  checkedInAt : option Z;
  checkedOutAt : option Z;
  rent : Z;
  isCheckedOut : bool;
  roomId : string
}.
End Customer.

(** ** The document store *)

Record Db : Type := mkDb {
  inventory : gmap string InventoryDoc.t;
  purchases : list PurchaseDoc.t;
  checkins : gmap string CheckinDoc.t;
  payments : gmap string (list PaymentDoc.t)
}.

(** The payments sub-collection of a check-in (empty when nothing was ever
    written under it). *)
Definition paymentsOf (checkinId : string) (db : Db) : list PaymentDoc.t :=
  default [] (payments db !! checkinId).

(** The writes a batch can hold in [processPurchase]. *)
Inductive Write : Type :=
  | UpdateInventoryQuantity (ref : string) (delta : Z)
      (* batch.update(inventoryRef, { quantity: increment(delta) }) *)
  | SetPurchase (p : PurchaseDoc.t)
      (* batch.set(doc(purchasesCollection), p) *)
  | UpdateCheckinInitialPayment (ref : string) (delta : Z)
      (* batch.update(checkinRef, { initialPayment: increment(delta) }) *)
  | SetPayment (checkinId : string) (e : PaymentDoc.t).
      (* batch.set(doc(collection(db,'checkins',checkinId,'payments')), e) *)

(** One write applied to the store.  An [update] needs its document to exist;
    a [set] on a fresh auto-id document always applies. *)
Definition apply_write (w : Write) (db : Db) : option Db :=
  match w with
  | UpdateInventoryQuantity ref delta =>
      d ← inventory db !! ref;
      Some (mkDb (<[ref := InventoryDoc.increment_quantity delta d]> (inventory db))
                 (purchases db) (checkins db) (payments db))
  | SetPurchase p =>
      Some (mkDb (inventory db) (purchases db ++ [p]) (checkins db) (payments db))
  | UpdateCheckinInitialPayment ref delta =>
      c ← checkins db !! ref;
      Some (mkDb (inventory db) (purchases db)
                 (<[ref := CheckinDoc.increment_initialPayment delta c]> (checkins db))
                 (payments db))
  | SetPayment checkinId e =>
      Some (mkDb (inventory db) (purchases db) (checkins db)
                 (<[checkinId := paymentsOf checkinId db ++ [e]]> (payments db)))
  end.

(** [batch.commit()]: the writes are applied in order to a working copy; the
    copy replaces the store only when every write applied. *)
Fixpoint commit (batch : list Write) (db : Db) : option Db :=
  match batch with
  | [] => Some db
  | w :: rest => db' ← apply_write w db; commit rest db'
  end.

(** [doc(db, collection, id)]: raises on an empty identifier.  (The identifiers
    of this store are automatic ids; one with slashes is a path to [doc] and
    is outside this definition, see [noSlash].) *)
Definition doc (id : string) : option string :=
  if String.eqb id "" then None else Some id.

(** ** ShopPurchaseService.processPurchase *)

Inductive PurchaseError : Type :=
  | InvalidPurchaseData        (* new Error('Invalid purchase data') *)
  | InvalidDocumentReference   (* raised by doc() while the batch is built *)
  | CommitRejected.            (* batch.commit() rejected by the store *)

Inductive Outcome : Type :=
  | Success                    (* { success: true, message: ... } *)
  | Failure (e : PurchaseError).

(** [cartItems.reduce((total, item) => total + item.quantity * item.unitPrice, 0)] *)
Definition totalAmount (cartItems : list CartItem.t) : Z :=
  fold_left (fun total item => total + CartItem.quantity item * CartItem.unitPrice item)
            cartItems 0.

(** The first loop: one inventory update per cart line. *)
Fixpoint inventoryUpdates (cartItems : list CartItem.t) : option (list Write) :=
  match cartItems with
  | [] => Some []
  | item :: rest =>
      inventoryRef ← doc (CartItem.inventoryId item);
      ws ← inventoryUpdates rest;
      Some (UpdateInventoryQuantity inventoryRef (- CartItem.quantity item) :: ws)
  end.

(** The purchase record written for one cart line. *)
Definition purchaseRecord (now : Z) (checkinId : string) (item : CartItem.t)
  : PurchaseDoc.t :=
  PurchaseDoc.mk checkinId (CartItem.inventoryId item) (CartItem.itemName item)
                 (CartItem.quantity item)
                 (CartItem.quantity item * CartItem.unitPrice item)
                 "pending" now.

(** The entry added to the check-in's payments. *)
Definition shopPaymentEntry (now : Z) (cartItems : list CartItem.t) : PaymentDoc.t :=
  PaymentDoc.mk (- totalAmount cartItems) "shop" "shop-purchase" now
                ("Shop purchase (" +:+ pretty (length cartItems) +:+ " items)").

(** The whole batch, in the order the code fills it. *)
Definition purchaseBatch (now : Z) (checkinId : string) (cartItems : list CartItem.t)
  : option (list Write) :=
  invWrites ← inventoryUpdates cartItems;
  checkinRef ← doc checkinId;
  Some (invWrites
        ++ map (fun item => SetPurchase (purchaseRecord now checkinId item)) cartItems
        ++ [UpdateCheckinInitialPayment checkinRef (- totalAmount cartItems);
            SetPayment checkinId (shopPaymentEntry now cartItems)]).

Definition processPurchase (now : Z) (checkinId : string)
    (cartItems : list CartItem.t) (db : Db) : Outcome * Db :=
  if String.eqb checkinId "" || (length cartItems =? 0)%nat then
    (Failure InvalidPurchaseData, db)
  else
    match purchaseBatch now checkinId cartItems with
    | None => (Failure InvalidDocumentReference, db)
    | Some batch =>
        match commit batch db with
        | Some db' => (Success, db')
        | None => (Failure CommitRejected, db)
        end
    end.

(** [ShopPurchaseService.getPurchasesByCheckin]: the purchase records of a
    check-in, listed here as the collection holds them.  The query itself
    asks for no order; what it may return is [purchasesQuery] below. *)
Definition getPurchasesByCheckin (checkinId : string) (db : Db) : list PurchaseDoc.t :=
  List.filter (fun p => String.eqb (PurchaseDoc.checkinId p) checkinId) (purchases db).

(** A call of [processPurchase], and a run of calls one after the other; a
    call that fails leaves the store as it found it and the run goes on. *)
Record PurchaseCall : Type := mkCall {
  call_now : Z;
  call_checkinId : string;
  call_cartItems : list CartItem.t
}.

Definition runPurchases (calls : list PurchaseCall) (db : Db) : Db :=
  fold_left
    (fun store c =>
       snd (processPurchase (call_now c) (call_checkinId c) (call_cartItems c) store))
    calls db.

(** ** Totals read back from the store *)

(** [getTotalShopPurchases] of BookedRooms.tsx, over the purchases of one
    check-in. *)
Definition getTotalShopPurchases (shopPurchases : list PurchaseDoc.t) : Z :=
  fold_left (fun total purchase => total + PurchaseDoc.amount purchase) shopPurchases 0.

Definition isShopPurchase (e : PaymentDoc.t) : bool :=
  String.eqb (PaymentDoc.type e) "shop-purchase".

(** The shop-purchase entries of a check-in's payments, and the sum of the
    absolute values of their amounts. *)
Definition shopPurchaseEntries (checkinId : string) (db : Db) : list PaymentDoc.t :=
  List.filter isShopPurchase (paymentsOf checkinId db).

Definition shopOffsetsTotal (checkinId : string) (db : Db) : Z :=
  fold_left (fun total e => total + Z.abs (PaymentDoc.amount e))
            (shopPurchaseEntries checkinId db) 0.

Definition conserved (checkinId : string) (db : Db) : Prop :=
  getTotalShopPurchases (getPurchasesByCheckin checkinId db)
  = shopOffsetsTotal checkinId db.

(** The three classes of payment mode the screens distinguish: the cash
    column, the GPay column, and everything else (BookedRooms.tsx table,
    PaymentCalendar.getPaymentBreakdownForDate). *)
Inductive ModeClass : Type := Cash | Electronic | NotApplicable.

Definition modeClass (mode : string) : ModeClass :=
  if String.eqb mode "cash" then Cash
  else if String.eqb mode "gpay" then Electronic
  else NotApplicable.

(** The total of a cart priced from the inventory documents of the store
    instead of the prices carried by the cart lines.  This definition follows
    the wording of the specification (unit prices read from the inventory
    store at commit time); it is compared with [totalAmount] below. *)
Definition storeUnitPrice (db : Db) (inventoryId : string) : Z :=
  match inventory db !! inventoryId with
  | Some d => InventoryDoc.unitPrice d
  | None => 0
  end.

Definition spec_storePricedTotal (db : Db) (cartItems : list CartItem.t) : Z :=
  fold_left
    (fun total item =>
       total + CartItem.quantity item * storeUnitPrice db (CartItem.inventoryId item))
    cartItems 0.

(** The same store with every inventory unit price replaced through [f]. *)
Definition reprice (f : string -> Z -> Z) (db : Db) : Db :=
  mkDb (map_imap (fun ref d => Some (InventoryDoc.with_unitPrice (f ref (InventoryDoc.unitPrice d)) d))
                 (inventory db))
       (purchases db) (checkins db) (payments db).

(** ** The cart of the shop screen (Shop.tsx) *)

Definition sameItem (inventoryId : string) (cartItem : CartItem.t) : bool :=
  String.eqb (CartItem.inventoryId cartItem) inventoryId.

Definition addQuantity (delta : Z) (cartItem : CartItem.t) : CartItem.t :=
  CartItem.mk (CartItem.inventoryId cartItem) (CartItem.itemName cartItem)
              (CartItem.quantity cartItem + delta) (CartItem.unitPrice cartItem).

Definition addToCart (selectedRoom : string) (cartItems : list CartItem.t)
    (item : InventoryItem.t) : list CartItem.t :=
  if String.eqb selectedRoom "" then cartItems
  else
    match List.find (sameItem (InventoryItem.id item)) cartItems with
    | Some existingItem =>
        if InventoryItem.quantity item <=? CartItem.quantity existingItem
        then cartItems   (* 'Cannot add more than available stock' *)
        else map (fun cartItem =>
                    if sameItem (InventoryItem.id item) cartItem
                    then addQuantity 1 cartItem else cartItem)
                 cartItems
    | None =>
        cartItems ++ [CartItem.mk (InventoryItem.id item) (InventoryItem.itemName item)
                                  1 (InventoryItem.unitPrice item)]
    end.

Definition removeItemCompletely (cartItems : list CartItem.t) (inventoryId : string)
  : list CartItem.t :=
  List.filter (fun item => negb (sameItem inventoryId item)) cartItems.

Definition removeFromCart (cartItems : list CartItem.t) (inventoryId : string)
  : list CartItem.t :=
  match List.find (sameItem inventoryId) cartItems with
  | Some existingItem =>
      if CartItem.quantity existingItem =? 1
      then List.filter (fun item => negb (sameItem inventoryId item)) cartItems
      else map (fun item =>
                  if sameItem inventoryId item then addQuantity (-1) item else item)
               cartItems
  | None => cartItems
  end.

(** The plus button of a cart row: looks the item up in the fetched list and
    only then calls [addToCart]. *)
Definition cartPlus (selectedRoom : string) (inventoryItems : list InventoryItem.t)
    (cartItems : list CartItem.t) (cartItem : CartItem.t) : list CartItem.t :=
  match List.find (fun invItem => String.eqb (InventoryItem.id invItem)
                                             (CartItem.inventoryId cartItem))
                  inventoryItems with
  | Some inventoryItem =>
      if CartItem.quantity cartItem <? InventoryItem.quantity inventoryItem
      then addToCart selectedRoom cartItems inventoryItem
      else cartItems
  | None => cartItems
  end.

(** What the user can do to the cart: press the add button of the [i]-th
    listed item, or the plus, minus or bin button of the [i]-th cart row. *)
Inductive CartAction : Type :=
  | PressAdd (i : nat)
  | PressPlus (i : nat)
  | PressMinus (i : nat)
  | PressBin (i : nat).

Definition cartStep (selectedRoom : string) (inventoryItems : list InventoryItem.t)
    (cartItems : list CartItem.t) (a : CartAction) : list CartItem.t :=
  match a with
  | PressAdd i =>
      match nth_error inventoryItems i with
      | Some item => addToCart selectedRoom cartItems item
      | None => cartItems
      end
  | PressPlus i =>
      match nth_error cartItems i with
      | Some row => cartPlus selectedRoom inventoryItems cartItems row
      | None => cartItems
      end
  | PressMinus i =>
      match nth_error cartItems i with
      | Some row => removeFromCart cartItems (CartItem.inventoryId row)
      | None => cartItems
      end
  | PressBin i =>
      match nth_error cartItems i with
      | Some row => removeItemCompletely cartItems (CartItem.inventoryId row)
      | None => cartItems
      end
  end.

(** The cart after a session that starts from the empty cart. *)
Definition cartAfter (selectedRoom : string) (inventoryItems : list InventoryItem.t)
    (actions : list CartAction) : list CartItem.t :=
  fold_left (cartStep selectedRoom inventoryItems) actions [].

(** An item of the list built by [fetchInventoryAndRooms]: it carries the id
    and the quantity of an inventory document of the store, and passed the
    filter [item.quantity > 0].  (The list is sorted afterwards; its order
    plays no role here.) *)
Definition listedFrom (db : Db) (item : InventoryItem.t) : bool :=
  match inventory db !! InventoryItem.id item with
  | Some d => (InventoryDoc.quantity d =? InventoryItem.quantity item)
              && (0 <? InventoryItem.quantity item)
  | None => false
  end.

Definition fetchedFrom (db : Db) (inventoryItems : list InventoryItem.t) : bool :=
  forallb (listedFrom db) inventoryItems.

(** ** The transaction history of the room-history screen (BookedRooms.tsx) *)

Definition isInitial (p : PaymentEntry.t) : bool :=
  String.eqb (PaymentEntry.type p) "initial".

Definition rentEntry (now : Z) (customer : Customer.t) : PaymentEntry.t :=
  PaymentEntry.mk "rent-entry" (Customer.rent customer) "n/a" "Rent (Check-in)"
                  (default now (Customer.checkedInAt customer)) None.

(** [initialPayment || { id: 'advance-entry', ... }] *)
Definition advanceEntry (now : Z) (customer : Customer.t)
    (history : list PaymentEntry.t) : PaymentEntry.t :=
  match List.find isInitial history with
  | Some initialPayment => initialPayment
  | None =>
      PaymentEntry.mk "advance-entry" (Customer.rent customer) "cash" "initial"
                      (default now (Customer.checkedInAt customer))
                      (Some "Initial payment at check-in")
  end.

(** The [fullHistory] that [fetchPaymentHistory] stores, from the payments
    [history] read in ascending timestamp order. *)
Definition fetchPaymentHistory (now : Z) (customer : Customer.t)
    (history : list PaymentEntry.t) : list PaymentEntry.t :=
  rentEntry now customer
  :: advanceEntry now customer history
  :: List.filter (fun p => negb (isInitial p)) history.

(** ** The base rent of the house screen *)

Definition hasType (ty : string) (entry : PaymentEntry.t) : bool :=
  String.eqb (PaymentEntry.type entry) ty.

Definition sumAmounts (entries : list PaymentEntry.t) : Z :=
  fold_left (fun sum entry => sum + PaymentEntry.amount entry) entries 0.

(** Modelled from the spec: [fetchPaymentHistory] and [getTotalRentSoFar] of
    pages/houses/HousePage.tsx are not among the sources.  Step 1 of the
    calculator, the sum of the entries of type 'extension', as in the excerpt
    of that function quoted in HOUSE_PENDING_AMOUNT_FIX.md. *)
Definition extensionTotal (history : list PaymentEntry.t) : Z :=
  sumAmounts (List.filter (hasType "extension") history).

(** Modelled from the spec: step 2 of the calculator, the sum of the entries
    of type 'extra-fee' (same excerpt; HousePage.tsx is not among the
    sources). *)
Definition extraFeesTotal (history : list PaymentEntry.t) : Z :=
  sumAmounts (List.filter (hasType "extra-fee") history).

(** Modelled from the spec: step 3 of the calculator,
    baseRent = booking.rent - extensionTotal - extraFeesTotal (same excerpt;
    HousePage.tsx is not among the sources). *)
Definition baseRent (booking_rent : Z) (history : list PaymentEntry.t) : Z :=
  booking_rent - extensionTotal history - extraFeesTotal history.

(** Modelled from the spec: step 4 of the calculator,
    totalRentSoFar = baseRent + extensionsTotal + feesTotal (the body of
    [getTotalRentSoFar] of HousePage.tsx is not among the sources). *)
Definition totalRentSoFar (booking_rent : Z) (history : list PaymentEntry.t) : Z :=
  baseRent booking_rent history + extensionTotal history + extraFeesTotal history.

(** ** What a batch writes, read off the list of writes *)

Definition purchasesWritten (batch : list Write) : list PurchaseDoc.t :=
  omap (fun w => match w with SetPurchase p => Some p | _ => None end) batch.

Definition paymentsWritten (checkinId : string) (batch : list Write) : list PaymentDoc.t :=
  omap (fun w => match w with
                 | SetPayment c e => if String.eqb c checkinId then Some e else None
                 | _ => None
                 end) batch.

Definition checkinDelta (ref : string) (batch : list Write) : Z :=
  fold_left (fun total w => match w with
                            | UpdateCheckinInitialPayment r delta =>
                                if String.eqb r ref then total + delta else total
                            | _ => total
                            end) batch 0.

Definition inventoryDelta (ref : string) (batch : list Write) : Z :=
  fold_left (fun total w => match w with
                            | UpdateInventoryQuantity r delta =>
                                if String.eqb r ref then total + delta else total
                            | _ => total
                            end) batch 0.

(** The quantity of an item requested by a cart, over all its lines. *)
Definition requestedQuantity (inventoryId : string) (cartItems : list CartItem.t) : Z :=
  fold_left (fun total item =>
               if sameItem inventoryId item then total + CartItem.quantity item else total)
            cartItems 0.

(** The inventory write of one cart line, and the batch as a plain list. *)
Definition inventoryWrite (item : CartItem.t) : Write :=
  UpdateInventoryQuantity (CartItem.inventoryId item) (- CartItem.quantity item).

Definition purchaseWrite (now : Z) (checkinId : string) (item : CartItem.t) : Write :=
  SetPurchase (purchaseRecord now checkinId item).

Definition batchOf (now : Z) (checkinId : string) (cartItems : list CartItem.t)
  : list Write :=
  map inventoryWrite cartItems
  ++ map (purchaseWrite now checkinId) cartItems
  ++ [UpdateCheckinInitialPayment checkinId (- totalAmount cartItems);
      SetPayment checkinId (shopPaymentEntry now cartItems)].

(** The guard the shop screen keeps on a cart, relative to a store: no two
    lines for the same item, and every line asks for at least one unit and at
    most the quantity the store holds of its item. *)
Definition lineWithinStock (db : Db) (line : CartItem.t) : Prop :=
  exists d, inventory db !! CartItem.inventoryId line = Some d
            /\ 1 <= CartItem.quantity line <= InventoryDoc.quantity d.

Definition cartWithinStock (db : Db) (cartItems : list CartItem.t) : Prop :=
  NoDup (map CartItem.inventoryId cartItems)
  /\ Forall (lineWithinStock db) cartItems.

(** ** A small store used in the examples *)

Definition soapDoc : InventoryDoc.t := InventoryDoc.mk "Soap" 5 50 "toiletries".
Definition colaDoc : InventoryDoc.t := InventoryDoc.mk "Cola" 1 30 "drinks".

Definition openStay : CheckinDoc.t :=
  CheckinDoc.mk "Asha" "room-101" 1000 1000 false 100.
Definition closedStay : CheckinDoc.t :=
  CheckinDoc.mk "Ravi" "room-102" 800 800 true 50.

Definition initialCash : PaymentDoc.t :=
  PaymentDoc.mk 1000 "cash" "initial" 100 "Initial payment at check-in".

Definition exampleDb : Db :=
  mkDb (<["soap" := soapDoc]> (<["cola" := colaDoc]> ∅))
       []
       (<["stay1" := openStay]> (<["stay2" := closedStay]> ∅))
       (<["stay1" := [initialCash]]> ∅).

Definition twoSoaps : list CartItem.t := [CartItem.mk "soap" "Soap" 2 50].

Definition guest : Customer.t :=
  Customer.mk "stay3" "Meera" "9000000000" (Some 40) (Some 90) 1000 true "room-103".

Definition extension200 : PaymentEntry.t :=
  PaymentEntry.mk "p2" 200 "n/a" "extension" 60 None.
Definition extraFee50 : PaymentEntry.t :=
  PaymentEntry.mk "p3" 50 "n/a" "extra-fee" 70 None.
Definition initial500 : PaymentEntry.t :=
  PaymentEntry.mk "p1" 500 "gpay" "initial" 41 (Some "Initial payment at check-in").
Definition advance300 : PaymentEntry.t :=
  PaymentEntry.mk "p4" 300 "cash" "advance" 80 None.

(** ** Figures derived from the store *)

(** What a write needs in order to apply: the document an [update] targets. *)
Definition writable (db : Db) (w : Write) : Prop :=
  match w with
  | UpdateInventoryQuantity ref _ => is_Some (inventory db !! ref)
  | UpdateCheckinInitialPayment ref _ => is_Some (checkins db !! ref)
  | SetPurchase _ | SetPayment _ _ => True
  end.

(** The units of an inventory item sold so far, over all purchase records. *)
Definition unitsSold (inventoryId : string) (db : Db) : Z :=
  fold_left (fun total p => total + PurchaseDoc.quantity p)
            (List.filter (fun p => String.eqb (PurchaseDoc.inventoryId p) inventoryId)
                         (purchases db))
            0.

(** The stored initialPayment of a check-in plus the total of its purchase
    records ([None] when the check-in does not exist). *)
Definition paymentPlusPurchases (checkinId : string) (db : Db) : option Z :=
  (fun c => CheckinDoc.initialPayment c
            + getTotalShopPurchases (getPurchasesByCheckin checkinId db))
    <$> checkins db !! checkinId.

(** ** More of the shop screen (Shop.tsx) *)

(** The badge of the cart panel:
    [cartItems.reduce((total, item) => total + item.quantity, 0)]. *)
Definition cartCount (cartItems : list CartItem.t) : Z :=
  fold_left (fun total item => total + CartItem.quantity item) cartItems 0.

(** [remainingStock] of an item card: the listed quantity minus what the cart
    already holds of the item. *)
Definition remainingStock (cartItems : list CartItem.t) (item : InventoryItem.t) : Z :=
  match List.find (sameItem (InventoryItem.id item)) cartItems with
  | Some cartItem => InventoryItem.quantity item - CartItem.quantity cartItem
  | None => InventoryItem.quantity item
  end.

(** The [map] that [addToCart] and [removeFromCart] run over the cart. *)
Definition bumpLine (inventoryId : string) (delta : Z) (cartItems : list CartItem.t)
  : list CartItem.t :=
  map (fun cartItem =>
         if sameItem inventoryId cartItem then addQuantity delta cartItem else cartItem)
      cartItems.

(** The part of the screen's state that the checkout touches.  (The list of
    items, which the delayed callback fetches again, is described by
    [fetchedFrom] and is not a field here.) *)
Module Shop.
Record t : Type := mk {
  selectedRoom : string;
  cartItems : list CartItem.t;
  checkoutModal : bool;
  processingCheckout : bool;
  purchaseSuccess : bool
}.
End Shop.

(** [handleCheckout], up to the end of its [try]/[catch]. *)
Definition handleCheckout (now : Z) (s : Shop.t) (db : Db) : Shop.t * Db :=
  if String.eqb (Shop.selectedRoom s) "" || (length (Shop.cartItems s) =? 0)%nat
  then (s, db)
  else
    match processPurchase now (Shop.selectedRoom s) (Shop.cartItems s) db with
    | (Success, db') =>
        (Shop.mk (Shop.selectedRoom s) (Shop.cartItems s) (Shop.checkoutModal s)
                 true true, db')
    | (Failure _, db') =>
        (Shop.mk (Shop.selectedRoom s) (Shop.cartItems s) (Shop.checkoutModal s)
                 false false, db')
    end.

(** The callback that [handleCheckout] schedules two seconds after a
    success. *)
Definition afterCheckoutDelay (s : Shop.t) : Shop.t :=
  Shop.mk (Shop.selectedRoom s) [] false (Shop.processingCheckout s) false.

(** ** More of the room-history screen (BookedRooms.tsx) *)

(** A payment document as the screen reads it: [{ id: doc.id, ...doc.data() }]. *)
Definition readEntry (id : string) (d : PaymentDoc.t) : PaymentEntry.t :=
  PaymentEntry.mk id (PaymentDoc.amount d) (PaymentDoc.mode d) (PaymentDoc.type d)
                  (PaymentDoc.timestamp d) (Some (PaymentDoc.description d)).

(** One row of the payment table: the process label and the three amount
    variables of the [switch]; [None] is [null]. *)
Module HistoryRow.
Record t : Type := mk {
  process : string;
  cashAmount : option Z;
  gpayAmount : option Z;
  rentAmount : option Z
}.
End HistoryRow.

(** [if (entry.mode === m) xAmount = entry.amount] *)
Definition whenMode (entry : PaymentEntry.t) (m : string) : option Z :=
  if String.eqb (PaymentEntry.mode entry) m then Some (PaymentEntry.amount entry) else None.

Definition historyRow (entry : PaymentEntry.t) : HistoryRow.t :=
  if String.eqb (PaymentEntry.type entry) "Rent (Check-in)" then
    HistoryRow.mk "Check-in" None None (Some (PaymentEntry.amount entry))
  else if String.eqb (PaymentEntry.type entry) "extension" then
    HistoryRow.mk "Extension" None None (Some (PaymentEntry.amount entry))
  else if String.eqb (PaymentEntry.type entry) "initial" then
    HistoryRow.mk "Initial Payment" (whenMode entry "cash") (whenMode entry "gpay") None
  else if String.eqb (PaymentEntry.type entry) "advance" then
    HistoryRow.mk "Additional Payment" (whenMode entry "cash") (whenMode entry "gpay") None
  else
    HistoryRow.mk "" None None None.

(** What a cell shows, [x ? x.toFixed(2) : dash]: the amount, or nothing for
    [null] and for zero. *)
Definition shownAmount (x : option Z) : option Z :=
  match x with
  | Some 0 => None
  | _ => x
  end.

(** The entry that [handleAddPayment] adds. *)
Definition addedPayment (now amount : Z) : PaymentDoc.t :=
  PaymentDoc.mk amount "cash" "advance" now "Payment added for checked-out guest".

Section AddPayment.

(** [parseFloat] on the text of the amount field; [None] is [NaN]. *)
Variable parseFloat : string -> option Z.

(** The store after [handleAddPayment], for the selected customer (if any)
    and the text of the amount field.  On success the screen then closes the
    modal, clears the field and reads the history again. *)
Definition handleAddPayment (now : Z) (selectedCustomer : option Customer.t)
    (paymentAmount : string) (db : Db) : Db :=
  match selectedCustomer with
  | None => db
  | Some customer =>
      if String.eqb paymentAmount "" then db
      else
        match parseFloat paymentAmount with
        | None => db                                  (* isNaN(amount) *)
        | Some amount =>
            if amount <=? 0 then db                   (* 'Please enter a valid amount' *)
            else
              match apply_write
                      (SetPayment (Customer.id customer) (addedPayment now amount)) db with
              | Some db' => db'
              | None => db
              end
        end
  end.

End AddPayment.

(** ** The inventory screen (pages/inventory/Inventory.tsx) *)

(** [InventoryItem] of Inventory.tsx. *)
Module StockItem.
Record t : Type := mk {
  id : string;
  itemName : string;
  quantity : Z;
  unitPrice : Z;
  category : string;
  minStockLevel : Z;
  lastRestocked : string
}.
Definition restock (newQuantity : Z) (stamp : string) (item : t) : t :=
  mk (id item) (itemName item) newQuantity (unitPrice item) (category item)
     (minStockLevel item) stamp.
End StockItem.

(** ['add' | 'remove'] *)
Inductive Operation : Type := OpAdd | OpRemove.

(** The list and the per-item entry fields of the screen. *)
Module InventoryPage.
Record t : Type := mk {
  inventoryItems : list StockItem.t;
  updateQuantity : gmap string Z
}.
End InventoryPage.

(** [updateDoc(itemRef, { quantity: newQuantity, lastRestocked: ... })], on the
    fields of the document that the store model keeps: the quantity is
    overwritten (the restock stamp written with it is kept in the screen's
    list only).  The document must exist. *)
Definition updateDocQuantity (ref : string) (newQuantity : Z) (db : Db) : option Db :=
  d ← inventory db !! ref;
  Some (mkDb (<[ref := InventoryDoc.mk (InventoryDoc.itemName d) newQuantity
                         (InventoryDoc.unitPrice d) (InventoryDoc.category d)]>
               (inventory db))
             (purchases db) (checkins db) (payments db)).

Definition newQuantity (operation : Operation) (item : StockItem.t) (quantity : Z) : Z :=
  match operation with
  | OpAdd => StockItem.quantity item + quantity
  | OpRemove => Z.max 0 (StockItem.quantity item - quantity)
  end.

(** [handleUpdateQuantity]; [stamp] is [new Date().toISOString()]. *)
Definition handleUpdateQuantity (stamp : string) (page : InventoryPage.t)
    (itemId : string) (operation : Operation) (db : Db) : InventoryPage.t * Db :=
  match List.find (fun item => String.eqb (StockItem.id item) itemId)
                  (InventoryPage.inventoryItems page) with
  | None => (page, db)
  | Some item =>
      match InventoryPage.updateQuantity page !! itemId with
      | None | Some 0 => (page, db)          (* 'Please enter a valid quantity' *)
      | Some quantity =>
          match itemRef ← doc itemId;
                updateDocQuantity itemRef (newQuantity operation item quantity) db with
          | Some db' =>
              (InventoryPage.mk
                 (map (fun it =>
                         if String.eqb (StockItem.id it) itemId
                         then StockItem.restock
                                (newQuantity operation item quantity)
                                (match operation with
                                 | OpAdd => stamp
                                 | OpRemove => StockItem.lastRestocked it
                                 end) it
                         else it)
                      (InventoryPage.inventoryItems page))
                 (<[itemId := 0]> (InventoryPage.updateQuantity page)),
               db')
          | None => (page, db)               (* 'Failed to update inventory' *)
          end
      end
  end.

(** [handleDeleteItem]; [itemId] is [confirmModal.itemId]. *)
Definition handleDeleteItem (page : InventoryPage.t) (itemId : option string) (db : Db)
  : InventoryPage.t * Db :=
  match itemId with
  | None => (page, db)
  | Some itemId =>
      match doc itemId with
      | None => (page, db)
      | Some itemRef =>
          (InventoryPage.mk
             (List.filter (fun item => negb (String.eqb (StockItem.id item) itemId))
                          (InventoryPage.inventoryItems page))
             (InventoryPage.updateQuantity page),
           mkDb (delete itemRef (inventory db)) (purchases db) (checkins db) (payments db))
      end
  end.

(** ** The payment log (pages/payments) *)

(** A record of the payment log, as [fetchAllPayments] builds it. *)
Module PaymentRecord.
Record t : Type := mk {
  id : string;
  amount : Z;
  timestamp : Z;
  type : string;
  paymentStatus : string;
  customerName : string;
  roomNumber : string;
  description : string;
  paymentMode : string;
  mode : string
}.
End PaymentRecord.

(** [x || fallback] on a string. *)
Definition orElse (x fallback : string) : string :=
  if String.eqb x "" then fallback else x.

(** The callback that [fetchAllPayments] maps over the payments of a check-in;
    [guestName] and [roomNumber] are read from the check-in document.  A
    payment document of the store always carries its timestamp, so the
    fallback to the current date does not arise. *)
Definition toPaymentRecord (guestName roomNumber : string) (payId : string)
    (payData : PaymentDoc.t) : PaymentRecord.t :=
  PaymentRecord.mk payId (PaymentDoc.amount payData) (PaymentDoc.timestamp payData)
    (orElse (PaymentDoc.type payData) "additional")
    "completed"
    (orElse guestName "Guest")
    (orElse roomNumber "N/A")
    (if String.eqb (PaymentDoc.type payData) "extension"
     then "Stay extension" else "Additional payment")
    (PaymentDoc.mode payData)
    (PaymentDoc.mode payData).

Definition isCash (payment : PaymentRecord.t) : bool :=
  String.eqb (PaymentRecord.mode payment) "cash"
  || String.eqb (PaymentRecord.paymentMode payment) "cash".

Definition isGpay (payment : PaymentRecord.t) : bool :=
  String.eqb (PaymentRecord.mode payment) "gpay"
  || String.eqb (PaymentRecord.paymentMode payment) "gpay".

(** [.reduce((sum, payment) => sum + (parseFloat(payment.amount) || 0), 0)] *)
Definition sumPayments (payments : list PaymentRecord.t) : Z :=
  fold_left (fun sum payment => sum + PaymentRecord.amount payment) payments 0.

(** [getTotalAmount], [getCashTotal] and [getGpayTotal] of PaymentsPage.tsx. *)
Definition getTotalAmount (filteredPayments : list PaymentRecord.t) : Z :=
  sumPayments
    (List.filter (fun payment =>
                    String.eqb (PaymentRecord.mode payment) "cash"
                    || String.eqb (PaymentRecord.mode payment) "gpay"
                    || String.eqb (PaymentRecord.paymentMode payment) "cash"
                    || String.eqb (PaymentRecord.paymentMode payment) "gpay")
                 filteredPayments).

Definition getCashTotal (filteredPayments : list PaymentRecord.t) : Z :=
  sumPayments (List.filter isCash filteredPayments).

Definition getGpayTotal (filteredPayments : list PaymentRecord.t) : Z :=
  sumPayments (List.filter isGpay filteredPayments).

(** [cashTotal] and [gpayTotal] of PaymentSummary.tsx. *)
Definition summaryTotal (wanted : string) (filteredPayments : list PaymentRecord.t) : Z :=
  fold_left
    (fun acc payment =>
       if String.eqb (PaymentRecord.mode payment) wanted
          || (String.eqb (PaymentRecord.paymentMode payment) wanted
              && (0 <? PaymentRecord.amount payment))
       then acc + PaymentRecord.amount payment
       else acc)
    filteredPayments 0.

(** The pages of PaymentList.tsx: [pageSize], [totalPages], the slice shown
    on a page, and [goToPage]. *)
Definition pageSize : nat := 10.

Definition totalPages {A : Type} (sortedPayments : list A) : nat :=
  Nat.div (length sortedPayments + (pageSize - 1)) pageSize.

Definition currentPagePayments {A : Type} (sortedPayments : list A) (currentPage : nat)
  : list A :=
  firstn pageSize (skipn ((currentPage - 1) * pageSize) sortedPayments).

Definition goToPage {A : Type} (sortedPayments : list A) (currentPage page : nat) : nat :=
  if (1 <=? page)%nat && (page <=? totalPages sortedPayments)%nat then page else currentPage.

(** ** Reading the store back, and identifiers *)

(** What the query of [getPurchasesByCheckin] can return.  The query has no
    [orderBy] and the records carry automatic ids, so the store hands the
    matching documents back in an order that the order of writing does not
    fix: any arrangement of the matching records. *)
Definition purchasesQuery (checkinId : string) (db : Db) (result : list PurchaseDoc.t)
  : Prop :=
  result ≡ₚ getPurchasesByCheckin checkinId db.

(** An identifier without a slash, as every document id of the store is.  (For
    an identifier with slashes the real [doc] counts path segments; such
    identifiers are kept out by this condition where it matters.) *)
Fixpoint noSlash (id : string) : bool :=
  match id with
  | EmptyString => true
  | String c rest => negb (String.eqb (String c EmptyString) "/") && noSlash rest
  end.

(** ** The sums of the purchase service over IEEE doubles *)

Module Doubles.
Import PrimFloat.
#[local] Set Warnings "-inexact-float".

(** The two numbers of a cart line. *)
Record Line : Type := mkLine {
  quantity : float;
  unitPrice : float
}.

(** [cartItems.reduce((total, item) => total + item.quantity * item.unitPrice, 0)] *)
Definition totalAmount (cartItems : list Line) : float :=
  fold_left (fun total item => (total + quantity item * unitPrice item)%float)
            cartItems 0%float.

(** The [amount] of the purchase records of a cart, in cart order:
    [item.quantity * item.unitPrice]. *)
Definition recordAmounts (cartItems : list Line) : list float :=
  map (fun item => (quantity item * unitPrice item)%float) cartItems.

(** The [amount] of the payment entry of a cart: [-totalAmount]. *)
Definition entryAmount (cartItems : list Line) : float :=
  (- totalAmount cartItems)%float.

(** [shopPurchases.reduce((total, purchase) => total + purchase.amount, 0)] *)
Definition getTotalShopPurchases (amounts : list float) : float :=
  fold_left (fun total amount => (total + amount)%float) amounts 0%float.

(** The sum of the absolute values of the entries' amounts. *)
Definition shopOffsetsTotal (entries : list float) : float :=
  fold_left (fun total e => (total + abs e)%float) entries 0%float.

(** The record amounts and the entry amounts that a sequence of committed
    carts writes for one check-in, in the order of writing. *)
Definition recordsOf (carts : list (list Line)) : list float :=
  concat (map recordAmounts carts).

Definition entriesOf (carts : list (list Line)) : list float :=
  map entryAmount carts.

(** Two purchases with prices in steps of a tenth, and the two sums they lead
    to. *)
Definition tenthsCarts : list (list Line) :=
  [[mkLine 1 0.1; mkLine 1 0.6]; [mkLine 1 0.5; mkLine 1 0.9]].

Definition recordsSumOfTenths : float := 2.1%float.
Definition entriesSumOfTenths : float := 2.0999999999999996%float.

(** Two purchases with whole prices. *)
Definition wholeCarts : list (list Line) :=
  [[mkLine 2 50]; [mkLine 1 30; mkLine 1 50]].

End Doubles.

(** * Proofs *)

(** ** Sums written as [reduce] *)

Ltac shift_tac := intros; repeat case_match; lia.

Section FoldSum.
Context {A : Type} (f : Z -> A -> Z).
Hypothesis f_shift : forall a x, f a x = a + f 0 x.

Lemma fold_left_shift (l : list A) (a : Z) :
    fold_left f l a = a + fold_left f l 0.
  Proof.
    revert a. induction l as [|x l IH]; intros a; simpl; [lia|].
    rewrite (IH (f a x)), (IH (f 0 x)), (f_shift a x). lia.
  Qed.

Lemma fold_left_sum_cons (x : A) (l : list A) :
    fold_left f (x :: l) 0 = f 0 x + fold_left f l 0.
  Proof. simpl. apply fold_left_shift. Qed.

Lemma fold_left_sum_app (l1 l2 : list A) :
    fold_left f (l1 ++ l2) 0 = fold_left f l1 0 + fold_left f l2 0.
  Proof. rewrite fold_left_app. apply fold_left_shift. Qed.
End FoldSum.

Lemma totalAmount_cons (item : CartItem.t) (rest : list CartItem.t) :
  totalAmount (item :: rest)
  = CartItem.quantity item * CartItem.unitPrice item + totalAmount rest.
Proof. unfold totalAmount. rewrite fold_left_sum_cons by shift_tac. lia. Qed.

Lemma getTotalShopPurchases_app (l1 l2 : list PurchaseDoc.t) :
  getTotalShopPurchases (l1 ++ l2) = getTotalShopPurchases l1 + getTotalShopPurchases l2.
Proof. unfold getTotalShopPurchases. apply fold_left_sum_app. shift_tac. Qed.

Lemma getTotalShopPurchases_records (now : Z) (checkinId : string)
    (cartItems : list CartItem.t) :
  getTotalShopPurchases (map (purchaseRecord now checkinId) cartItems)
  = totalAmount cartItems.
Proof.
  induction cartItems as [|item rest IH]; [reflexivity|].
  rewrite totalAmount_cons, <- IH. simpl map.
  unfold getTotalShopPurchases. rewrite fold_left_sum_cons by shift_tac.
  simpl. lia.
Qed.

Lemma totalAmount_nonneg (cartItems : list CartItem.t) :
  Forall (fun item => 0 <= CartItem.quantity item /\ 0 <= CartItem.unitPrice item)
         cartItems ->
  0 <= totalAmount cartItems.
Proof.
  induction 1 as [|item rest [Hq Hp] _ IH]; [reflexivity|].
  rewrite totalAmount_cons. nia.
Qed.

(** ** The store after a commit *)

Lemma commit_app (b1 b2 : list Write) (db : Db) :
  commit (b1 ++ b2) db = commit b1 db ≫= commit b2.
Proof.
  revert db. induction b1 as [|w b1 IH]; intros db; simpl; [reflexivity|].
  destruct (apply_write w db) as [db1|]; simpl; [apply IH | reflexivity].
Qed.

Lemma commit_purchases (batch : list Write) (db db' : Db) :
  commit batch db = Some db' ->
  purchases db' = purchases db ++ purchasesWritten batch.
Proof.
  revert db. induction batch as [|w batch IH]; intros db H; simpl in H.
  - injection H as <-. unfold purchasesWritten. simpl. by rewrite app_nil_r.
  - destruct (apply_write w db) as [db1|] eqn:Hw; simpl in H; [|discriminate].
    rewrite (IH _ H). unfold purchasesWritten.
    destruct w; simpl in Hw; simplify_option_eq; simpl; try reflexivity.
    by rewrite <- app_assoc.
Qed.

Lemma commit_payments (checkinId : string) (batch : list Write) (db db' : Db) :
  commit batch db = Some db' ->
  paymentsOf checkinId db' = paymentsOf checkinId db ++ paymentsWritten checkinId batch.
Proof.
  revert db. induction batch as [|w batch IH]; intros db H; simpl in H.
  - injection H as <-. unfold paymentsWritten. simpl. by rewrite app_nil_r.
  - destruct (apply_write w db) as [db1|] eqn:Hw; simpl in H; [|discriminate].
    rewrite (IH _ H). unfold paymentsWritten.
    destruct w; simpl in Hw; simplify_option_eq; simpl; try reflexivity.
    unfold paymentsOf at 1. simpl.
    destruct (String.eqb_spec checkinId0 checkinId) as [->|Hne].
    + rewrite lookup_insert_eq. simpl. by rewrite <- app_assoc.
    + rewrite lookup_insert_ne by done. reflexivity.
Qed.

Lemma commit_checkins (ref : string) (batch : list Write) (db db' : Db) :
  commit batch db = Some db' ->
  checkins db' !! ref
  = CheckinDoc.increment_initialPayment (checkinDelta ref batch) <$> checkins db !! ref.
Proof.
  revert db. induction batch as [|w batch IH]; intros db H; simpl in H.
  - injection H as <-. unfold checkinDelta. simpl.
    destruct (checkins db !! ref) as [[]|]; simpl; [|reflexivity].
    unfold CheckinDoc.increment_initialPayment. simpl. do 2 f_equal. lia.
  - destruct (apply_write w db) as [db1|] eqn:Hw; simpl in H; [|discriminate].
    rewrite (IH _ H). unfold checkinDelta.
    rewrite fold_left_sum_cons by shift_tac.
    destruct w; simpl in Hw; simplify_option_eq; simpl; try reflexivity.
    destruct (String.eqb_spec ref0 ref) as [->|Hne].
    + rewrite lookup_insert_eq. simplify_option_eq. simpl.
      unfold CheckinDoc.increment_initialPayment. simpl. do 2 f_equal. lia.
    + rewrite lookup_insert_ne by done. reflexivity.
Qed.

Lemma commit_inventory (ref : string) (batch : list Write) (db db' : Db) :
  commit batch db = Some db' ->
  inventory db' !! ref
  = InventoryDoc.increment_quantity (inventoryDelta ref batch) <$> inventory db !! ref.
Proof.
  revert db. induction batch as [|w batch IH]; intros db H; simpl in H.
  - injection H as <-. unfold inventoryDelta. simpl.
    destruct (inventory db !! ref) as [[]|]; simpl; [|reflexivity].
    unfold InventoryDoc.increment_quantity. simpl. do 2 f_equal. lia.
  - destruct (apply_write w db) as [db1|] eqn:Hw; simpl in H; [|discriminate].
    rewrite (IH _ H). unfold inventoryDelta.
    rewrite fold_left_sum_cons by shift_tac.
    destruct w; simpl in Hw; simplify_option_eq; simpl; try reflexivity.
    destruct (String.eqb_spec ref0 ref) as [->|Hne].
    + rewrite lookup_insert_eq. simplify_option_eq. simpl.
      unfold InventoryDoc.increment_quantity. simpl. do 2 f_equal. lia.
    + rewrite lookup_insert_ne by done. reflexivity.
Qed.

(** ** The batch of [processPurchase] *)

Lemma doc_Some (id ref : string) : doc id = Some ref -> ref = id /\ id <> "".
Proof.
  unfold doc. destruct (String.eqb_spec id ""); [discriminate|].
  intros [= <-]. done.
Qed.

Lemma doc_nonempty (id : string) : id <> "" -> doc id = Some id.
Proof. unfold doc. destruct (String.eqb_spec id ""); done. Qed.

Lemma inventoryUpdates_Some (cartItems : list CartItem.t) (ws : list Write) :
  inventoryUpdates cartItems = Some ws ->
  ws = map inventoryWrite cartItems.
Proof.
  revert ws. induction cartItems as [|item rest IH]; intros ws H; simpl in H.
  - by injection H as <-.
  - destruct (doc (CartItem.inventoryId item)) as [ref|] eqn:Hd; simpl in H; [|discriminate].
    destruct (inventoryUpdates rest) as [ws'|]; simpl in H; [|discriminate].
    injection H as <-. apply doc_Some in Hd as [-> _].
    simpl. f_equal. by apply IH.
Qed.

Lemma inventoryUpdates_nonempty_ids (cartItems : list CartItem.t) :
  Forall (fun item => CartItem.inventoryId item <> "") cartItems ->
  inventoryUpdates cartItems = Some (map inventoryWrite cartItems).
Proof.
  induction 1 as [|item rest Hid _ IH]; [reflexivity|].
  simpl. rewrite (doc_nonempty _ Hid), IH. reflexivity.
Qed.

Lemma purchaseBatch_Some (now : Z) (checkinId : string)
    (cartItems : list CartItem.t) (batch : list Write) :
  purchaseBatch now checkinId cartItems = Some batch ->
  batch = batchOf now checkinId cartItems.
Proof.
  unfold purchaseBatch. intros H.
  destruct (inventoryUpdates cartItems) as [ws|] eqn:Hinv; simpl in H; [|discriminate].
  destruct (doc checkinId) as [ref|] eqn:Hd; simpl in H; [|discriminate].
  injection H as <-. apply doc_Some in Hd as [-> _].
  by rewrite (inventoryUpdates_Some _ _ Hinv).
Qed.

Lemma purchasesWritten_app (b1 b2 : list Write) :
  purchasesWritten (b1 ++ b2) = purchasesWritten b1 ++ purchasesWritten b2.
Proof. apply omap_app. Qed.

Lemma paymentsWritten_app (c : string) (b1 b2 : list Write) :
  paymentsWritten c (b1 ++ b2) = paymentsWritten c b1 ++ paymentsWritten c b2.
Proof. apply omap_app. Qed.

Lemma checkinDelta_app (c : string) (b1 b2 : list Write) :
  checkinDelta c (b1 ++ b2) = checkinDelta c b1 + checkinDelta c b2.
Proof. unfold checkinDelta. apply fold_left_sum_app. shift_tac. Qed.

Lemma inventoryDelta_app (c : string) (b1 b2 : list Write) :
  inventoryDelta c (b1 ++ b2) = inventoryDelta c b1 + inventoryDelta c b2.
Proof. unfold inventoryDelta. apply fold_left_sum_app. shift_tac. Qed.

Lemma inventoryDelta_cons (c : string) (w : Write) (b : list Write) :
  inventoryDelta c (w :: b) = inventoryDelta c [w] + inventoryDelta c b.
Proof. apply (inventoryDelta_app c [w] b). Qed.

Lemma checkinDelta_cons (c : string) (w : Write) (b : list Write) :
  checkinDelta c (w :: b) = checkinDelta c [w] + checkinDelta c b.
Proof. apply (checkinDelta_app c [w] b). Qed.

(** The inventory writes touch nothing but the inventory, the purchase writes
    nothing but the purchases. *)
Lemma inventoryWrites_only (c : string) (cartItems : list CartItem.t) :
  purchasesWritten (map inventoryWrite cartItems) = []
  /\ paymentsWritten c (map inventoryWrite cartItems) = []
  /\ checkinDelta c (map inventoryWrite cartItems) = 0.
Proof.
  induction cartItems as [|item rest (IH1 & IH2 & IH3)]; [done|].
  simpl map. rewrite checkinDelta_cons, IH3. done.
Qed.

Lemma purchaseWrites_only (now : Z) (checkinId c : string) (cartItems : list CartItem.t) :
  purchasesWritten (map (purchaseWrite now checkinId) cartItems)
  = map (purchaseRecord now checkinId) cartItems
  /\ paymentsWritten c (map (purchaseWrite now checkinId) cartItems) = []
  /\ checkinDelta c (map (purchaseWrite now checkinId) cartItems) = 0
  /\ inventoryDelta c (map (purchaseWrite now checkinId) cartItems) = 0.
Proof.
  induction cartItems as [|item rest (IH1 & IH2 & IH3 & IH4)]; [done|].
  simpl map. rewrite checkinDelta_cons, inventoryDelta_cons, IH3, IH4.
  repeat split; try done.
  change (purchaseRecord now checkinId item
          :: purchasesWritten (map (purchaseWrite now checkinId) rest)
          = purchaseRecord now checkinId item :: map (purchaseRecord now checkinId) rest).
  by rewrite IH1.
Qed.

Lemma inventoryWrites_delta (ref : string) (cartItems : list CartItem.t) :
  inventoryDelta ref (map inventoryWrite cartItems) = - requestedQuantity ref cartItems.
Proof.
  unfold requestedQuantity.
  induction cartItems as [|item rest IH]; [reflexivity|].
  simpl map. rewrite inventoryDelta_cons, IH.
  rewrite fold_left_sum_cons by shift_tac.
  unfold inventoryDelta, inventoryWrite, sameItem. simpl.
  destruct (String.eqb (CartItem.inventoryId item) ref); lia.
Qed.

Lemma batch_purchasesWritten (now : Z) (checkinId : string) (cartItems : list CartItem.t) :
  purchasesWritten (batchOf now checkinId cartItems)
  = map (purchaseRecord now checkinId) cartItems.
Proof.
  unfold batchOf. rewrite !purchasesWritten_app.
  destruct (inventoryWrites_only checkinId cartItems) as (-> & _).
  destruct (purchaseWrites_only now checkinId checkinId cartItems) as (-> & _).
  simpl. by rewrite app_nil_r.
Qed.

Lemma batch_paymentsWritten (now : Z) (checkinId c : string) (cartItems : list CartItem.t) :
  paymentsWritten c (batchOf now checkinId cartItems)
  = if String.eqb checkinId c then [shopPaymentEntry now cartItems] else [].
Proof.
  unfold batchOf. rewrite !paymentsWritten_app.
  destruct (inventoryWrites_only c cartItems) as (_ & -> & _).
  destruct (purchaseWrites_only now checkinId c cartItems) as (_ & -> & _).
  simpl. unfold paymentsWritten. simpl. by destruct (String.eqb checkinId c).
Qed.

Lemma batch_checkinDelta (now : Z) (checkinId c : string) (cartItems : list CartItem.t) :
  checkinDelta c (batchOf now checkinId cartItems)
  = if String.eqb checkinId c then - totalAmount cartItems else 0.
Proof.
  unfold batchOf. rewrite !checkinDelta_app.
  destruct (inventoryWrites_only c cartItems) as (_ & _ & ->).
  destruct (purchaseWrites_only now checkinId c cartItems) as (_ & _ & -> & _).
  unfold checkinDelta. simpl. by destruct (String.eqb checkinId c).
Qed.

Lemma batch_inventoryDelta (now : Z) (checkinId ref : string) (cartItems : list CartItem.t) :
  inventoryDelta ref (batchOf now checkinId cartItems) = - requestedQuantity ref cartItems.
Proof.
  unfold batchOf. rewrite !inventoryDelta_app, inventoryWrites_delta.
  destruct (purchaseWrites_only now checkinId ref cartItems) as (_ & _ & _ & ->).
  unfold inventoryDelta. simpl. lia.
Qed.

(** The two ways [processPurchase] can end. *)
Lemma processPurchase_Success (now : Z) (checkinId : string)
    (cartItems : list CartItem.t) (db db' : Db) :
  processPurchase now checkinId cartItems db = (Success, db') ->
  checkinId <> "" /\ cartItems <> [] /\
  commit (batchOf now checkinId cartItems) db = Some db'.
Proof.
  unfold processPurchase. intros H.
  destruct (String.eqb_spec checkinId ""); simpl in H; [discriminate|].
  destruct cartItems as [|item rest]; simpl in H; [discriminate|].
  destruct (purchaseBatch now checkinId (item :: rest)) as [batch|] eqn:Hb; [|discriminate].
  destruct (commit batch db) as [db1|] eqn:Hc; [|discriminate].
  injection H as <-. apply purchaseBatch_Some in Hb. subst batch. done.
Qed.

Lemma processPurchase_Failure (now : Z) (checkinId : string)
    (cartItems : list CartItem.t) (db db' : Db) (e : PurchaseError) :
  processPurchase now checkinId cartItems db = (Failure e, db') -> db' = db.
Proof.
  unfold processPurchase. intros H.
  destruct (String.eqb checkinId "" || (length cartItems =? 0)%nat);
    [by injection H as _ <-|].
  destruct (purchaseBatch now checkinId cartItems) as [batch|];
    [|by injection H as _ <-].
  destruct (commit batch db) as [db1|]; [discriminate | by injection H as _ <-].
Qed.

(** An update that was committed found its document. *)
Lemma commit_checkin_exists (ref : string) (delta : Z) (batch : list Write) (db db' : Db) :
  commit batch db = Some db' ->
  In (UpdateCheckinInitialPayment ref delta) batch ->
  is_Some (checkins db !! ref).
Proof.
  revert db. induction batch as [|w batch IH]; intros db H Hin; [destruct Hin|].
  simpl in H. destruct (apply_write w db) as [db1|] eqn:Hw; simpl in H; [|discriminate].
  destruct Hin as [->|Hin].
  - simpl in Hw. destruct (checkins db !! ref); [eauto | discriminate].
  - specialize (IH _ H Hin).
    assert (Hone : commit [w] db = Some db1) by (simpl; by rewrite Hw).
    rewrite (commit_checkins ref _ _ _ Hone) in IH.
    by apply fmap_is_Some in IH.
Qed.

Lemma commit_inventory_exists (ref : string) (delta : Z) (batch : list Write) (db db' : Db) :
  commit batch db = Some db' ->
  In (UpdateInventoryQuantity ref delta) batch ->
  is_Some (inventory db !! ref).
Proof.
  revert db. induction batch as [|w batch IH]; intros db H Hin; [destruct Hin|].
  simpl in H. destruct (apply_write w db) as [db1|] eqn:Hw; simpl in H; [|discriminate].
  destruct Hin as [->|Hin].
  - simpl in Hw. destruct (inventory db !! ref); [eauto | discriminate].
  - specialize (IH _ H Hin).
    assert (Hone : commit [w] db = Some db1) by (simpl; by rewrite Hw).
    rewrite (commit_inventory ref _ _ _ Hone) in IH.
    by apply fmap_is_Some in IH.
Qed.

Lemma checkin_update_in_batch (now : Z) (checkinId : string) (cartItems : list CartItem.t) :
  In (UpdateCheckinInitialPayment checkinId (- totalAmount cartItems))
     (batchOf now checkinId cartItems).
Proof. unfold batchOf. rewrite !in_app_iff. right. right. by left. Qed.

(** ** Claims about [processPurchase] *)

(** C8.  A call of [processPurchase] with a cart of zero lines fails, with the
    error 'Invalid purchase data' that the code raises for an empty cart, and
    the rejection comes before any write: the store that comes back is the
    store that went in, so no inventory quantity, purchase record, payment
    entry or check-in field is changed. *)
Theorem C8_empty_cart_rejected_before_any_write (now : Z) (checkinId : string) (db : Db) :
  processPurchase now checkinId [] db = (Failure InvalidPurchaseData, db).
Proof. unfold processPurchase. simpl. by rewrite orb_true_r. Qed.

(** C2.  [processPurchase] is all-or-nothing: a call always ends in success
    or in failure, and whenever it fails, for whatever reason (rejected
    arguments, an exception while the batch is assembled, a batch rejected at
    commit after some of its writes applied to the working copy), the store
    is exactly as before: every inventory document, the purchase records,
    the payments of every check-in and the check-in documents. *)
Theorem C2_failed_purchase_changes_nothing (now : Z) (checkinId : string)
    (cartItems : list CartItem.t) (db db' : Db) (e : PurchaseError) :
  processPurchase now checkinId cartItems db = (Failure e, db') ->
  db' = db
  /\ (forall ref, inventory db' !! ref = inventory db !! ref)
  /\ purchases db' = purchases db
  /\ (forall c, paymentsOf c db' = paymentsOf c db)
  /\ (forall c, checkins db' !! c = checkins db !! c).
Proof. intros H. apply processPurchase_Failure in H. by subst db'. Qed.

(** A failing call for C2: the second cart line names an item the store does
    not hold, so the batch is rejected after the first decrement applied to
    the working copy. *)
Lemma C2_witness :
  let cart := [CartItem.mk "soap" "Soap" 2 50; CartItem.mk "ghost" "Ghost" 1 10] in
  processPurchase 7 "stay1" cart exampleDb = (Failure CommitRejected, exampleDb)
  /\ (forall ref, inventory exampleDb !! ref = inventory exampleDb !! ref)
  /\ purchases exampleDb = purchases exampleDb.
Proof.
  intros cart.
  assert (H : processPurchase 7 "stay1" cart exampleDb = (Failure CommitRejected, exampleDb))
    by (vm_compute; reflexivity).
  split; [exact H|].
  destruct (C2_failed_purchase_changes_nothing 7 "stay1" cart exampleDb exampleDb
              CommitRejected H) as (_ & Hi & Hp & _).
  split; [exact Hi | exact Hp].
Defined.

(** C5.  A successful [processPurchase] (its cart is then non-empty) appends
    exactly one entry to the payments of the target check-in, with amount
    minus the sum of quantity times unit price over the cart lines, type
    'shop-purchase', mode 'shop' (a mode that is neither cash nor GPay) and
    the description 'Shop purchase (n items)' for a cart of n lines; the
    payments of every other check-in are untouched; and it appends exactly
    one purchase record per cart line, in cart order, with amount quantity
    times unit price and payment status 'pending'. *)
Theorem C5_success_appends_one_entry_and_one_record_per_line (now : Z)
    (checkinId : string) (cartItems : list CartItem.t) (db db' : Db) :
  processPurchase now checkinId cartItems db = (Success, db') ->
  cartItems <> []
  /\ paymentsOf checkinId db'
     = paymentsOf checkinId db
       ++ [PaymentDoc.mk (- totalAmount cartItems) "shop" "shop-purchase" now
             ("Shop purchase (" +:+ pretty (length cartItems) +:+ " items)")]
  /\ modeClass "shop" = NotApplicable
  /\ (forall c, c <> checkinId -> paymentsOf c db' = paymentsOf c db)
  /\ purchases db'
     = purchases db
       ++ map (fun item =>
                 PurchaseDoc.mk checkinId (CartItem.inventoryId item)
                   (CartItem.itemName item) (CartItem.quantity item)
                   (CartItem.quantity item * CartItem.unitPrice item) "pending" now)
              cartItems
  /\ length (purchases db') = (length (purchases db) + length cartItems)%nat.
Proof.
  intros H. apply processPurchase_Success in H as (_ & Hne & Hc).
  split; [exact Hne|].
  pose proof (commit_purchases _ _ _ Hc) as Hp.
  rewrite batch_purchasesWritten in Hp.
  repeat split.
  - rewrite (commit_payments checkinId _ _ _ Hc), batch_paymentsWritten.
    by rewrite String.eqb_refl.
  - intros c Hneq. rewrite (commit_payments c _ _ _ Hc), batch_paymentsWritten.
    destruct (String.eqb_spec checkinId c); [congruence|]. by rewrite app_nil_r.
  - exact Hp.
  - rewrite Hp, length_app, length_map. reflexivity.
Qed.

Lemma C5_witness :
  paymentsOf "stay1" (snd (processPurchase 7 "stay1" twoSoaps exampleDb))
  = [initialCash; PaymentDoc.mk (-100) "shop" "shop-purchase" 7 "Shop purchase (1 items)"].
Proof.
  destruct (C5_success_appends_one_entry_and_one_record_per_line
              7 "stay1" twoSoaps exampleDb
              (snd (processPurchase 7 "stay1" twoSoaps exampleDb)))
    as (_ & Hpay & _).
  - vm_compute. reflexivity.
  - rewrite Hpay. vm_compute. reflexivity.
Defined.

(** C10.  A successful [processPurchase] also changes the check-in document
    itself: the target check-in exists, its stored initialPayment is lowered
    by totalAmount, its other fields are kept, and every other check-in
    document is left as it was. *)
Theorem C10_success_lowers_initialPayment (now : Z) (checkinId : string)
    (cartItems : list CartItem.t) (db db' : Db) :
  processPurchase now checkinId cartItems db = (Success, db') ->
  exists c c',
    checkins db !! checkinId = Some c
    /\ checkins db' !! checkinId = Some c'
    /\ CheckinDoc.initialPayment c' = CheckinDoc.initialPayment c - totalAmount cartItems
    /\ CheckinDoc.rent c' = CheckinDoc.rent c
    /\ CheckinDoc.isCheckedOut c' = CheckinDoc.isCheckedOut c
    /\ (forall other, other <> checkinId -> checkins db' !! other = checkins db !! other).
Proof.
  intros H. apply processPurchase_Success in H as (_ & _ & Hc).
  destruct (commit_checkin_exists _ _ _ _ _ Hc (checkin_update_in_batch _ _ _)) as [c Hl].
  exists c, (CheckinDoc.increment_initialPayment (- totalAmount cartItems) c).
  split; [exact Hl|]. split.
  - rewrite (commit_checkins checkinId _ _ _ Hc), batch_checkinDelta, String.eqb_refl, Hl.
    reflexivity.
  - split; [simpl; lia|]. split; [reflexivity|]. split; [reflexivity|].
    intros other Hneq.
    rewrite (commit_checkins other _ _ _ Hc), batch_checkinDelta.
    destruct (String.eqb_spec checkinId other); [congruence|].
    destruct (checkins db !! other) as [[]|]; simpl; [|reflexivity].
    unfold CheckinDoc.increment_initialPayment. simpl. do 2 f_equal. lia.
Qed.

Lemma C10_witness :
  exists c', checkins (snd (processPurchase 7 "stay1" twoSoaps exampleDb)) !! "stay1" = Some c'
             /\ CheckinDoc.initialPayment c' = 900.
Proof.
  destruct (C10_success_lowers_initialPayment 7 "stay1" twoSoaps exampleDb
              (snd (processPurchase 7 "stay1" twoSoaps exampleDb)))
    as (c & c' & Hc & Hc' & Hip & _).
  - vm_compute. reflexivity.
  - exists c'. split; [exact Hc'|].
    rewrite Hip. vm_compute in Hc. injection Hc as <-. reflexivity.
Defined.

(** C7 as stated fails for a stay that is checked out: [processPurchase]
    never reads isCheckedOut.  On the example store, check-in "stay2" is
    checked out, yet buying two soaps on it succeeds, takes the soaps out of
    the inventory, writes a purchase record and a payment entry. *)
Lemma C7_counterexample :
  CheckinDoc.isCheckedOut <$> checkins exampleDb !! "stay2" = Some true
  /\ fst (processPurchase 7 "stay2" twoSoaps exampleDb) = Success
  /\ InventoryDoc.quantity <$> inventory exampleDb !! "soap" = Some 5
  /\ InventoryDoc.quantity
       <$> inventory (snd (processPurchase 7 "stay2" twoSoaps exampleDb)) !! "soap" = Some 3
  /\ length (purchases (snd (processPurchase 7 "stay2" twoSoaps exampleDb))) = 1%nat
  /\ paymentsOf "stay2" (snd (processPurchase 7 "stay2" twoSoaps exampleDb))
     = [PaymentDoc.mk (-100) "shop" "shop-purchase" 7 "Shop purchase (1 items)"].
Proof. vm_compute. repeat split; reflexivity. Qed.

(** C7, amended.  A call of [processPurchase] whose target check-in document
    does not exist fails and the whole transaction is dropped: the store
    comes back unchanged, so there is no inventory decrement, no purchase
    record and no payment entry. *)
Theorem C7_unknown_stay_aborts (now : Z) (checkinId : string)
    (cartItems : list CartItem.t) (db : Db) :
  checkins db !! checkinId = None ->
  exists e, processPurchase now checkinId cartItems db = (Failure e, db).
Proof.
  intros Hnone.
  destruct (processPurchase now checkinId cartItems db) as [[|e] db'] eqn:H.
  - apply processPurchase_Success in H as (_ & _ & Hc).
    destruct (commit_checkin_exists _ _ _ _ _ Hc (checkin_update_in_batch _ _ _)) as [c Hl].
    congruence.
  - exists e. by rewrite (processPurchase_Failure _ _ _ _ _ _ H).
Qed.

Lemma C7_witness :
  exists e, processPurchase 7 "stay9" twoSoaps exampleDb = (Failure e, exampleDb).
Proof.
  apply (C7_unknown_stay_aborts 7 "stay9" twoSoaps exampleDb).
  vm_compute. reflexivity.
Defined.

(** ** Prices *)

Lemma reprice_inventory_lookup (f : string -> Z -> Z) (db : Db) (ref : string) :
  inventory (reprice f db) !! ref
  = (fun d => InventoryDoc.with_unitPrice (f ref (InventoryDoc.unitPrice d)) d)
      <$> inventory db !! ref.
Proof.
  unfold reprice. simpl. rewrite map_lookup_imap.
  by destruct (inventory db !! ref).
Qed.

Lemma apply_write_reprice (f : string -> Z -> Z) (w : Write) (db : Db) :
  apply_write w (reprice f db) = reprice f <$> apply_write w db.
Proof.
  destruct w as [ref delta|p|ref delta|c e]; try reflexivity.
  - unfold apply_write. rewrite reprice_inventory_lookup.
    destruct (inventory db !! ref) as [d|] eqn:Hd; simpl; [|reflexivity].
    unfold reprice. simpl. do 2 f_equal.
    apply map_eq. intros i. rewrite map_lookup_imap.
    destruct (decide (ref = i)) as [->|Hne].
    + rewrite !lookup_insert_eq. reflexivity.
    + rewrite !lookup_insert_ne by done. by rewrite map_lookup_imap.
  - simpl. destruct (checkins db !! ref); reflexivity.
Qed.

Lemma commit_reprice (f : string -> Z -> Z) (batch : list Write) (db : Db) :
  commit batch (reprice f db) = reprice f <$> commit batch db.
Proof.
  revert db. induction batch as [|w batch IH]; intros db; simpl; [reflexivity|].
  rewrite apply_write_reprice.
  destruct (apply_write w db) as [db1|]; simpl; [apply IH | reflexivity].
Qed.

(** C6 as stated fails: the amounts come from the unit prices carried by the
    cart lines.  The store sells soap at 50; a cart line that still carries
    40 (the price when the line was created) is billed 2 x 40 = 80, where
    pricing from the store at commit time gives 100. *)
Lemma C6_counterexample :
  let cart := [CartItem.mk "soap" "Soap" 2 40] in
  storeUnitPrice exampleDb "soap" = 50
  /\ spec_storePricedTotal exampleDb cart = 100
  /\ fst (processPurchase 7 "stay1" cart exampleDb) = Success
  /\ PurchaseDoc.amount <$> purchases (snd (processPurchase 7 "stay1" cart exampleDb))
     = [80]
  /\ PaymentDoc.amount <$> paymentsOf "stay1" (snd (processPurchase 7 "stay1" cart exampleDb))
     = [1000; -80]
  /\ totalAmount cart <> spec_storePricedTotal exampleDb cart.
Proof. vm_compute. repeat split; try reflexivity. discriminate. Qed.

(** C6, amended.  [processPurchase] computes totalAmount as the sum of
    quantity times the unit price carried by each cart line, and never reads
    the unit prices of the inventory store: replacing the store's unit prices
    in any way changes neither the outcome nor anything the call writes.  The
    price of a line is the one [addToCart] copied from the listed item when it
    created the line; adding more of an item already in the cart leaves the
    prices of the cart as they are. *)
Theorem C6_amounts_use_cart_prices (f : string -> Z -> Z) (now : Z) (checkinId : string)
    (cartItems : list CartItem.t) (db : Db) (selectedRoom : string)
    (item : InventoryItem.t) :
  processPurchase now checkinId cartItems (reprice f db)
  = (fst (processPurchase now checkinId cartItems db),
     reprice f (snd (processPurchase now checkinId cartItems db)))
  /\ totalAmount cartItems
     = fold_left (fun total line =>
                    total + CartItem.quantity line * CartItem.unitPrice line) cartItems 0
  /\ CartItem.unitPrice <$> addToCart selectedRoom cartItems item
     = (CartItem.unitPrice <$> cartItems)
       ++ match List.find (sameItem (InventoryItem.id item)) cartItems with
          | Some _ => []
          | None => if String.eqb selectedRoom "" then []
                    else [InventoryItem.unitPrice item]
          end.
Proof.
  split; [|split; [reflexivity|]].
  - unfold processPurchase.
    destruct (String.eqb checkinId "" || (length cartItems =? 0)%nat); [reflexivity|].
    destruct (purchaseBatch now checkinId cartItems) as [batch|]; [|reflexivity].
    rewrite commit_reprice. by destruct (commit batch db).
  - unfold addToCart.
    destruct (String.eqb selectedRoom "").
    { destruct (List.find _ cartItems); by rewrite app_nil_r. }
    destruct (List.find _ cartItems) as [existingItem|].
    + rewrite app_nil_r.
      destruct (InventoryItem.quantity item <=? CartItem.quantity existingItem);
        [reflexivity|].
      rewrite <- list_fmap_compose. apply list_fmap_ext.
      intros i line _. simpl. by destruct (sameItem _ line).
    + by rewrite fmap_app.
Qed.

(** ** Conservation of purchase amounts and payment offsets *)

Lemma shopOffsets_app (l1 l2 : list PaymentDoc.t) :
  fold_left (fun total e => total + Z.abs (PaymentDoc.amount e)) (l1 ++ l2) 0
  = fold_left (fun total e => total + Z.abs (PaymentDoc.amount e)) l1 0
    + fold_left (fun total e => total + Z.abs (PaymentDoc.amount e)) l2 0.
Proof. apply fold_left_sum_app. shift_tac. Qed.

Lemma records_of_checkin (now : Z) (target checkinId : string)
    (cartItems : list CartItem.t) :
  List.filter (fun p => String.eqb (PurchaseDoc.checkinId p) checkinId)
              (map (purchaseRecord now target) cartItems)
  = if String.eqb target checkinId then map (purchaseRecord now target) cartItems else [].
Proof.
  induction cartItems as [|item rest IH]; simpl.
  - by destruct (String.eqb target checkinId).
  - rewrite IH. by destruct (String.eqb target checkinId).
Qed.

(** One call keeps the balance of every check-in. *)
Lemma processPurchase_conserved (now : Z) (target checkinId : string)
    (cartItems : list CartItem.t) (db : Db) :
  Forall (fun item => 0 <= CartItem.quantity item /\ 0 <= CartItem.unitPrice item)
         cartItems ->
  conserved checkinId db ->
  conserved checkinId (snd (processPurchase now target cartItems db)).
Proof.
  intros Hpos Hcons.
  destruct (processPurchase now target cartItems db) as [[|e] db'] eqn:H; simpl.
  - apply processPurchase_Success in H as (_ & _ & Hc).
    unfold conserved, getPurchasesByCheckin, shopOffsetsTotal, shopPurchaseEntries in *.
    rewrite (commit_purchases _ _ _ Hc), batch_purchasesWritten.
    rewrite (commit_payments checkinId _ _ _ Hc), batch_paymentsWritten.
    rewrite !List.filter_app, getTotalShopPurchases_app, shopOffsets_app, records_of_checkin.
    rewrite Hcons. f_equal.
    destruct (String.eqb target checkinId); [|reflexivity].
    rewrite getTotalShopPurchases_records. simpl.
    pose proof (totalAmount_nonneg _ Hpos). lia.
  - by rewrite (processPurchase_Failure _ _ _ _ _ _ H).
Qed.

(** Any run of calls keeps the balance of every check-in. *)
Lemma runPurchases_conserved (calls : list PurchaseCall) (db : Db) (checkinId : string) :
  Forall (fun c =>
            Forall (fun item => 0 <= CartItem.quantity item /\ 0 <= CartItem.unitPrice item)
                   (call_cartItems c)) calls ->
  conserved checkinId db ->
  conserved checkinId (runPurchases calls db).
Proof.
  intros Hcalls. revert db. unfold runPurchases.
  induction Hcalls as [|c calls Hc _ IH]; intros db Hcons; simpl; [exact Hcons|].
  apply IH. by apply processPurchase_conserved.
Qed.

(** A sum of whole amounts does not depend on the order of its terms. *)
Section FoldSumOrder.
Context {A : Type} (f : Z -> A -> Z).
Hypothesis f_shift : forall a x, f a x = a + f 0 x.

Lemma fold_left_sum_perm (l l' : list A) :
  l ≡ₚ l' -> fold_left f l 0 = fold_left f l' 0.
Proof.
  induction 1 as [|x l l' _ IH|x y l|l l' l'' _ IH1 _ IH2].
  - reflexivity.
  - by rewrite !(fold_left_sum_cons f f_shift), IH.
  - rewrite !(fold_left_sum_cons f f_shift). lia.
  - congruence.
Qed.
End FoldSumOrder.

Lemma getTotalShopPurchases_perm (l l' : list PurchaseDoc.t) :
  l ≡ₚ l' -> getTotalShopPurchases l = getTotalShopPurchases l'.
Proof. unfold getTotalShopPurchases. apply fold_left_sum_perm. shift_tac. Qed.

(** Over doubles: adding the record amounts of one cart in cart order goes
    through the very additions of [totalAmount]. *)
Lemma doubles_fold_records (cart : list Doubles.Line) (start : PrimFloat.float) :
  fold_left (fun total amount => PrimFloat.add total amount)
            (Doubles.recordAmounts cart) start
  = fold_left (fun total item =>
                 PrimFloat.add total
                   (PrimFloat.mul (Doubles.quantity item) (Doubles.unitPrice item)))
              cart start.
Proof.
  revert start. induction cart as [|item rest IH]; intros start; [reflexivity|].
  simpl. apply IH.
Qed.

(** C3 as stated fails on the doubles of the code.  Two committed purchases
    for one check-in, a cart of one item at 0.1 and one at 0.6 and then a cart
    of one item at 0.5 and one at 0.9: the entries are -(0.1 + 0.6) and
    -(0.5 + 0.9), the record amounts 0.1, 0.6, 0.5 and 0.9.  Adding the
    records gives 2.1, in whichever order they are added; adding the absolute
    values of the entries gives 2.0999999999999996, in either order. *)
Lemma C3_counterexample :
  Doubles.getTotalShopPurchases (Doubles.recordsOf Doubles.tenthsCarts)
  <> Doubles.shopOffsetsTotal (Doubles.entriesOf Doubles.tenthsCarts)
  /\ PrimFloat.eqb (Doubles.getTotalShopPurchases (Doubles.recordsOf Doubles.tenthsCarts))
                   Doubles.recordsSumOfTenths = true
  /\ PrimFloat.eqb (Doubles.shopOffsetsTotal (Doubles.entriesOf Doubles.tenthsCarts))
                   Doubles.entriesSumOfTenths = true
  /\ Forall (fun records =>
               Forall (fun entries =>
                         PrimFloat.eqb (Doubles.getTotalShopPurchases records)
                                       (Doubles.shopOffsetsTotal entries) = false)
                      (permutations (Doubles.entriesOf Doubles.tenthsCarts)))
            (permutations (Doubles.recordsOf Doubles.tenthsCarts)).
Proof.
  split; [|split; [|split]].
  - intros H.
    apply (f_equal (fun v => PrimFloat.eqb v
                     (Doubles.shopOffsetsTotal (Doubles.entriesOf Doubles.tenthsCarts)))) in H.
    vm_compute in H. discriminate.
  - vm_compute. reflexivity.
  - vm_compute. reflexivity.
  - vm_compute. repeat constructor.
Qed.

(** C3, amended.  Every committed purchase writes records whose amounts, added
    in cart order, give exactly its totalAmount, and one entry of exactly
    minus its totalAmount; this holds of the doubles of the code for any
    prices.  Over several purchases the two sums of a check-in are equal when
    the quantities and unit prices are whole and not negative: starting from a
    store in which the check-in balances, after any sequence of
    [processPurchase] calls the sum of the amounts of its purchase records, in
    whatever order the store returns them, equals the sum of the absolute
    values of the amounts of its shop-purchase entries, in whatever order they
    are taken. *)
Theorem C3_conservation_for_whole_amounts (cart : list Doubles.Line)
    (calls : list PurchaseCall) (db : Db) (checkinId : string) :
  Doubles.getTotalShopPurchases (Doubles.recordAmounts cart) = Doubles.totalAmount cart
  /\ Doubles.entryAmount cart = PrimFloat.opp (Doubles.totalAmount cart)
  /\ (Forall (fun c =>
                Forall (fun item => 0 <= CartItem.quantity item
                                    /\ 0 <= CartItem.unitPrice item)
                       (call_cartItems c)) calls ->
      conserved checkinId db ->
      forall records entries,
        purchasesQuery checkinId (runPurchases calls db) records ->
        entries ≡ₚ shopPurchaseEntries checkinId (runPurchases calls db) ->
        getTotalShopPurchases records
        = fold_left (fun total e => total + Z.abs (PaymentDoc.amount e)) entries 0).
Proof.
  split; [apply doubles_fold_records|]. split; [reflexivity|].
  intros Hcalls Hcons records entries Hrecords Hentries.
  rewrite (getTotalShopPurchases_perm _ _ Hrecords).
  rewrite (fold_left_sum_perm (fun total e => total + Z.abs (PaymentDoc.amount e))
             ltac:(intros; cbv beta; lia) _ _ Hentries).
  exact (runPurchases_conserved calls db checkinId Hcalls Hcons).
Qed.

(** Three calls on the example store: two purchases on "stay1" that commit
    and, between them, one that is rejected; the records are read back in the
    reverse of the order of writing.  The same whole prices balance over
    doubles too. *)
Lemma C3_witness :
  let calls := [mkCall 7 "stay1" twoSoaps;
                mkCall 8 "stay1" [CartItem.mk "ghost" "Ghost" 1 10];
                mkCall 9 "stay1" [CartItem.mk "cola" "Cola" 1 30;
                                  CartItem.mk "soap" "Soap" 1 50]] in
  getTotalShopPurchases (rev (getPurchasesByCheckin "stay1" (runPurchases calls exampleDb)))
  = 180
  /\ getTotalShopPurchases
       (rev (getPurchasesByCheckin "stay1" (runPurchases calls exampleDb)))
     = shopOffsetsTotal "stay1" (runPurchases calls exampleDb)
  /\ PrimFloat.eqb (Doubles.getTotalShopPurchases (Doubles.recordsOf Doubles.wholeCarts))
                   (Doubles.shopOffsetsTotal (Doubles.entriesOf Doubles.wholeCarts))
     = true.
Proof.
  intros calls. split; [vm_compute; reflexivity|]. split; [|vm_compute; reflexivity].
  destruct (C3_conservation_for_whole_amounts [] calls exampleDb "stay1") as (_ & _ & Hcons).
  apply Hcons.
  - unfold calls. repeat constructor; simpl; lia.
  - vm_compute. reflexivity.
  - unfold purchasesQuery. symmetry. apply Permutation_rev.
  - reflexivity.
Defined.

(** ** The cart of the shop screen stays within the listed stock *)

Lemma sameItem_true (inventoryId : string) (line : CartItem.t) :
  sameItem inventoryId line = true <-> CartItem.inventoryId line = inventoryId.
Proof. unfold sameItem. apply String.eqb_eq. Qed.

Lemma sameItem_false (inventoryId : string) (line : CartItem.t) :
  sameItem inventoryId line = false <-> CartItem.inventoryId line <> inventoryId.
Proof. unfold sameItem. apply String.eqb_neq. Qed.

Lemma NoDup_ids_same_line (cartItems : list CartItem.t) (l1 l2 : CartItem.t) :
  NoDup (map CartItem.inventoryId cartItems) ->
  In l1 cartItems -> In l2 cartItems ->
  CartItem.inventoryId l1 = CartItem.inventoryId l2 -> l1 = l2.
Proof.
  induction cartItems as [|x rest IH]; intros Hnd H1 H2 Heq; [destruct H1|].
  simpl in Hnd. apply NoDup_cons in Hnd as [Hx Hnd].
  rewrite list_elem_of_In in Hx.
  destruct H1 as [->|H1], H2 as [->|H2]; auto.
  - exfalso. apply Hx. rewrite Heq. by apply in_map.
  - exfalso. apply Hx. rewrite <- Heq. by apply in_map.
Qed.

Lemma ids_map_keep (g : CartItem.t -> CartItem.t) (cartItems : list CartItem.t) :
  (forall line, CartItem.inventoryId (g line) = CartItem.inventoryId line) ->
  map CartItem.inventoryId (map g cartItems) = map CartItem.inventoryId cartItems.
Proof. intros Hg. rewrite map_map. apply map_ext. exact Hg. Qed.

Lemma NoDup_ids_filter (keep : CartItem.t -> bool) (cartItems : list CartItem.t) :
  NoDup (map CartItem.inventoryId cartItems) ->
  NoDup (map CartItem.inventoryId (List.filter keep cartItems)).
Proof.
  induction cartItems as [|x rest IH]; intros Hnd; [exact Hnd|].
  simpl in Hnd. apply NoDup_cons in Hnd as [Hx Hnd]. simpl.
  destruct (keep x); [|by apply IH].
  simpl. apply NoDup_cons. split; [|by apply IH].
  rewrite list_elem_of_In in *. intros Hin. apply Hx.
  apply in_map_iff in Hin as (y & Hy & Hiny).
  apply filter_In in Hiny as [Hiny _]. apply in_map_iff. eauto.
Qed.

Lemma Forall_filter_keep {A : Type} (P : A -> Prop) (keep : A -> bool) (l : list A) :
  Forall P l -> Forall P (List.filter keep l).
Proof.
  rewrite !List.Forall_forall. intros H x Hx.
  apply filter_In in Hx as [Hx _]. auto.
Qed.

Lemma removeItemCompletely_within (db : Db) (cartItems : list CartItem.t) (inventoryId : string) :
  cartWithinStock db cartItems ->
  cartWithinStock db (removeItemCompletely cartItems inventoryId).
Proof.
  intros [Hnd Hall]. split; [by apply NoDup_ids_filter | by apply Forall_filter_keep].
Qed.

Lemma removeFromCart_within (db : Db) (cartItems : list CartItem.t) (inventoryId : string) :
  cartWithinStock db cartItems ->
  cartWithinStock db (removeFromCart cartItems inventoryId).
Proof.
  intros [Hnd Hall]. unfold removeFromCart.
  destruct (List.find (sameItem inventoryId) cartItems) as [existingItem|] eqn:Hfind;
    [|by split].
  apply find_some in Hfind as [Hin Hsame]. apply sameItem_true in Hsame.
  destruct (Z.eqb_spec (CartItem.quantity existingItem) 1) as [_|Hq].
  { split; [by apply NoDup_ids_filter | by apply Forall_filter_keep]. }
  split.
  - rewrite ids_map_keep; [exact Hnd|]. intros line. by destruct (sameItem _ line).
  - rewrite List.Forall_forall in *. intros line' Hin'.
    apply in_map_iff in Hin' as (line & <- & Hline).
    destruct (Hall _ Hline) as (d & Hd & Hlo & Hhi).
    destruct (sameItem inventoryId line) eqn:Hs; [|by exists d].
    apply sameItem_true in Hs.
    assert (line = existingItem) as ->
      by (apply (NoDup_ids_same_line cartItems); congruence).
    exists d. simpl. split; [exact Hd|]. lia.
Qed.

Lemma addToCart_within (db : Db) (selectedRoom : string) (cartItems : list CartItem.t)
    (item : InventoryItem.t) :
  listedFrom db item = true ->
  cartWithinStock db cartItems ->
  cartWithinStock db (addToCart selectedRoom cartItems item).
Proof.
  intros Hlisted [Hnd Hall]. unfold addToCart.
  destruct (String.eqb selectedRoom ""); [by split|].
  unfold listedFrom in Hlisted.
  destruct (inventory db !! InventoryItem.id item) as [d|] eqn:Hd; [|discriminate].
  apply andb_true_iff in Hlisted as [Hq Hpos].
  apply Z.eqb_eq in Hq. apply Z.ltb_lt in Hpos.
  destruct (List.find (sameItem (InventoryItem.id item)) cartItems)
    as [existingItem|] eqn:Hfind.
  - apply find_some in Hfind as [Hin Hsame]. apply sameItem_true in Hsame.
    destruct (Z.leb_spec (InventoryItem.quantity item) (CartItem.quantity existingItem))
      as [_|Hlt]; [by split|].
    split.
    + rewrite ids_map_keep; [exact Hnd|]. intros line. by destruct (sameItem _ line).
    + rewrite List.Forall_forall in *. intros line' Hin'.
      apply in_map_iff in Hin' as (line & <- & Hline).
      destruct (Hall _ Hline) as (d' & Hd' & Hlo & Hhi).
      destruct (sameItem (InventoryItem.id item) line) eqn:Hs; [|by exists d'].
      apply sameItem_true in Hs.
      assert (line = existingItem) as ->
        by (apply (NoDup_ids_same_line cartItems); congruence).
      exists d. simpl. rewrite Hsame. split; [exact Hd|]. lia.
  - split.
    + rewrite map_app. simpl. apply NoDup_app. split; [exact Hnd|].
      split; [|apply NoDup_singleton].
      intros x Hx Hx'. apply list_elem_of_singleton in Hx'. subst x.
      apply list_elem_of_In, in_map_iff in Hx as (line & Hid & Hline).
      pose proof (find_none _ _ Hfind _ Hline) as Hs.
      apply sameItem_false in Hs. congruence.
    + apply Forall_app. split; [exact Hall|].
      constructor; [|constructor].
      exists d. simpl. split; [exact Hd|]. lia.
Qed.

Lemma cartPlus_within (db : Db) (selectedRoom : string)
    (inventoryItems : list InventoryItem.t) (cartItems : list CartItem.t)
    (row : CartItem.t) :
  fetchedFrom db inventoryItems = true ->
  cartWithinStock db cartItems ->
  cartWithinStock db (cartPlus selectedRoom inventoryItems cartItems row).
Proof.
  intros Hfetched Hcart. unfold cartPlus.
  destruct (List.find _ inventoryItems) as [inventoryItem|] eqn:Hfind; [|exact Hcart].
  destruct (CartItem.quantity row <? InventoryItem.quantity inventoryItem); [|exact Hcart].
  apply addToCart_within; [|exact Hcart].
  apply find_some in Hfind as [Hin _].
  unfold fetchedFrom in Hfetched. rewrite forallb_forall in Hfetched. auto.
Qed.

Lemma cartStep_within (db : Db) (selectedRoom : string)
    (inventoryItems : list InventoryItem.t) (cartItems : list CartItem.t)
    (a : CartAction) :
  fetchedFrom db inventoryItems = true ->
  cartWithinStock db cartItems ->
  cartWithinStock db (cartStep selectedRoom inventoryItems cartItems a).
Proof.
  intros Hfetched Hcart. destruct a as [i|i|i|i]; simpl.
  - destruct (nth_error inventoryItems i) as [item|] eqn:Hi; [|exact Hcart].
    apply addToCart_within; [|exact Hcart].
    apply nth_error_In in Hi.
    unfold fetchedFrom in Hfetched. rewrite forallb_forall in Hfetched. auto.
  - destruct (nth_error cartItems i); [by apply cartPlus_within | exact Hcart].
  - destruct (nth_error cartItems i); [by apply removeFromCart_within | exact Hcart].
  - destruct (nth_error cartItems i); [by apply removeItemCompletely_within | exact Hcart].
Qed.

Lemma cartAfter_within (db : Db) (selectedRoom : string)
    (inventoryItems : list InventoryItem.t) (actions : list CartAction) :
  fetchedFrom db inventoryItems = true ->
  cartWithinStock db (cartAfter selectedRoom inventoryItems actions).
Proof.
  intros Hfetched. unfold cartAfter.
  assert (Hstart : cartWithinStock db []) by (split; constructor).
  revert Hstart. generalize (@nil CartItem.t) as cartItems.
  induction actions as [|a actions IH]; intros cartItems Hcart; simpl; [exact Hcart|].
  apply IH. by apply cartStep_within.
Qed.

Lemma requestedQuantity_cons (ref : string) (line : CartItem.t) (rest : list CartItem.t) :
  requestedQuantity ref (line :: rest)
  = (if sameItem ref line then CartItem.quantity line else 0) + requestedQuantity ref rest.
Proof.
  unfold requestedQuantity. rewrite fold_left_sum_cons by shift_tac.
  by destruct (sameItem ref line).
Qed.

Lemma requestedQuantity_absent (ref : string) (cartItems : list CartItem.t) :
  ~ In ref (map CartItem.inventoryId cartItems) ->
  requestedQuantity ref cartItems = 0.
Proof.
  induction cartItems as [|line rest IH]; intros Hnot; [reflexivity|].
  rewrite requestedQuantity_cons. simpl in Hnot.
  destruct (sameItem ref line) eqn:Hs.
  - apply sameItem_true in Hs. tauto.
  - rewrite IH; [reflexivity | tauto].
Qed.

(** A cart within stock asks of no item more than the store holds. *)
Lemma requestedQuantity_within (db : Db) (cartItems : list CartItem.t)
    (ref : string) (d : InventoryDoc.t) :
  cartWithinStock db cartItems ->
  inventory db !! ref = Some d ->
  0 <= InventoryDoc.quantity d ->
  0 <= requestedQuantity ref cartItems <= InventoryDoc.quantity d.
Proof.
  intros [Hnd Hall] Hd Hpos.
  induction cartItems as [|line rest IH]; [unfold requestedQuantity; simpl; lia|].
  simpl in Hnd. apply NoDup_cons in Hnd as [Hline Hnd].
  apply Forall_cons in Hall as [(d' & Hd' & Hlo & Hhi) Hall].
  rewrite requestedQuantity_cons.
  destruct (sameItem ref line) eqn:Hs.
  - apply sameItem_true in Hs. subst ref.
    rewrite requestedQuantity_absent by (by rewrite <- list_elem_of_In).
    assert (d' = d) as -> by congruence. lia.
  - specialize (IH Hnd Hall). lia.
Qed.

(** C1 as stated fails: [processPurchase] compares no requested quantity with
    the stock.  The example store holds one cola; a cart asking for three is
    committed all the same, and no error names the item. *)
Lemma C1_counterexample :
  let cart := [CartItem.mk "cola" "Cola" 3 30] in
  InventoryDoc.quantity <$> inventory exampleDb !! "cola" = Some 1
  /\ fst (processPurchase 7 "stay1" cart exampleDb) = Success
  /\ InventoryDoc.quantity
       <$> inventory (snd (processPurchase 7 "stay1" cart exampleDb)) !! "cola" = Some (-2).
Proof. vm_compute. repeat split; reflexivity. Qed.

(** C1, amended.  The stock check is made by the shop screen while the cart is
    filled, not by [processPurchase]: for a cart filled through the screen's
    buttons from a list of items fetched from the store, every line asks for
    at least one unit and at most the stock of its item, no item has two
    lines, and when [processPurchase] commits that cart on the store the list
    was fetched from, every inventory document loses exactly the quantity the
    cart asks of it and no quantity that was not negative becomes negative. *)
Theorem C1_cart_guard_keeps_stock_nonnegative (selectedRoom : string)
    (inventoryItems : list InventoryItem.t) (actions : list CartAction)
    (now : Z) (db db' : Db) :
  fetchedFrom db inventoryItems = true ->
  processPurchase now selectedRoom (cartAfter selectedRoom inventoryItems actions) db
  = (Success, db') ->
  cartWithinStock db (cartAfter selectedRoom inventoryItems actions)
  /\ forall ref d,
       inventory db !! ref = Some d ->
       exists d',
         inventory db' !! ref = Some d'
         /\ InventoryDoc.quantity d'
            = InventoryDoc.quantity d
              - requestedQuantity ref (cartAfter selectedRoom inventoryItems actions)
         /\ (0 <= InventoryDoc.quantity d -> 0 <= InventoryDoc.quantity d').
Proof.
  intros Hfetched H.
  pose proof (cartAfter_within db selectedRoom inventoryItems actions Hfetched) as Hcart.
  split; [exact Hcart|]. intros ref d Hd.
  apply processPurchase_Success in H as (_ & _ & Hc).
  exists (InventoryDoc.increment_quantity
            (- requestedQuantity ref (cartAfter selectedRoom inventoryItems actions)) d).
  split.
  - rewrite (commit_inventory ref _ _ _ Hc), batch_inventoryDelta, Hd. reflexivity.
  - split; [simpl; lia|]. intros Hpos. simpl.
    pose proof (requestedQuantity_within _ _ _ _ Hcart Hd Hpos). lia.
Qed.

(** A session on the example store: the list holds soap (5) and cola (1); the
    user adds cola, asks for a second cola twice (refused by the guard), adds
    three soaps and takes one back. *)
Lemma C1_witness :
  let items := [InventoryItem.mk "cola" "Cola" 1 30 "drinks";
                InventoryItem.mk "soap" "Soap" 5 50 "toiletries"] in
  let actions := [PressAdd 0; PressAdd 0; PressPlus 0;
                  PressAdd 1; PressAdd 1; PressPlus 1; PressMinus 1] in
  cartAfter "stay1" items actions
  = [CartItem.mk "cola" "Cola" 1 30; CartItem.mk "soap" "Soap" 2 50]
  /\ exists d', inventory (snd (processPurchase 7 "stay1" (cartAfter "stay1" items actions)
                                  exampleDb)) !! "cola" = Some d'
                /\ 0 <= InventoryDoc.quantity d'.
Proof.
  intros items actions. split; [vm_compute; reflexivity|].
  destruct (C1_cart_guard_keeps_stock_nonnegative "stay1" items actions 7 exampleDb
              (snd (processPurchase 7 "stay1" (cartAfter "stay1" items actions) exampleDb)))
    as (_ & Hinv).
  - vm_compute. reflexivity.
  - vm_compute. reflexivity.
  - destruct (Hinv "cola" colaDoc) as (d' & Hd' & _ & Hpos); [vm_compute; reflexivity|].
    exists d'. split; [exact Hd'|]. apply Hpos. vm_compute. discriminate.
Defined.

(** ** The base rent *)

Lemma sumAmounts_one (e : PaymentEntry.t) : sumAmounts [e] = PaymentEntry.amount e.
Proof. unfold sumAmounts. simpl. lia. Qed.

(** C4.  The calculator takes baseRent to be the booking's rent minus the sum
    of its extension entries minus the sum of its extra-fee entries, so that
    base rent, extensions and fees add up to the booking's rent again: nothing
    is counted twice.  For a rent of 1000 with one extension entry of 200 and
    one extra-fee entry of 50 (and any entries of other types), baseRent is
    750 and totalRentSoFar is 1000, not 1200. *)
Theorem C4_base_rent_no_double_counting (booking_rent : Z)
    (history : list PaymentEntry.t) :
  baseRent booking_rent history
  = booking_rent - sumAmounts (List.filter (hasType "extension") history)
                 - sumAmounts (List.filter (hasType "extra-fee") history)
  /\ totalRentSoFar booking_rent history = booking_rent
  /\ forall ext fee,
       booking_rent = 1000 ->
       List.filter (hasType "extension") history = [ext] ->
       PaymentEntry.amount ext = 200 ->
       List.filter (hasType "extra-fee") history = [fee] ->
       PaymentEntry.amount fee = 50 ->
       baseRent booking_rent history = 750
       /\ totalRentSoFar booking_rent history = 1000
       /\ totalRentSoFar booking_rent history <> 1200.
Proof.
  assert (Htotal : totalRentSoFar booking_rent history = booking_rent)
    by (unfold totalRentSoFar, baseRent; lia).
  split; [reflexivity|]. split; [exact Htotal|].
  intros ext fee -> Hext Hea Hfee Hfa. split.
  - unfold baseRent, extensionTotal, extraFeesTotal.
    rewrite Hext, Hfee, !sumAmounts_one. lia.
  - rewrite Htotal. split; [reflexivity | discriminate].
Qed.

Lemma C4_witness :
  baseRent 1000 [initial500; extension200; extraFee50; advance300] = 750
  /\ totalRentSoFar 1000 [initial500; extension200; extraFee50; advance300] = 1000.
Proof.
  destruct (C4_base_rent_no_double_counting 1000
              [initial500; extension200; extraFee50; advance300])
    as (_ & _ & Hex).
  destruct (Hex extension200 extraFee50) as (Hb & Ht & _); try reflexivity.
  split; [exact Hb | exact Ht].
Defined.

(** ** The transaction history *)

Lemma find_isInitial_none (history : list PaymentEntry.t) :
  (forall p, In p history -> PaymentEntry.type p <> "initial") ->
  List.find isInitial history = None.
Proof.
  intros Hno. induction history as [|p rest IH]; [reflexivity|].
  simpl. unfold isInitial at 1.
  destruct (String.eqb_spec (PaymentEntry.type p) "initial") as [Heq|_].
  - exfalso. apply (Hno p); [by left | exact Heq].
  - apply IH. intros q Hq. apply Hno. by right.
Qed.

Lemma find_isInitial_first (before after : list PaymentEntry.t) (p : PaymentEntry.t) :
  (forall q, In q before -> PaymentEntry.type q <> "initial") ->
  PaymentEntry.type p = "initial" ->
  List.find isInitial (before ++ p :: after) = Some p.
Proof.
  intros Hno Hp. induction before as [|q rest IH]; simpl.
  - unfold isInitial. by rewrite Hp.
  - unfold isInitial at 1.
    destruct (String.eqb_spec (PaymentEntry.type q) "initial") as [Heq|_].
    + exfalso. apply (Hno q); [by left | exact Heq].
    + apply IH. intros r Hr. apply Hno. by right.
Qed.

(** C9.  In the history that [fetchPaymentHistory] builds, the entry after the
    rent line is the initial payment.  When the payments of the stay hold no
    entry of type 'initial', it is a made-up entry of type 'initial' whose
    amount is the stay's rent, whose mode is 'cash' and whose timestamp is the
    stay's check-in time; when they hold one, the first such entry is used as
    it is. *)
Theorem C9_initial_entry_fallback (now : Z) (customer : Customer.t)
    (history : list PaymentEntry.t) :
  nth_error (fetchPaymentHistory now customer history) 1
  = Some (advanceEntry now customer history)
  /\ ((forall p, In p history -> PaymentEntry.type p <> "initial") ->
      PaymentEntry.amount (advanceEntry now customer history) = Customer.rent customer
      /\ PaymentEntry.mode (advanceEntry now customer history) = "cash"
      /\ PaymentEntry.type (advanceEntry now customer history) = "initial"
      /\ forall checkedInAt, Customer.checkedInAt customer = Some checkedInAt ->
           PaymentEntry.timestamp (advanceEntry now customer history) = checkedInAt)
  /\ (forall before p after,
        history = before ++ p :: after ->
        (forall q, In q before -> PaymentEntry.type q <> "initial") ->
        PaymentEntry.type p = "initial" ->
        advanceEntry now customer history = p).
Proof.
  split; [reflexivity|]. split.
  - intros Hno. unfold advanceEntry. rewrite (find_isInitial_none _ Hno). simpl.
    repeat split. intros t Ht. by rewrite Ht.
  - intros before p after -> Hno Hp. unfold advanceEntry.
    by rewrite (find_isInitial_first _ _ _ Hno Hp).
Qed.

Lemma C9_witness :
  PaymentEntry.amount (advanceEntry 99 guest [extension200; advance300]) = 1000
  /\ PaymentEntry.timestamp (advanceEntry 99 guest [extension200; advance300]) = 40
  /\ advanceEntry 99 guest [extension200; initial500; advance300] = initial500.
Proof.
  destruct (C9_initial_entry_fallback 99 guest [extension200; advance300])
    as (_ & Hsyn & _).
  destruct Hsyn as (Ha & _ & _ & Ht).
  { intros p [<-|[<-|[]]]; discriminate. }
  destruct (C9_initial_entry_fallback 99 guest [extension200; initial500; advance300])
    as (_ & _ & Hkeep).
  split; [exact Ha|]. split; [apply Ht; reflexivity|].
  apply (Hkeep [extension200] initial500 [advance300]); [reflexivity| |reflexivity].
  intros q [<-|[]]. discriminate.
Defined.

(** * Further properties of the purchase service *)

(** ** When a purchase commits *)

Lemma apply_write_writable (w : Write) (db : Db) :
  writable db w ->
  exists db1, apply_write w db = Some db1
              /\ forall w', writable db w' -> writable db1 w'.
Proof.
  destruct w as [ref delta|p|ref delta|c e]; simpl.
  - intros [d Hd]. rewrite Hd. simpl. eexists. split; [reflexivity|].
    intros [r ?|?|r ?|? ?]; simpl; auto.
    destruct (decide (ref = r)) as [->|Hne].
    + rewrite lookup_insert_eq. eauto.
    + by rewrite lookup_insert_ne.
  - intros _. eexists. split; [reflexivity|]. intros []; simpl; auto.
  - intros [d Hd]. rewrite Hd. simpl. eexists. split; [reflexivity|].
    intros [r ?|?|r ?|? ?]; simpl; auto.
    destruct (decide (ref = r)) as [->|Hne].
    + rewrite lookup_insert_eq. eauto.
    + by rewrite lookup_insert_ne.
  - intros _. eexists. split; [reflexivity|]. intros []; simpl; auto.
Qed.

Lemma commit_writable (batch : list Write) (db : Db) :
  Forall (writable db) batch -> is_Some (commit batch db).
Proof.
  revert db. induction batch as [|w batch IH]; intros db Hall; simpl; [eauto|].
  apply Forall_cons in Hall as [Hw Hall].
  destruct (apply_write_writable w db Hw) as (db1 & -> & Hkeep). simpl.
  apply IH. eapply Forall_impl; [exact Hall | exact Hkeep].
Qed.

Lemma inventoryUpdates_ids (cartItems : list CartItem.t) :
  is_Some (inventoryUpdates cartItems)
  <-> Forall (fun line => CartItem.inventoryId line <> "") cartItems.
Proof.
  split.
  - induction cartItems as [|line rest IH]; intros [ws H]; [constructor|].
    simpl in H.
    destruct (doc (CartItem.inventoryId line)) as [ref|] eqn:Hd; simpl in H; [|discriminate].
    destruct (inventoryUpdates rest) as [ws'|]; simpl in H; [|discriminate].
    constructor; [by apply doc_Some in Hd as [_ ?] | apply IH; eauto].
  - intros H. rewrite (inventoryUpdates_nonempty_ids _ H). eauto.
Qed.

Lemma purchaseBatch_ids (now : Z) (checkinId : string) (cartItems : list CartItem.t) :
  checkinId <> "" ->
  Forall (fun line => CartItem.inventoryId line <> "") cartItems ->
  purchaseBatch now checkinId cartItems = Some (batchOf now checkinId cartItems).
Proof.
  intros Hc Hids. unfold purchaseBatch.
  rewrite (inventoryUpdates_nonempty_ids _ Hids). simpl.
  rewrite (doc_nonempty _ Hc). reflexivity.
Qed.

Lemma ids_all_or_some_empty (cartItems : list CartItem.t) :
  Forall (fun line => CartItem.inventoryId line <> "") cartItems
  \/ Exists (fun line => CartItem.inventoryId line = "") cartItems.
Proof.
  induction cartItems as [|line rest [IH|IH]].
  - left. constructor.
  - destruct (String.eqb_spec (CartItem.inventoryId line) "") as [Heq|Hne].
    + right. by left.
    + left. by constructor.
  - right. by right.
Qed.

Lemma purchaseBatch_None (now : Z) (checkinId : string) (cartItems : list CartItem.t) :
  checkinId <> "" ->
  purchaseBatch now checkinId cartItems = None ->
  Exists (fun line => CartItem.inventoryId line = "") cartItems.
Proof.
  intros Hc H. destruct (ids_all_or_some_empty cartItems) as [Hall|Hex]; [|exact Hex].
  rewrite (purchaseBatch_ids _ _ _ Hc Hall) in H. discriminate.
Qed.

Lemma batch_writable (now : Z) (checkinId : string) (cartItems : list CartItem.t) (db : Db) :
  Forall (writable db) (batchOf now checkinId cartItems)
  <-> Forall (fun line => is_Some (inventory db !! CartItem.inventoryId line)) cartItems
      /\ is_Some (checkins db !! checkinId).
Proof.
  unfold batchOf. rewrite !Forall_app, !Forall_fmap, !Forall_cons.
  simpl. split.
  - intros (H1 & _ & H3 & _). done.
  - intros [H1 H2]. repeat split; auto.
    apply Forall_true. done.
Qed.

Lemma commit_needs_writable (batch : list Write) (db db' : Db) :
  commit batch db = Some db' -> Forall (writable db) batch.
Proof.
  intros Hc. apply List.Forall_forall. intros w Hin.
  destruct w as [ref delta|p|ref delta|c e]; simpl; auto.
  - eapply commit_inventory_exists; eauto.
  - eapply commit_checkin_exists; eauto.
Qed.

(** The criterion for success, in the form the later proofs use. *)
Lemma processPurchase_success_criterion (now : Z) (checkinId : string)
    (cartItems : list CartItem.t) (db : Db) :
  fst (processPurchase now checkinId cartItems db) = Success
  <-> checkinId <> "" /\ cartItems <> []
      /\ Forall (fun line => CartItem.inventoryId line <> ""
                             /\ is_Some (inventory db !! CartItem.inventoryId line))
                cartItems
      /\ is_Some (checkins db !! checkinId).
Proof.
  split.
  - intros H.
    destruct (processPurchase now checkinId cartItems db) as [r db'] eqn:Hp.
    simpl in H. subst r.
    pose proof (processPurchase_Success _ _ _ _ _ Hp) as (Hc & Hne & Hcommit).
    apply commit_needs_writable, batch_writable in Hcommit as [Hdocs Hstay].
    repeat split; auto.
    unfold processPurchase in Hp.
    destruct (String.eqb checkinId "" || (length cartItems =? 0)%nat); [discriminate|].
    destruct (purchaseBatch now checkinId cartItems) as [batch|] eqn:Hb; [|discriminate].
    unfold purchaseBatch in Hb.
    destruct (inventoryUpdates cartItems) as [ws|] eqn:Hinv; [|discriminate].
    assert (Hids : Forall (fun line => CartItem.inventoryId line <> "") cartItems)
      by (apply inventoryUpdates_ids; eauto).
    rewrite List.Forall_forall in *. intros line Hin. split; auto.
  - intros (Hc & Hne & Hlines & Hstay).
    apply Forall_and in Hlines as [Hids Hdocs].
    unfold processPurchase.
    destruct (String.eqb_spec checkinId ""); [done|].
    destruct cartItems as [|line rest]; [done|]. simpl orb. cbv iota.
    rewrite (purchaseBatch_ids _ _ _ Hc Hids).
    destruct (commit_writable (batchOf now checkinId (line :: rest)) db) as [db' ->];
      [by apply batch_writable | reflexivity].
Qed.

(** X1.  [processPurchase] succeeds exactly when the check-in id and the cart
    are not empty, no cart line has an empty inventory id, every cart line
    names an inventory document of the store, and the check-in document
    exists.  Stock levels, prices and the checked-out flag play no part. *)
Theorem processPurchase_succeeds_iff (now : Z) (checkinId : string)
    (cartItems : list CartItem.t) (db : Db) :
  fst (processPurchase now checkinId cartItems db) = Success
  <-> checkinId <> "" /\ cartItems <> []
      /\ Forall (fun line => CartItem.inventoryId line <> ""
                             /\ is_Some (inventory db !! CartItem.inventoryId line))
                cartItems
      /\ is_Some (checkins db !! checkinId).
Proof. exact (processPurchase_success_criterion now checkinId cartItems db). Qed.

Lemma processPurchase_succeeds_iff_witness :
  fst (processPurchase 7 "stay1" twoSoaps exampleDb) = Success.
Proof.
  apply (processPurchase_succeeds_iff 7 "stay1" twoSoaps exampleDb).
  split; [discriminate|]. split; [discriminate|]. split.
  - repeat constructor; [discriminate | vm_compute; eauto].
  - vm_compute. eauto.
Defined.

(** ** How a purchase fails *)

Lemma docs_all_or_some_missing (db : Db) (cartItems : list CartItem.t) :
  Forall (fun line => is_Some (inventory db !! CartItem.inventoryId line)) cartItems
  \/ Exists (fun line => inventory db !! CartItem.inventoryId line = None) cartItems.
Proof.
  induction cartItems as [|line rest [IH|IH]].
  - left. constructor.
  - destruct (inventory db !! CartItem.inventoryId line) as [d|] eqn:Hd.
    + left. constructor; [rewrite Hd; eauto | exact IH].
    + right. by left.
  - right. by right.
Qed.

Lemma Forall_Exists_clash {A : Type} (P Q : A -> Prop) (l : list A) :
  (forall x, P x -> Q x -> False) -> Forall P l -> Exists Q l -> False.
Proof.
  intros Hpq Hall Hex. rewrite List.Forall_forall in Hall.
  apply List.Exists_exists in Hex as (x & Hin & Hq). eauto.
Qed.

(** The four ways a call can go, with the conditions that select them. *)
Lemma processPurchase_cases (now : Z) (checkinId : string)
    (cartItems : list CartItem.t) (db : Db) :
  ((checkinId = "" \/ cartItems = [])
   /\ processPurchase now checkinId cartItems db = (Failure InvalidPurchaseData, db))
  \/ (checkinId <> "" /\ cartItems <> []
      /\ Exists (fun line => CartItem.inventoryId line = "") cartItems
      /\ processPurchase now checkinId cartItems db = (Failure InvalidDocumentReference, db))
  \/ (checkinId <> "" /\ cartItems <> []
      /\ Forall (fun line => CartItem.inventoryId line <> "") cartItems
      /\ (Exists (fun line => inventory db !! CartItem.inventoryId line = None) cartItems
          \/ checkins db !! checkinId = None)
      /\ processPurchase now checkinId cartItems db = (Failure CommitRejected, db))
  \/ (checkinId <> "" /\ cartItems <> []
      /\ Forall (fun line => CartItem.inventoryId line <> "") cartItems
      /\ Forall (fun line => is_Some (inventory db !! CartItem.inventoryId line)) cartItems
      /\ is_Some (checkins db !! checkinId)
      /\ exists db', processPurchase now checkinId cartItems db = (Success, db')).
Proof.
  unfold processPurchase.
  destruct (String.eqb_spec checkinId "") as [->|Hc]; [left; auto|].
  destruct cartItems as [|line rest]; [left; auto|].
  right. simpl orb. cbv iota.
  assert (Hne : line :: rest <> []) by discriminate.
  destruct (ids_all_or_some_empty (line :: rest)) as [Hids|Hex].
  - right. rewrite (purchaseBatch_ids _ _ _ Hc Hids).
    destruct (commit (batchOf now checkinId (line :: rest)) db) as [db'|] eqn:Hcommit.
    + right. apply commit_needs_writable, batch_writable in Hcommit as [Hdocs Hstay].
      eauto 10.
    + left. repeat split; auto.
      destruct (docs_all_or_some_missing db (line :: rest)) as [Hdocs|Hmiss]; [|by left].
      destruct (checkins db !! checkinId) as [c|] eqn:Hstay; [|by right].
      exfalso.
      destruct (commit_writable (batchOf now checkinId (line :: rest)) db) as [db' Hok].
      * apply batch_writable. split; [exact Hdocs | rewrite Hstay; eauto].
      * congruence.
  - left. destruct (purchaseBatch now checkinId (line :: rest)) as [batch|] eqn:Hb; [|auto].
    exfalso. unfold purchaseBatch in Hb.
    destruct (inventoryUpdates (line :: rest)) as [ws|] eqn:Hinv; [|discriminate].
    assert (Hids : Forall (fun l => CartItem.inventoryId l <> "") (line :: rest))
      by (apply inventoryUpdates_ids; eauto).
    eapply Forall_Exists_clash; [|exact Hids|exact Hex]. auto.
Qed.

(** X2.  The three errors of [processPurchase] and what selects them, for
    identifiers without a slash (the automatic ids of the store have none;
    with a slash in an id the real [doc] can raise too).  'Invalid purchase
    data' is raised exactly for an empty check-in id or an empty cart.  With
    valid arguments, building the batch raises exactly when some cart line has
    an empty inventory id.  Otherwise the commit is rejected exactly when some
    line names an inventory document that does not exist or the check-in
    document does not exist. *)
Theorem processPurchase_error_kinds (now : Z) (checkinId : string)
    (cartItems : list CartItem.t) (db : Db) :
  noSlash checkinId = true ->
  Forall (fun line => noSlash (CartItem.inventoryId line) = true) cartItems ->
  (fst (processPurchase now checkinId cartItems db) = Failure InvalidPurchaseData
   <-> checkinId = "" \/ cartItems = [])
  /\ (fst (processPurchase now checkinId cartItems db) = Failure InvalidDocumentReference
      <-> checkinId <> "" /\ cartItems <> []
          /\ Exists (fun line => CartItem.inventoryId line = "") cartItems)
  /\ (fst (processPurchase now checkinId cartItems db) = Failure CommitRejected
      <-> checkinId <> "" /\ cartItems <> []
          /\ Forall (fun line => CartItem.inventoryId line <> "") cartItems
          /\ (Exists (fun line => inventory db !! CartItem.inventoryId line = None) cartItems
              \/ checkins db !! checkinId = None)).
Proof.
  intros _ _.
  assert (Hclash1 : forall l : list CartItem.t,
             Forall (fun line => CartItem.inventoryId line <> "") l ->
             Exists (fun line => CartItem.inventoryId line = "") l -> False)
    by (intros l; apply Forall_Exists_clash; auto).
  assert (Hclash2 : forall l : list CartItem.t,
             Forall (fun line => is_Some (inventory db !! CartItem.inventoryId line)) l ->
             Exists (fun line => inventory db !! CartItem.inventoryId line = None) l -> False).
  { intros l. apply Forall_Exists_clash. intros x [d Hd] Hn. congruence. }
  destruct (processPurchase_cases now checkinId cartItems db)
    as [(Hargs & ->) | [(Hc & Hne & Hex & ->) | [(Hc & Hne & Hids & Hmiss & ->)
       | (Hc & Hne & Hids & Hdocs & Hstay & db' & ->)]]]; simpl;
    (split; [|split]); (split; [intros Hres | intros Hcond]);
    try discriminate; try tauto; exfalso.
  - destruct Hcond as (_ & _ & Hids & _). eauto.
  - destruct Hcond as (_ & _ & Hex). eauto.
  - destruct Hcond as (_ & _ & Hex). eauto.
  - destruct Hcond as (_ & _ & _ & [Hmiss|Hnone]); [eauto|].
    destruct Hstay as [c Hstay]. congruence.
Qed.

Lemma processPurchase_error_kinds_witness :
  fst (processPurchase 7 "" twoSoaps exampleDb) = Failure InvalidPurchaseData
  /\ fst (processPurchase 7 "stay1" [CartItem.mk "" "Nameless" 1 10] exampleDb)
     = Failure InvalidDocumentReference
  /\ fst (processPurchase 7 "stay9" twoSoaps exampleDb) = Failure CommitRejected.
Proof.
  split; [|split].
  - apply (processPurchase_error_kinds 7 "" twoSoaps exampleDb);
      [reflexivity | repeat constructor |]. by left.
  - apply (processPurchase_error_kinds 7 "stay1" [CartItem.mk "" "Nameless" 1 10] exampleDb);
      [reflexivity | repeat constructor |].
    split; [discriminate|]. split; [discriminate|]. by left.
  - apply (processPurchase_error_kinds 7 "stay9" twoSoaps exampleDb);
      [reflexivity | repeat constructor |].
    split; [discriminate|]. split; [discriminate|].
    split; [repeat constructor; discriminate|]. right. vm_compute. reflexivity.
Defined.

(** ** What a committed purchase leaves alone *)

Lemma increment_quantity_zero (d : InventoryDoc.t) :
  InventoryDoc.increment_quantity 0 d = d.
Proof. destruct d. unfold InventoryDoc.increment_quantity. simpl. f_equal. lia. Qed.

Lemma increment_initialPayment_zero (c : CheckinDoc.t) :
  CheckinDoc.increment_initialPayment 0 c = c.
Proof. destruct c. unfold CheckinDoc.increment_initialPayment. simpl. f_equal. lia. Qed.

Lemma processPurchase_inventory (now : Z) (checkinId : string)
    (cartItems : list CartItem.t) (db db' : Db) (ref : string) :
  processPurchase now checkinId cartItems db = (Success, db') ->
  inventory db' !! ref
  = InventoryDoc.increment_quantity (- requestedQuantity ref cartItems)
      <$> inventory db !! ref.
Proof.
  intros H. apply processPurchase_Success in H as (_ & _ & Hc).
  by rewrite (commit_inventory ref _ _ _ Hc), batch_inventoryDelta.
Qed.

Lemma processPurchase_checkins (now : Z) (checkinId : string)
    (cartItems : list CartItem.t) (db db' : Db) (c : string) :
  processPurchase now checkinId cartItems db = (Success, db') ->
  checkins db' !! c
  = CheckinDoc.increment_initialPayment
      (if String.eqb checkinId c then - totalAmount cartItems else 0)
      <$> checkins db !! c.
Proof.
  intros H. apply processPurchase_Success in H as (_ & _ & Hc).
  by rewrite (commit_checkins c _ _ _ Hc), batch_checkinDelta.
Qed.

Lemma processPurchase_purchases (now : Z) (checkinId : string)
    (cartItems : list CartItem.t) (db db' : Db) :
  processPurchase now checkinId cartItems db = (Success, db') ->
  purchases db' = purchases db ++ map (purchaseRecord now checkinId) cartItems.
Proof.
  intros H. apply processPurchase_Success in H as (_ & _ & Hc).
  by rewrite (commit_purchases _ _ _ Hc), batch_purchasesWritten.
Qed.

Lemma processPurchase_payments (now : Z) (checkinId : string)
    (cartItems : list CartItem.t) (db db' : Db) (c : string) :
  processPurchase now checkinId cartItems db = (Success, db') ->
  paymentsOf c db'
  = paymentsOf c db
    ++ (if String.eqb checkinId c then [shopPaymentEntry now cartItems] else []).
Proof.
  intros H. apply processPurchase_Success in H as (_ & _ & Hc).
  by rewrite (commit_payments c _ _ _ Hc), batch_paymentsWritten.
Qed.

(** X3.  A committed purchase creates and deletes no inventory document and
    no check-in document; of an inventory document it changes the quantity
    only, never the name, the unit price or the category; and the documents
    of items that the cart does not mention are left exactly as they were. *)
Theorem processPurchase_touches_only_quantities (now : Z) (checkinId : string)
    (cartItems : list CartItem.t) (db db' : Db) :
  processPurchase now checkinId cartItems db = (Success, db') ->
  dom (inventory db') = dom (inventory db)
  /\ dom (checkins db') = dom (checkins db)
  /\ forall ref d',
       inventory db' !! ref = Some d' ->
       exists d,
         inventory db !! ref = Some d
         /\ InventoryDoc.itemName d' = InventoryDoc.itemName d
         /\ InventoryDoc.unitPrice d' = InventoryDoc.unitPrice d
         /\ InventoryDoc.category d' = InventoryDoc.category d
         /\ (~ In ref (map CartItem.inventoryId cartItems) -> d' = d).
Proof.
  intros H. split; [|split].
  - apply set_eq. intros ref.
    rewrite !elem_of_dom, (processPurchase_inventory _ _ _ _ _ ref H).
    apply fmap_is_Some.
  - apply set_eq. intros c.
    rewrite !elem_of_dom, (processPurchase_checkins _ _ _ _ _ c H).
    apply fmap_is_Some.
  - intros ref d' Hd'. rewrite (processPurchase_inventory _ _ _ _ _ ref H) in Hd'.
    destruct (inventory db !! ref) as [d|]; [|discriminate].
    injection Hd' as <-. exists d. repeat split.
    intros Hnot. rewrite (requestedQuantity_absent _ _ Hnot).
    apply increment_quantity_zero.
Qed.

Lemma processPurchase_touches_only_quantities_witness :
  inventory (snd (processPurchase 7 "stay1" twoSoaps exampleDb)) !! "cola" = Some colaDoc.
Proof.
  destruct (processPurchase_touches_only_quantities 7 "stay1" twoSoaps exampleDb
              (snd (processPurchase 7 "stay1" twoSoaps exampleDb)))
    as (_ & _ & Hframe); [vm_compute; reflexivity|].
  destruct (inventory (snd (processPurchase 7 "stay1" twoSoaps exampleDb)) !! "cola")
    as [d'|] eqn:Hd'; [|vm_compute in Hd'; discriminate].
  destruct (Hframe "cola" d' Hd') as (d & Hd & _ & _ & _ & Hsame).
  rewrite Hsame; [|intros [Hin|[]]; discriminate].
  rewrite <- Hd. vm_compute. reflexivity.
Defined.

Lemma getPurchasesByCheckin_grows (now : Z) (checkinId : string)
    (cartItems : list CartItem.t) (db db' : Db) (c : string) :
  processPurchase now checkinId cartItems db = (Success, db') ->
  getPurchasesByCheckin c db'
  = getPurchasesByCheckin c db
    ++ (if String.eqb checkinId c then map (purchaseRecord now checkinId) cartItems else []).
Proof.
  intros H. unfold getPurchasesByCheckin.
  by rewrite (processPurchase_purchases _ _ _ _ _ H), List.filter_app, records_of_checkin.
Qed.

(** X4.  After a committed purchase, whatever the query of
    [getPurchasesByCheckin] returns for the target check-in is, up to order,
    what it could return before together with one record per cart line, so it
    is longer by the number of cart lines; and what it returns for any other
    check-in is, up to order, what it could return before.  (The query has no
    [orderBy]: nothing is claimed about the order of the result.) *)
Theorem getPurchasesByCheckin_after_purchase (now : Z) (checkinId : string)
    (cartItems : list CartItem.t) (db db' : Db) :
  processPurchase now checkinId cartItems db = (Success, db') ->
  (forall before after,
      purchasesQuery checkinId db before ->
      purchasesQuery checkinId db' after ->
      after ≡ₚ before ++ map (purchaseRecord now checkinId) cartItems
      /\ length after = (length before + length cartItems)%nat)
  /\ (forall other before after,
        other <> checkinId ->
        purchasesQuery other db before ->
        purchasesQuery other db' after ->
        after ≡ₚ before).
Proof.
  intros H. unfold purchasesQuery. split.
  - intros before after Hb Ha.
    assert (Hperm : after ≡ₚ before ++ map (purchaseRecord now checkinId) cartItems).
    { rewrite Ha, Hb, (getPurchasesByCheckin_grows _ _ _ _ _ checkinId H).
      by rewrite String.eqb_refl. }
    split; [exact Hperm|].
    rewrite (Permutation_length Hperm), length_app, length_map. reflexivity.
  - intros other before after Hne Hb Ha.
    rewrite Ha, Hb, (getPurchasesByCheckin_grows _ _ _ _ _ other H).
    destruct (String.eqb_spec checkinId other); [congruence|]. by rewrite app_nil_r.
Qed.

Lemma getPurchasesByCheckin_after_purchase_witness :
  getPurchasesByCheckin "stay1" (snd (processPurchase 7 "stay1" twoSoaps exampleDb))
  ≡ₚ [PurchaseDoc.mk "stay1" "soap" "Soap" 2 100 "pending" 7]
  /\ getPurchasesByCheckin "stay2" (snd (processPurchase 7 "stay1" twoSoaps exampleDb)) ≡ₚ [].
Proof.
  destruct (getPurchasesByCheckin_after_purchase 7 "stay1" twoSoaps exampleDb
              (snd (processPurchase 7 "stay1" twoSoaps exampleDb)))
    as [Hown Hother]; [vm_compute; reflexivity|].
  split.
  - apply (Hown [] _); unfold purchasesQuery; [vm_compute|]; reflexivity.
  - apply (Hother "stay2" [] _); [discriminate| |]; unfold purchasesQuery;
      [vm_compute|]; reflexivity.
Defined.

(** ** Quantities that no run of purchases changes *)

Lemma runPurchases_preserves {A : Type} (F : Db -> A) :
  (forall now checkinId cartItems db,
      F (snd (processPurchase now checkinId cartItems db)) = F db) ->
  forall calls db, F (runPurchases calls db) = F db.
Proof.
  intros Hstep calls. unfold runPurchases.
  induction calls as [|c calls IH]; intros db; simpl; [reflexivity|].
  rewrite IH. apply Hstep.
Qed.

Lemma step_cases (now : Z) (checkinId : string) (cartItems : list CartItem.t) (db : Db) :
  (exists db', processPurchase now checkinId cartItems db = (Success, db'))
  \/ snd (processPurchase now checkinId cartItems db) = db.
Proof.
  destruct (processPurchase now checkinId cartItems db) as [[|e] db'] eqn:H.
  - left. eauto.
  - right. simpl. by apply processPurchase_Failure in H.
Qed.

Lemma unitsSold_records (now : Z) (checkinId ref : string) (cartItems : list CartItem.t) :
  fold_left (fun total p => total + PurchaseDoc.quantity p)
            (List.filter (fun p => String.eqb (PurchaseDoc.inventoryId p) ref)
                         (map (purchaseRecord now checkinId) cartItems)) 0
  = requestedQuantity ref cartItems.
Proof.
  induction cartItems as [|line rest IH]; [reflexivity|].
  rewrite requestedQuantity_cons. simpl. unfold sameItem.
  destruct (String.eqb (CartItem.inventoryId line) ref).
  - rewrite fold_left_sum_cons by shift_tac. simpl. lia.
  - lia.
Qed.

Lemma unitsSold_after_purchase (now : Z) (checkinId ref : string)
    (cartItems : list CartItem.t) (db db' : Db) :
  processPurchase now checkinId cartItems db = (Success, db') ->
  unitsSold ref db' = unitsSold ref db + requestedQuantity ref cartItems.
Proof.
  intros H. unfold unitsSold. rewrite (processPurchase_purchases _ _ _ _ _ H).
  rewrite List.filter_app, fold_left_sum_app by shift_tac.
  by rewrite unitsSold_records.
Qed.

(** X5.  Stock is conserved: for every inventory document, the quantity on
    hand plus the units of that item recorded as sold in the purchases
    collection is the same after any run of [processPurchase] calls as before
    it, whether the calls commit or fail. *)
Theorem stock_plus_sold_is_invariant (calls : list PurchaseCall) (db : Db) (ref : string) :
  (fun d => InventoryDoc.quantity d + unitsSold ref (runPurchases calls db))
    <$> inventory (runPurchases calls db) !! ref
  = (fun d => InventoryDoc.quantity d + unitsSold ref db) <$> inventory db !! ref.
Proof.
  apply (runPurchases_preserves
           (fun s => (fun d => InventoryDoc.quantity d + unitsSold ref s)
                       <$> inventory s !! ref)).
  clear. intros now checkinId cartItems db.
  destruct (step_cases now checkinId cartItems db) as [[db' H]| ->]; [|reflexivity].
  rewrite H. simpl.
  rewrite (processPurchase_inventory _ _ _ _ _ ref H),
          (unitsSold_after_purchase _ _ ref _ _ _ H).
  destruct (inventory db !! ref) as [d|]; simpl; [|reflexivity].
  f_equal. lia.
Qed.

Lemma paymentPlusPurchases_preserved (calls : list PurchaseCall)
    (db : Db) (checkinId : string) :
  paymentPlusPurchases checkinId (runPurchases calls db)
  = paymentPlusPurchases checkinId db.
Proof.
  apply (runPurchases_preserves (paymentPlusPurchases checkinId)).
  clear. intros now target cartItems db.
  destruct (step_cases now target cartItems db) as [[db' H]| ->]; [|reflexivity].
  rewrite H. simpl. unfold paymentPlusPurchases, getPurchasesByCheckin.
  rewrite (processPurchase_checkins _ _ _ _ _ checkinId H),
          (processPurchase_purchases _ _ _ _ _ H).
  rewrite List.filter_app, getTotalShopPurchases_app, records_of_checkin.
  destruct (checkins db !! checkinId) as [c|]; simpl; [|reflexivity].
  f_equal. destruct (String.eqb target checkinId).
  - rewrite getTotalShopPurchases_records. lia.
  - unfold getTotalShopPurchases at 2. simpl. lia.
Qed.

(** X6.  For whole-number amounts, the bill of a check-in is conserved: its
    stored initialPayment plus the total of its purchase records, in whatever
    order the query returns them, is the same after any run of
    [processPurchase] calls as before it.  Every committed purchase moves its
    totalAmount from the one to the other, with no condition on the signs of
    quantities and prices.  (With fractional prices the two figures are
    rounded separately and the sum can move in its last digits.) *)
Theorem initialPayment_plus_purchases_is_invariant (calls : list PurchaseCall)
    (db : Db) (checkinId : string) (before after : list PurchaseDoc.t) :
  purchasesQuery checkinId db before ->
  purchasesQuery checkinId (runPurchases calls db) after ->
  (fun c => CheckinDoc.initialPayment c + getTotalShopPurchases after)
    <$> checkins (runPurchases calls db) !! checkinId
  = (fun c => CheckinDoc.initialPayment c + getTotalShopPurchases before)
      <$> checkins db !! checkinId.
Proof.
  intros Hb Ha.
  rewrite (getTotalShopPurchases_perm _ _ Hb), (getTotalShopPurchases_perm _ _ Ha).
  exact (paymentPlusPurchases_preserved calls db checkinId).
Qed.

Lemma initialPayment_plus_purchases_is_invariant_witness :
  let calls := [mkCall 7 "stay1" twoSoaps;
                mkCall 9 "stay1" [CartItem.mk "cola" "Cola" 1 30;
                                  CartItem.mk "soap" "Soap" 1 50]] in
  (fun c => CheckinDoc.initialPayment c
            + getTotalShopPurchases
                (rev (getPurchasesByCheckin "stay1" (runPurchases calls exampleDb))))
    <$> checkins (runPurchases calls exampleDb) !! "stay1"
  = (fun c => CheckinDoc.initialPayment c + 0) <$> checkins exampleDb !! "stay1".
Proof.
  intros calls.
  apply (initialPayment_plus_purchases_is_invariant calls exampleDb "stay1" []);
    unfold purchasesQuery.
  - vm_compute. reflexivity.
  - symmetry. apply Permutation_rev.
Defined.

(** X8.  The purchases collection and the payments of every check-in only
    grow: after any run of [processPurchase] calls each of them is what it
    was before, followed by what the run appended.  No call removes or
    rewrites a record. *)
Theorem runPurchases_only_appends (calls : list PurchaseCall) (db : Db) :
  (exists added, purchases (runPurchases calls db) = purchases db ++ added)
  /\ forall c, exists added,
       paymentsOf c (runPurchases calls db) = paymentsOf c db ++ added.
Proof.
  unfold runPurchases. revert db.
  induction calls as [|call calls IH]; intros db; simpl.
  - split; [|intros c]; exists []; by rewrite app_nil_r.
  - destruct (IH (snd (processPurchase (call_now call) (call_checkinId call)
                         (call_cartItems call) db))) as [[a1 H1] H2].
    destruct (step_cases (call_now call) (call_checkinId call) (call_cartItems call) db)
      as [[db' H]|Hsame].
    + rewrite H in *. simpl in *. split.
      * rewrite H1, (processPurchase_purchases _ _ _ _ _ H), <- app_assoc. eauto.
      * intros c. destruct (H2 c) as [a2 Ha2].
        rewrite Ha2, (processPurchase_payments _ _ _ _ _ c H), <- app_assoc. eauto.
    + rewrite Hsame in *. split; [eauto | exact H2].
Qed.

(** ** Two purchases and one *)

Lemma requestedQuantity_app (ref : string) (c1 c2 : list CartItem.t) :
  requestedQuantity ref (c1 ++ c2) = requestedQuantity ref c1 + requestedQuantity ref c2.
Proof. unfold requestedQuantity. apply fold_left_sum_app. shift_tac. Qed.

Lemma increment_quantity_twice (a b : Z) (d : InventoryDoc.t) :
  InventoryDoc.increment_quantity b (InventoryDoc.increment_quantity a d)
  = InventoryDoc.increment_quantity (a + b) d.
Proof. unfold InventoryDoc.increment_quantity. simpl. f_equal. lia. Qed.

(** X9.  Two purchases committed one after the other for the same check-in,
    at the same clock reading, leave the inventory and the purchase records
    exactly as one purchase of the two carts put together would, and that one
    purchase commits too.  The check-in documents agree in every field but
    initialPayment, and fully for every other check-in; the initialPayment of
    the target is lowered by each total in turn in the one case and by the
    total of the joined cart in the other.  The payments differ in shape: two
    entries of minus each total instead of one entry of minus the total of the
    joined cart. *)
Theorem two_purchases_as_one (now : Z) (checkinId : string)
    (cart1 cart2 : list CartItem.t) (db db1 db2 : Db) :
  processPurchase now checkinId cart1 db = (Success, db1) ->
  processPurchase now checkinId cart2 db1 = (Success, db2) ->
  exists db12,
    processPurchase now checkinId (cart1 ++ cart2) db = (Success, db12)
    /\ inventory db12 = inventory db2
    /\ purchases db12 = purchases db2
    /\ (forall c d12,
          checkins db12 !! c = Some d12 ->
          exists d2,
            checkins db2 !! c = Some d2
            /\ CheckinDoc.guestName d12 = CheckinDoc.guestName d2
            /\ CheckinDoc.roomId d12 = CheckinDoc.roomId d2
            /\ CheckinDoc.rent d12 = CheckinDoc.rent d2
            /\ CheckinDoc.isCheckedOut d12 = CheckinDoc.isCheckedOut d2
            /\ CheckinDoc.checkedInAt d12 = CheckinDoc.checkedInAt d2
            /\ (c <> checkinId -> d12 = d2))
    /\ CheckinDoc.initialPayment <$> checkins db2 !! checkinId
       = (fun c => CheckinDoc.initialPayment c + - totalAmount cart1 + - totalAmount cart2)
           <$> checkins db !! checkinId
    /\ CheckinDoc.initialPayment <$> checkins db12 !! checkinId
       = (fun c => CheckinDoc.initialPayment c + - totalAmount (cart1 ++ cart2))
           <$> checkins db !! checkinId
    /\ paymentsOf checkinId db2
       = paymentsOf checkinId db
         ++ [shopPaymentEntry now cart1; shopPaymentEntry now cart2]
    /\ paymentsOf checkinId db12
       = paymentsOf checkinId db ++ [shopPaymentEntry now (cart1 ++ cart2)].
Proof.
  intros H1 H2.
  assert (Hok : fst (processPurchase now checkinId (cart1 ++ cart2) db) = Success).
  { pose proof (proj1 (processPurchase_success_criterion now checkinId cart1 db)) as S1.
    pose proof (proj1 (processPurchase_success_criterion now checkinId cart2 db1)) as S2.
    rewrite H1 in S1. rewrite H2 in S2.
    destruct (S1 eq_refl) as (Hc & Hne1 & Hl1 & Hstay).
    destruct (S2 eq_refl) as (_ & _ & Hl2 & _).
    apply processPurchase_success_criterion. split; [exact Hc|].
    split; [by destruct cart1|]. split; [|exact Hstay].
    apply Forall_app. split; [exact Hl1|].
    eapply Forall_impl; [exact Hl2|]. intros line [Hid Hdoc]. split; [exact Hid|].
    rewrite (processPurchase_inventory _ _ _ _ _ (CartItem.inventoryId line) H1) in Hdoc.
    by apply fmap_is_Some in Hdoc. }
  destruct (processPurchase now checkinId (cart1 ++ cart2) db) as [r db12] eqn:H12.
  simpl in Hok. subst r. exists db12. split; [reflexivity|].
  split; [|split; [|split; [|split; [|split; [|split]]]]].
  - apply map_eq. intros ref.
    rewrite (processPurchase_inventory _ _ _ _ _ ref H12),
            (processPurchase_inventory _ _ _ _ _ ref H2),
            (processPurchase_inventory _ _ _ _ _ ref H1), requestedQuantity_app.
    destruct (inventory db !! ref) as [d|]; simpl; [|reflexivity].
    rewrite increment_quantity_twice. do 2 f_equal. lia.
  - rewrite (processPurchase_purchases _ _ _ _ _ H12),
            (processPurchase_purchases _ _ _ _ _ H2),
            (processPurchase_purchases _ _ _ _ _ H1), map_app.
    by rewrite <- app_assoc.
  - intros c d12.
    rewrite (processPurchase_checkins _ _ _ _ _ c H12),
            (processPurchase_checkins _ _ _ _ _ c H2),
            (processPurchase_checkins _ _ _ _ _ c H1).
    destruct (checkins db !! c) as [d|]; simpl; [|discriminate].
    intros [= <-]. eexists. split; [reflexivity|]. repeat split.
    intros Hne. destruct (String.eqb_spec checkinId c) as [->|_]; [congruence|].
    by rewrite !increment_initialPayment_zero.
  - rewrite (processPurchase_checkins _ _ _ _ _ checkinId H2),
            (processPurchase_checkins _ _ _ _ _ checkinId H1), String.eqb_refl.
    by destruct (checkins db !! checkinId).
  - rewrite (processPurchase_checkins _ _ _ _ _ checkinId H12), String.eqb_refl.
    by destruct (checkins db !! checkinId).
  - rewrite (processPurchase_payments _ _ _ _ _ checkinId H2),
            (processPurchase_payments _ _ _ _ _ checkinId H1), String.eqb_refl.
    by rewrite <- app_assoc.
  - by rewrite (processPurchase_payments _ _ _ _ _ checkinId H12), String.eqb_refl.
Qed.

Lemma two_purchases_as_one_witness :
  let cola := [CartItem.mk "cola" "Cola" 1 30] in
  exists db12,
    processPurchase 7 "stay1" (twoSoaps ++ cola) exampleDb = (Success, db12)
    /\ inventory db12
       = inventory (snd (processPurchase 7 "stay1" cola
                           (snd (processPurchase 7 "stay1" twoSoaps exampleDb)))).
Proof.
  intros cola.
  destruct (two_purchases_as_one 7 "stay1" twoSoaps cola exampleDb
              (snd (processPurchase 7 "stay1" twoSoaps exampleDb))
              (snd (processPurchase 7 "stay1" cola
                      (snd (processPurchase 7 "stay1" twoSoaps exampleDb)))))
    as (db12 & Hp & Hinv & _).
  - vm_compute. reflexivity.
  - vm_compute. reflexivity.
  - exists db12. split; [exact Hp | exact Hinv].
Defined.

(** * The cart of the shop screen, continued *)

Lemma cartCount_cons (line : CartItem.t) (rest : list CartItem.t) :
  cartCount (line :: rest) = CartItem.quantity line + cartCount rest.
Proof. unfold cartCount. rewrite fold_left_sum_cons by shift_tac. lia. Qed.

Lemma cartCount_app (c1 c2 : list CartItem.t) :
  cartCount (c1 ++ c2) = cartCount c1 + cartCount c2.
Proof. unfold cartCount. apply fold_left_sum_app. shift_tac. Qed.

Lemma find_sameItem_none (inventoryId : string) (cartItems : list CartItem.t) :
  List.find (sameItem inventoryId) cartItems = None
  <-> ~ In inventoryId (map CartItem.inventoryId cartItems).
Proof.
  induction cartItems as [|line rest IH]; simpl; [tauto|].
  destruct (sameItem inventoryId line) eqn:Hs.
  - apply sameItem_true in Hs. split; [discriminate | tauto].
  - apply sameItem_false in Hs. rewrite IH. tauto.
Qed.

Lemma bumpLine_absent (inventoryId : string) (delta : Z) (cartItems : list CartItem.t) :
  ~ In inventoryId (map CartItem.inventoryId cartItems) ->
  bumpLine inventoryId delta cartItems = cartItems.
Proof.
  induction cartItems as [|line rest IH]; intros Hnot; [reflexivity|].
  simpl in *. destruct (sameItem inventoryId line) eqn:Hs.
  - apply sameItem_true in Hs. tauto.
  - rewrite IH; [reflexivity | tauto].
Qed.

Lemma bumpLine_ids (inventoryId : string) (delta : Z) (cartItems : list CartItem.t) :
  map CartItem.inventoryId (bumpLine inventoryId delta cartItems)
  = map CartItem.inventoryId cartItems.
Proof.
  unfold bumpLine. apply ids_map_keep. intros line. by destruct (sameItem _ line).
Qed.

Lemma bumpLine_back (inventoryId : string) (delta : Z) (cartItems : list CartItem.t) :
  bumpLine inventoryId (- delta) (bumpLine inventoryId delta cartItems) = cartItems.
Proof.
  unfold bumpLine. rewrite map_map. rewrite <- (map_id cartItems) at 2.
  apply map_ext. intros [i n q p]. unfold sameItem, addQuantity. simpl.
  destruct (String.eqb i inventoryId) eqn:Hi; simpl; rewrite ?Hi; [|reflexivity].
  f_equal. lia.
Qed.

Lemma bumpLine_find (ref inventoryId : string) (delta : Z) (cartItems : list CartItem.t) :
  List.find (sameItem ref) (bumpLine inventoryId delta cartItems)
  = (fun line => if sameItem inventoryId line then addQuantity delta line else line)
      <$> List.find (sameItem ref) cartItems.
Proof.
  induction cartItems as [|line rest IH]; [reflexivity|].
  simpl. destruct (sameItem inventoryId line) eqn:Hs.
  - change (sameItem ref (addQuantity delta line)) with (sameItem ref line).
    destruct (sameItem ref line); simpl; [by rewrite Hs | exact IH].
  - destruct (sameItem ref line); simpl; [by rewrite Hs | exact IH].
Qed.

Lemma bumpLine_requested (ref inventoryId : string) (delta : Z)
    (cartItems : list CartItem.t) :
  NoDup (map CartItem.inventoryId cartItems) ->
  In inventoryId (map CartItem.inventoryId cartItems) ->
  requestedQuantity ref (bumpLine inventoryId delta cartItems)
  = requestedQuantity ref cartItems + (if String.eqb ref inventoryId then delta else 0).
Proof.
  induction cartItems as [|line rest IH]; intros Hnd Hin; [destruct Hin|].
  simpl in Hnd. apply NoDup_cons in Hnd as [Hline Hnd]. rewrite list_elem_of_In in Hline.
  simpl bumpLine. destruct (sameItem inventoryId line) eqn:Hs.
  - apply sameItem_true in Hs.
    fold (bumpLine inventoryId delta rest).
    rewrite bumpLine_absent by congruence.
    rewrite !requestedQuantity_cons.
    change (sameItem ref (addQuantity delta line)) with (sameItem ref line).
    unfold sameItem. rewrite Hs.
    destruct (String.eqb_spec inventoryId ref) as [->|Hne].
    + rewrite String.eqb_refl. simpl. lia.
    + destruct (String.eqb_spec ref inventoryId); [congruence | lia].
  - apply sameItem_false in Hs. fold (bumpLine inventoryId delta rest).
    rewrite !requestedQuantity_cons, IH; [lia | exact Hnd |].
    destruct Hin as [Heq|Hin]; [congruence | exact Hin].
Qed.

Lemma bumpLine_count (inventoryId : string) (delta : Z) (cartItems : list CartItem.t) :
  NoDup (map CartItem.inventoryId cartItems) ->
  In inventoryId (map CartItem.inventoryId cartItems) ->
  cartCount (bumpLine inventoryId delta cartItems) = cartCount cartItems + delta.
Proof.
  induction cartItems as [|line rest IH]; intros Hnd Hin; [destruct Hin|].
  simpl in Hnd. apply NoDup_cons in Hnd as [Hline Hnd]. rewrite list_elem_of_In in Hline.
  simpl bumpLine. destruct (sameItem inventoryId line) eqn:Hs.
  - apply sameItem_true in Hs. fold (bumpLine inventoryId delta rest).
    rewrite bumpLine_absent by congruence.
    rewrite !cartCount_cons. simpl. lia.
  - apply sameItem_false in Hs. fold (bumpLine inventoryId delta rest).
    rewrite !cartCount_cons, IH; [lia | exact Hnd |].
    destruct Hin as [Heq|Hin]; [congruence | exact Hin].
Qed.

Lemma requestedQuantity_found (ref : string) (cartItems : list CartItem.t)
    (line : CartItem.t) :
  NoDup (map CartItem.inventoryId cartItems) ->
  List.find (sameItem ref) cartItems = Some line ->
  requestedQuantity ref cartItems = CartItem.quantity line.
Proof.
  induction cartItems as [|x rest IH]; intros Hnd Hfind; [discriminate|].
  simpl in Hnd. apply NoDup_cons in Hnd as [Hx Hnd]. rewrite list_elem_of_In in Hx.
  rewrite requestedQuantity_cons. simpl in Hfind.
  destruct (sameItem ref x) eqn:Hs.
  - injection Hfind as <-. apply sameItem_true in Hs.
    rewrite requestedQuantity_absent by congruence. lia.
  - rewrite (IH Hnd Hfind). lia.
Qed.

Lemma find_app_none {A : Type} (f : A -> bool) (l1 l2 : list A) :
  List.find f l1 = None -> List.find f (l1 ++ l2) = List.find f l2.
Proof.
  induction l1 as [|x l1 IH]; simpl; [reflexivity|].
  destruct (f x); [discriminate | exact IH].
Qed.

Lemma filter_app_new (inventoryId : string) (cartItems : list CartItem.t)
    (line : CartItem.t) :
  List.find (sameItem inventoryId) cartItems = None ->
  CartItem.inventoryId line = inventoryId ->
  List.filter (fun item => negb (sameItem inventoryId item)) (cartItems ++ [line])
  = cartItems.
Proof.
  intros Hnone Hid. rewrite List.filter_app. simpl.
  apply sameItem_true in Hid. rewrite Hid. simpl. rewrite app_nil_r.
  induction cartItems as [|x rest IH]; [reflexivity|].
  simpl in *. destruct (sameItem inventoryId x); [discriminate|].
  simpl. f_equal. by apply IH.
Qed.

Lemma requestedQuantity_single (ref : string) (line : CartItem.t) :
  requestedQuantity ref [line]
  = if sameItem ref line then CartItem.quantity line else 0.
Proof. unfold requestedQuantity. simpl. by destruct (sameItem ref line). Qed.

Lemma addToCart_cases (selectedRoom : string) (cartItems : list CartItem.t)
    (item : InventoryItem.t) :
  selectedRoom <> "" ->
  (exists existingItem,
      List.find (sameItem (InventoryItem.id item)) cartItems = Some existingItem
      /\ InventoryItem.quantity item <= CartItem.quantity existingItem
      /\ addToCart selectedRoom cartItems item = cartItems)
  \/ (exists existingItem,
         List.find (sameItem (InventoryItem.id item)) cartItems = Some existingItem
         /\ CartItem.quantity existingItem < InventoryItem.quantity item
         /\ addToCart selectedRoom cartItems item
            = bumpLine (InventoryItem.id item) 1 cartItems)
  \/ (List.find (sameItem (InventoryItem.id item)) cartItems = None
      /\ addToCart selectedRoom cartItems item
         = cartItems ++ [CartItem.mk (InventoryItem.id item) (InventoryItem.itemName item)
                                     1 (InventoryItem.unitPrice item)]).
Proof.
  intros Hroom. unfold addToCart.
  destruct (String.eqb_spec selectedRoom ""); [done|].
  destruct (List.find _ cartItems) as [existingItem|]; [|by right; right].
  destruct (Z.leb_spec (InventoryItem.quantity item) (CartItem.quantity existingItem)).
  - left. eauto.
  - right. left. eauto.
Qed.

(** X10.  What one press of an add button does.  Without a selected room the
    cart is left as it is.  With a room selected and a cart that has at most
    one line per item: when the item is in the cart and its remaining stock
    is zero or less the press is refused and the cart is left as it is;
    otherwise the cart holds exactly one more unit of that item and the same
    of every other item, the badge count grows by one, the item's remaining
    stock drops by one, and the cart still has at most one line per item. *)
Theorem addToCart_adds_one_or_refuses (selectedRoom : string)
    (cartItems : list CartItem.t) (item : InventoryItem.t) :
  addToCart "" cartItems item = cartItems
  /\ (selectedRoom <> "" ->
      NoDup (map CartItem.inventoryId cartItems) ->
      (In (InventoryItem.id item) (map CartItem.inventoryId cartItems)
       /\ remainingStock cartItems item <= 0 ->
       addToCart selectedRoom cartItems item = cartItems)
      /\ (~ In (InventoryItem.id item) (map CartItem.inventoryId cartItems)
          \/ 0 < remainingStock cartItems item ->
          cartCount (addToCart selectedRoom cartItems item) = cartCount cartItems + 1
          /\ requestedQuantity (InventoryItem.id item)
               (addToCart selectedRoom cartItems item)
             = requestedQuantity (InventoryItem.id item) cartItems + 1
          /\ (forall other, other <> InventoryItem.id item ->
                requestedQuantity other (addToCart selectedRoom cartItems item)
                = requestedQuantity other cartItems)
          /\ remainingStock (addToCart selectedRoom cartItems item) item
             = remainingStock cartItems item - 1
          /\ NoDup (map CartItem.inventoryId (addToCart selectedRoom cartItems item)))).
Proof.
  split; [reflexivity|]. intros Hroom Hnd.
  destruct (addToCart_cases selectedRoom cartItems item Hroom)
    as [(e & Hfind & Hle & ->) | [(e & Hfind & Hlt & ->) | (Hnone & ->)]].
  - split; [done|]. intros [Hnot|Hpos]; exfalso.
    + apply find_sameItem_none in Hnot. congruence.
    + unfold remainingStock in Hpos. rewrite Hfind in Hpos. lia.
  - assert (Hin : In (InventoryItem.id item) (map CartItem.inventoryId cartItems)).
    { destruct (find_some _ _ Hfind) as [He Hs]. apply sameItem_true in Hs.
      rewrite <- Hs. by apply in_map. }
    split.
    { intros [_ Hle]. unfold remainingStock in Hle. rewrite Hfind in Hle. lia. }
    intros _. split; [by apply bumpLine_count|]. split; [|split; [|split]].
    + rewrite bumpLine_requested, String.eqb_refl by done. reflexivity.
    + intros other Hne. rewrite bumpLine_requested by done.
      destruct (String.eqb_spec other (InventoryItem.id item)); [done | lia].
    + unfold remainingStock. rewrite bumpLine_find, Hfind. simpl.
      destruct (find_some _ _ Hfind) as [_ ->]. simpl. lia.
    + by rewrite bumpLine_ids.
  - pose proof (proj1 (find_sameItem_none _ _) Hnone) as Hnot.
    split; [tauto|]. intros _.
    split; [rewrite cartCount_app; unfold cartCount; simpl; lia|].
    split; [|split; [|split]].
    + rewrite requestedQuantity_app, requestedQuantity_single.
      unfold sameItem. simpl. rewrite String.eqb_refl. reflexivity.
    + intros other Hne. rewrite requestedQuantity_app, requestedQuantity_single.
      unfold sameItem. simpl.
      destruct (String.eqb_spec (InventoryItem.id item) other); [congruence | lia].
    + unfold remainingStock. rewrite find_app_none, Hnone by done.
      simpl. unfold sameItem. simpl. rewrite String.eqb_refl. simpl. lia.
    + rewrite map_app. simpl. apply NoDup_app. split; [exact Hnd|].
      split; [|apply NoDup_singleton].
      intros x Hx Hx'. apply list_elem_of_singleton in Hx'. subst x.
      by apply list_elem_of_In in Hx.
Qed.

Lemma addToCart_adds_one_or_refuses_witness :
  let soap := InventoryItem.mk "soap" "Soap" 2 50 "toiletries" in
  cartCount (addToCart "stay1" [CartItem.mk "soap" "Soap" 1 50] soap) = 2
  /\ addToCart "stay1" [CartItem.mk "soap" "Soap" 2 50] soap
     = [CartItem.mk "soap" "Soap" 2 50].
Proof.
  intros soap. split.
  - destruct (addToCart_adds_one_or_refuses "stay1" [CartItem.mk "soap" "Soap" 1 50] soap)
      as (_ & H).
    destruct H as (_ & Hacc); [discriminate | repeat constructor; set_solver|].
    destruct Hacc as (Hcount & _); [right; vm_compute; reflexivity|].
    rewrite Hcount. reflexivity.
  - destruct (addToCart_adds_one_or_refuses "stay1" [CartItem.mk "soap" "Soap" 2 50] soap)
      as (_ & H).
    destruct H as (Href & _); [discriminate | repeat constructor; set_solver|].
    apply Href. split; [by left | vm_compute; discriminate].
Defined.

(** X11.  A press that the shop accepts is undone by one press of the minus
    button: in a cart whose lines all hold at least one unit, when a room is
    selected and the item has remaining stock, [removeFromCart] after
    [addToCart] gives the cart back exactly as it was. *)
Theorem removeFromCart_undoes_addToCart (selectedRoom : string)
    (cartItems : list CartItem.t) (item : InventoryItem.t) :
  selectedRoom <> "" ->
  Forall (fun line => 1 <= CartItem.quantity line) cartItems ->
  0 < remainingStock cartItems item ->
  removeFromCart (addToCart selectedRoom cartItems item) (InventoryItem.id item)
  = cartItems.
Proof.
  intros Hroom Hpos Hrem.
  destruct (addToCart_cases selectedRoom cartItems item Hroom)
    as [(e & Hfind & Hle & ->) | [(e & Hfind & Hlt & ->) | (Hnone & ->)]].
  - unfold remainingStock in Hrem. rewrite Hfind in Hrem. lia.
  - unfold removeFromCart. rewrite bumpLine_find, Hfind. simpl.
    destruct (find_some _ _ Hfind) as [He Hs]. rewrite Hs. simpl.
    rewrite List.Forall_forall in Hpos. specialize (Hpos e He).
    destruct (Z.eqb_spec (CartItem.quantity e + 1) 1); [lia|].
    apply (bumpLine_back (InventoryItem.id item) 1 cartItems).
  - unfold removeFromCart. rewrite find_app_none by done.
    simpl. unfold sameItem at 1. simpl. rewrite String.eqb_refl. simpl.
    by apply filter_app_new.
Qed.

Lemma removeFromCart_undoes_addToCart_witness :
  removeFromCart
    (addToCart "stay1" [CartItem.mk "cola" "Cola" 1 30; CartItem.mk "soap" "Soap" 1 50]
               (InventoryItem.mk "soap" "Soap" 5 50 "toiletries"))
    "soap"
  = [CartItem.mk "cola" "Cola" 1 30; CartItem.mk "soap" "Soap" 1 50].
Proof.
  apply (removeFromCart_undoes_addToCart "stay1"
           [CartItem.mk "cola" "Cola" 1 30; CartItem.mk "soap" "Soap" 1 50]
           (InventoryItem.mk "soap" "Soap" 5 50 "toiletries")).
  - discriminate.
  - repeat constructor; simpl; lia.
  - vm_compute. reflexivity.
Defined.

Lemma requestedQuantity_filter_out (ref inventoryId : string) (cartItems : list CartItem.t) :
  requestedQuantity ref
    (List.filter (fun item => negb (sameItem inventoryId item)) cartItems)
  = if String.eqb ref inventoryId then 0 else requestedQuantity ref cartItems.
Proof.
  induction cartItems as [|line rest IH].
  { by destruct (String.eqb ref inventoryId). }
  simpl. rewrite requestedQuantity_cons.
  destruct (sameItem inventoryId line) eqn:Hs; simpl.
  - rewrite IH. apply sameItem_true in Hs.
    destruct (String.eqb_spec ref inventoryId) as [->|Hne]; [reflexivity|].
    assert (sameItem ref line = false) as -> by (apply sameItem_false; congruence). lia.
  - rewrite requestedQuantity_cons, IH. apply sameItem_false in Hs.
    destruct (String.eqb_spec ref inventoryId) as [->|Hne]; [|reflexivity].
    assert (sameItem inventoryId line = false) as -> by (by apply sameItem_false). lia.
Qed.

(** X12.  The minus and the bin buttons.  In a cart with at most one line per
    item and at least one unit on every line, [removeFromCart] lowers the
    quantity the cart holds of the item by exactly one (and leaves an item
    that is not in the cart out of it), never leaves a line with less than
    one unit, and [removeItemCompletely] takes the item out altogether;
    neither changes the quantity of any other item. *)
Theorem cart_removals (cartItems : list CartItem.t) (inventoryId : string) :
  NoDup (map CartItem.inventoryId cartItems) ->
  Forall (fun line => 1 <= CartItem.quantity line) cartItems ->
  requestedQuantity inventoryId (removeFromCart cartItems inventoryId)
  = Z.max 0 (requestedQuantity inventoryId cartItems - 1)
  /\ Forall (fun line => 1 <= CartItem.quantity line) (removeFromCart cartItems inventoryId)
  /\ requestedQuantity inventoryId (removeItemCompletely cartItems inventoryId) = 0
  /\ forall other, other <> inventoryId ->
       requestedQuantity other (removeFromCart cartItems inventoryId)
       = requestedQuantity other cartItems
       /\ requestedQuantity other (removeItemCompletely cartItems inventoryId)
          = requestedQuantity other cartItems.
Proof.
  intros Hnd Hpos.
  assert (Hbin : forall ref,
             requestedQuantity ref (removeItemCompletely cartItems inventoryId)
             = if String.eqb ref inventoryId then 0 else requestedQuantity ref cartItems)
    by (intros ref; apply requestedQuantity_filter_out).
  unfold removeFromCart.
  destruct (List.find (sameItem inventoryId) cartItems) as [e|] eqn:Hfind.
  - pose proof (requestedQuantity_found _ _ _ Hnd Hfind) as Hreq.
    destruct (find_some _ _ Hfind) as [He Hs].
    assert (Hin : In inventoryId (map CartItem.inventoryId cartItems)).
    { apply sameItem_true in Hs. rewrite <- Hs. by apply in_map. }
    pose proof (proj1 (List.Forall_forall _ _) Hpos e He) as Hq. cbv beta in Hq.
    destruct (Z.eqb_spec (CartItem.quantity e) 1) as [Hone|Hmore].
    + split; [rewrite requestedQuantity_filter_out, String.eqb_refl; lia|].
      split; [by apply Forall_filter_keep|].
      split; [by rewrite Hbin, String.eqb_refl|].
      intros other Hne. rewrite requestedQuantity_filter_out, Hbin.
      by destruct (String.eqb_spec other inventoryId).
    + change (map _ cartItems) with (bumpLine inventoryId (-1) cartItems).
      split; [rewrite bumpLine_requested, String.eqb_refl by done; lia|].
      split.
      { apply List.Forall_forall. intros line' Hin'. unfold bumpLine in Hin'.
        apply in_map_iff in Hin' as (line & <- & Hline).
        pose proof (proj1 (List.Forall_forall _ _) Hpos line Hline) as Hql.
        cbv beta in Hql.
        destruct (sameItem inventoryId line) eqn:Hsl; [|exact Hql].
        apply sameItem_true in Hsl. apply sameItem_true in Hs.
        assert (line = e) as -> by (apply (NoDup_ids_same_line cartItems); congruence).
        simpl. lia. }
      split; [by rewrite Hbin, String.eqb_refl|].
      intros other Hne. rewrite bumpLine_requested, Hbin by done.
      destruct (String.eqb_spec other inventoryId); [done|]. split; [lia | reflexivity].
  - apply find_sameItem_none in Hfind.
    split; [rewrite (requestedQuantity_absent _ _ Hfind); lia|].
    split; [exact Hpos|].
    split; [by rewrite Hbin, String.eqb_refl|].
    intros other Hne. rewrite Hbin. by destruct (String.eqb_spec other inventoryId).
Qed.

Lemma cart_removals_witness :
  let cart := [CartItem.mk "cola" "Cola" 1 30; CartItem.mk "soap" "Soap" 3 50] in
  requestedQuantity "soap" (removeFromCart cart "soap") = 2
  /\ requestedQuantity "cola" (removeFromCart cart "cola") = 0.
Proof.
  intros cart.
  assert (Hnd : NoDup (map CartItem.inventoryId cart))
    by (apply (bool_decide_unpack _); vm_compute; exact I).
  assert (Hpos : Forall (fun line => 1 <= CartItem.quantity line) cart)
    by (repeat constructor; simpl; lia).
  destruct (cart_removals cart "soap" Hnd Hpos) as (Hsoap & _).
  destruct (cart_removals cart "cola" Hnd Hpos) as (Hcola & _).
  split; [rewrite Hsoap | rewrite Hcola]; vm_compute; reflexivity.
Defined.

(** ** The cart against the listed stock *)

Lemma cartWithinStock_ones (db : Db) (cartItems : list CartItem.t) :
  cartWithinStock db cartItems ->
  Forall (fun line => 1 <= CartItem.quantity line) cartItems.
Proof.
  intros [_ Hall]. eapply Forall_impl; [exact Hall|].
  intros line (d & _ & Hlo & _). exact Hlo.
Qed.

Lemma listed_item (db : Db) (inventoryItems : list InventoryItem.t) (item : InventoryItem.t) :
  fetchedFrom db inventoryItems = true ->
  In item inventoryItems ->
  exists d, inventory db !! InventoryItem.id item = Some d
            /\ InventoryDoc.quantity d = InventoryItem.quantity item
            /\ 0 < InventoryItem.quantity item.
Proof.
  intros Hfetched Hin. unfold fetchedFrom in Hfetched.
  rewrite forallb_forall in Hfetched. specialize (Hfetched item Hin).
  unfold listedFrom in Hfetched.
  destruct (inventory db !! InventoryItem.id item) as [d|]; [|discriminate].
  apply andb_true_iff in Hfetched as [Hq Hpos].
  apply Z.eqb_eq in Hq. apply Z.ltb_lt in Hpos. eauto.
Qed.

(** X13.  The 'Available' figure of an item card is never negative: for a
    cart filled through the screen's buttons from a list fetched from a
    store, the remaining stock of every listed item lies between zero and its
    listed quantity, and is below the listed quantity as soon as the cart
    holds the item. *)
Theorem remainingStock_within_bounds (db : Db) (selectedRoom : string)
    (inventoryItems : list InventoryItem.t) (actions : list CartAction)
    (item : InventoryItem.t) :
  fetchedFrom db inventoryItems = true ->
  In item inventoryItems ->
  0 <= remainingStock (cartAfter selectedRoom inventoryItems actions) item
    <= InventoryItem.quantity item
  /\ (In (InventoryItem.id item)
         (map CartItem.inventoryId (cartAfter selectedRoom inventoryItems actions)) ->
      remainingStock (cartAfter selectedRoom inventoryItems actions) item
      < InventoryItem.quantity item).
Proof.
  intros Hfetched Hin.
  destruct (cartAfter_within db selectedRoom inventoryItems actions Hfetched) as [Hnd Hall].
  destruct (listed_item _ _ _ Hfetched Hin) as (d & Hd & Hq & Hpos).
  unfold remainingStock.
  destruct (List.find _ (cartAfter selectedRoom inventoryItems actions))
    as [line|] eqn:Hfind.
  - destruct (find_some _ _ Hfind) as [Hline Hs]. apply sameItem_true in Hs.
    rewrite List.Forall_forall in Hall.
    destruct (Hall line Hline) as (d' & Hd' & Hlo & Hhi).
    assert (d' = d) as -> by congruence. split; lia.
  - split; [lia|]. intros Hcart. apply find_sameItem_none in Hfind. tauto.
Qed.

Lemma remainingStock_within_bounds_witness :
  let items := [InventoryItem.mk "cola" "Cola" 1 30 "drinks";
                InventoryItem.mk "soap" "Soap" 5 50 "toiletries"] in
  0 <= remainingStock (cartAfter "stay1" items [PressAdd 0; PressAdd 0; PressAdd 1])
         (InventoryItem.mk "cola" "Cola" 1 30 "drinks") <= 1.
Proof.
  intros items.
  apply (remainingStock_within_bounds exampleDb "stay1" items
           [PressAdd 0; PressAdd 0; PressAdd 1]
           (InventoryItem.mk "cola" "Cola" 1 30 "drinks")).
  - vm_compute. reflexivity.
  - by left.
Defined.

(** ** The checkout of the shop screen *)

Lemma cartStep_no_room (inventoryItems : list InventoryItem.t) (a : CartAction) :
  cartStep "" inventoryItems [] a = [].
Proof. destruct a as [i|i|i|i]; simpl; try (by destruct i).
  by destruct (nth_error inventoryItems i). Qed.

Lemma cartAfter_no_room (inventoryItems : list InventoryItem.t) (actions : list CartAction) :
  cartAfter "" inventoryItems actions = [].
Proof.
  unfold cartAfter. induction actions as [|a actions IH]; simpl; [reflexivity|].
  by rewrite cartStep_no_room.
Qed.

(** X14.  A cart filled on the screen always checks out: when the list of
    items was fetched from the store, no inventory document has an empty id,
    the selected room's check-in document exists and the cart is not empty,
    [handleCheckout] commits the purchase and raises the success flag.
    (With no room selected the screen never lets anything into the cart.) *)
Theorem screen_checkout_commits (now : Z) (db : Db) (s : Shop.t)
    (inventoryItems : list InventoryItem.t) (actions : list CartAction) :
  fetchedFrom db inventoryItems = true ->
  inventory db !! "" = None ->
  is_Some (checkins db !! Shop.selectedRoom s) ->
  Shop.cartItems s = cartAfter (Shop.selectedRoom s) inventoryItems actions ->
  Shop.cartItems s <> [] ->
  cartAfter "" inventoryItems actions = []
  /\ exists db',
       processPurchase now (Shop.selectedRoom s) (Shop.cartItems s) db = (Success, db')
       /\ handleCheckout now s db
          = (Shop.mk (Shop.selectedRoom s) (Shop.cartItems s) (Shop.checkoutModal s)
                     true true, db').
Proof.
  intros Hfetched Hnoempty Hstay Hcart Hne.
  split; [apply cartAfter_no_room|].
  assert (Hroom : Shop.selectedRoom s <> "").
  { intros Heq. apply Hne. rewrite Hcart, Heq. apply cartAfter_no_room. }
  assert (Hok : fst (processPurchase now (Shop.selectedRoom s) (Shop.cartItems s) db)
                = Success).
  { apply processPurchase_success_criterion. repeat split; auto.
    rewrite Hcart.
    destruct (cartAfter_within db (Shop.selectedRoom s) inventoryItems actions Hfetched)
      as [_ Hall].
    eapply Forall_impl; [exact Hall|]. intros line (d & Hd & _). split; [|eauto].
    intros Heq. rewrite Heq in Hd. congruence. }
  destruct (processPurchase now (Shop.selectedRoom s) (Shop.cartItems s) db)
    as [r db'] eqn:Hp.
  simpl in Hok. subst r. exists db'. split; [reflexivity|].
  unfold handleCheckout. rewrite Hp.
  destruct (String.eqb_spec (Shop.selectedRoom s) ""); [done|].
  destruct (Shop.cartItems s); [done | reflexivity].
Qed.

Lemma screen_checkout_commits_witness :
  let items := [InventoryItem.mk "cola" "Cola" 1 30 "drinks";
                InventoryItem.mk "soap" "Soap" 5 50 "toiletries"] in
  let s := Shop.mk "stay1" (cartAfter "stay1" items [PressAdd 1; PressAdd 1; PressAdd 0])
                   true false false in
  exists db', handleCheckout 7 s exampleDb
              = (Shop.mk "stay1" (Shop.cartItems s) true true true, db').
Proof.
  intros items s.
  destruct (screen_checkout_commits 7 exampleDb s items [PressAdd 1; PressAdd 1; PressAdd 0])
    as (_ & db' & _ & Hc); try (vm_compute; reflexivity).
  - vm_compute. eauto.
  - vm_compute. discriminate.
  - exists db'. exact Hc.
Defined.

(** X15.  What [handleCheckout] does to the screen.  It never changes the
    cart, the selected room or the modal flag.  Without a selected room or
    with an empty cart it does nothing at all and the service is not called.
    Otherwise it raises the success flag exactly when the purchase committed;
    when it did not, the store is as before, the cart is kept for another try
    and the processing flag is lowered.  After a committed purchase the
    processing flag is up, and the delayed callback, which empties the cart
    and closes the modal, leaves it up. *)
Theorem handleCheckout_outcomes (now : Z) (s : Shop.t) (db : Db) :
  Shop.cartItems (fst (handleCheckout now s db)) = Shop.cartItems s
  /\ Shop.selectedRoom (fst (handleCheckout now s db)) = Shop.selectedRoom s
  /\ Shop.checkoutModal (fst (handleCheckout now s db)) = Shop.checkoutModal s
  /\ (Shop.selectedRoom s = "" \/ Shop.cartItems s = [] ->
      handleCheckout now s db = (s, db))
  /\ (Shop.selectedRoom s <> "" -> Shop.cartItems s <> [] ->
      snd (handleCheckout now s db)
      = snd (processPurchase now (Shop.selectedRoom s) (Shop.cartItems s) db)
      /\ (Shop.purchaseSuccess (fst (handleCheckout now s db)) = true
          <-> fst (processPurchase now (Shop.selectedRoom s) (Shop.cartItems s) db)
              = Success)
      /\ (Shop.purchaseSuccess (fst (handleCheckout now s db)) = false ->
          snd (handleCheckout now s db) = db
          /\ Shop.processingCheckout (fst (handleCheckout now s db)) = false)
      /\ (Shop.purchaseSuccess (fst (handleCheckout now s db)) = true ->
          Shop.processingCheckout (fst (handleCheckout now s db)) = true
          /\ Shop.processingCheckout (afterCheckoutDelay (fst (handleCheckout now s db)))
             = true
          /\ Shop.cartItems (afterCheckoutDelay (fst (handleCheckout now s db))) = []
          /\ Shop.checkoutModal (afterCheckoutDelay (fst (handleCheckout now s db)))
             = false)).
Proof.
  unfold handleCheckout.
  destruct (String.eqb_spec (Shop.selectedRoom s) "") as [Hr|Hr]; simpl.
  { repeat split; auto; intros; tauto. }
  destruct (Shop.cartItems s) as [|line rest] eqn:Hcart; simpl.
  { rewrite Hcart. repeat split; auto; intros; tauto. }
  destruct (processPurchase now (Shop.selectedRoom s) (line :: rest) db)
    as [[|e] db'] eqn:Hp; simpl.
  - split; [reflexivity|]. split; [reflexivity|]. split; [reflexivity|].
    split; [intros [?|?]; [tauto | discriminate]|].
    intros _ _. repeat split; auto; discriminate.
  - apply processPurchase_Failure in Hp. subst db'.
    split; [reflexivity|]. split; [reflexivity|]. split; [reflexivity|].
    split; [intros [?|?]; [tauto | discriminate]|].
    intros _ _. repeat split; auto; discriminate.
Qed.

Lemma handleCheckout_outcomes_witness :
  let s := Shop.mk "stay1" twoSoaps true false false in
  Shop.processingCheckout (afterCheckoutDelay (fst (handleCheckout 7 s exampleDb))) = true
  /\ handleCheckout 7 (Shop.mk "" twoSoaps true false false) exampleDb
     = (Shop.mk "" twoSoaps true false false, exampleDb).
Proof.
  intros s.
  destruct (handleCheckout_outcomes 7 s exampleDb) as (_ & _ & _ & _ & Hvalid).
  destruct Hvalid as (_ & _ & _ & Hsucc); [discriminate | discriminate |].
  destruct Hsucc as (_ & Hflag & _); [vm_compute; reflexivity|].
  split; [exact Hflag|].
  destruct (handleCheckout_outcomes 7 (Shop.mk "" twoSoaps true false false) exampleDb)
    as (_ & _ & _ & Hskip & _).
  apply Hskip. by left.
Defined.

(** * The room-history screen, continued *)

Lemma filter_idem_none {A : Type} (f : A -> bool) (l : list A) :
  List.filter f (List.filter (fun x => negb (f x)) l) = [].
Proof.
  induction l as [|x l IH]; [reflexivity|]. simpl.
  destruct (f x) eqn:Hf; simpl; [exact IH | by rewrite Hf].
Qed.

Lemma filter_split_length {A : Type} (f : A -> bool) (l : list A) :
  (length (List.filter f l) + length (List.filter (fun x => negb (f x)) l))%nat = length l.
Proof.
  induction l as [|x l IH]; [reflexivity|]. simpl.
  destruct (f x); simpl; lia.
Qed.

Lemma advanceEntry_isInitial (now : Z) (customer : Customer.t)
    (history : list PaymentEntry.t) :
  isInitial (advanceEntry now customer history) = true.
Proof.
  unfold advanceEntry.
  destruct (List.find isInitial history) as [p|] eqn:Hfind; [|reflexivity].
  by apply find_some in Hfind as [_ ?].
Qed.

(** X16.  The history that [fetchPaymentHistory] builds always starts with the
    rent line, carrying the customer's rent, and holds exactly one entry of
    type 'initial', in second place.  Every payment that is not of type
    'initial' is kept, in the order read; of several payments of type
    'initial' only the first is kept, so the history has as many entries as
    the payments read, plus two, minus the payments of type 'initial'. *)
Theorem fetchPaymentHistory_shape (now : Z) (customer : Customer.t)
    (history : list PaymentEntry.t) :
  (exists rest,
      fetchPaymentHistory now customer history
      = rentEntry now customer :: advanceEntry now customer history :: rest
      /\ rest = List.filter (fun p => negb (isInitial p)) history)
  /\ PaymentEntry.amount (rentEntry now customer) = Customer.rent customer
  /\ List.filter isInitial (fetchPaymentHistory now customer history)
     = [advanceEntry now customer history]
  /\ (forall p, In p history -> PaymentEntry.type p <> "initial" ->
        In p (fetchPaymentHistory now customer history))
  /\ (length (fetchPaymentHistory now customer history)
      + length (List.filter isInitial history))%nat
     = (length history + 2)%nat.
Proof.
  split; [eexists; split; reflexivity|]. split; [reflexivity|]. split; [|split].
  - unfold fetchPaymentHistory. simpl.
    rewrite advanceEntry_isInitial, filter_idem_none. reflexivity.
  - intros p Hin Hty. unfold fetchPaymentHistory. right. right.
    apply filter_In. split; [exact Hin|].
    unfold isInitial. by apply negb_true_iff, String.eqb_neq.
  - unfold fetchPaymentHistory. simpl.
    pose proof (filter_split_length isInitial history). lia.
Qed.

Lemma fetchPaymentHistory_shape_witness :
  In advance300 (fetchPaymentHistory 99 guest [extension200; initial500; advance300])
  /\ length (fetchPaymentHistory 99 guest [extension200; initial500; advance300]) = 4%nat.
Proof.
  destruct (fetchPaymentHistory_shape 99 guest [extension200; initial500; advance300])
    as (_ & _ & _ & Hkept & Hlen).
  split; [apply Hkept; [right; right; by left | discriminate]|].
  simpl in Hlen. simpl. lia.
Defined.

(** X17.  The payment table of the room history.  A row fills at most one of
    its three amount columns.  The entry that a shop purchase writes (type
    'shop-purchase'), like every entry whose type is none of the four the
    table knows, gives a row with an empty label and no amount at all; an
    initial or additional payment whose mode is neither 'cash' nor 'gpay'
    shows its label but no amount; and an amount of zero is shown as a
    dash. *)
Theorem historyRow_columns (entry : PaymentEntry.t) (id : string) (now : Z)
    (cartItems : list CartItem.t) :
  ((HistoryRow.cashAmount (historyRow entry) = None
    \/ HistoryRow.gpayAmount (historyRow entry) = None)
   /\ (HistoryRow.rentAmount (historyRow entry) = None
       \/ (HistoryRow.cashAmount (historyRow entry) = None
           /\ HistoryRow.gpayAmount (historyRow entry) = None)))
  /\ historyRow (readEntry id (shopPaymentEntry now cartItems))
     = HistoryRow.mk "" None None None
  /\ (PaymentEntry.type entry <> "Rent (Check-in)" ->
      PaymentEntry.type entry <> "extension" ->
      PaymentEntry.type entry <> "initial" ->
      PaymentEntry.type entry <> "advance" ->
      historyRow entry = HistoryRow.mk "" None None None)
  /\ (PaymentEntry.mode entry <> "cash" -> PaymentEntry.mode entry <> "gpay" ->
      HistoryRow.cashAmount (historyRow entry) = None
      /\ HistoryRow.gpayAmount (historyRow entry) = None)
  /\ shownAmount (Some 0) = None.
Proof.
  unfold historyRow, whenMode.
  split; [|split; [reflexivity|split; [|split; [|reflexivity]]]].
  - destruct (String.eqb (PaymentEntry.type entry) "Rent (Check-in)"); [simpl; auto|].
    destruct (String.eqb (PaymentEntry.type entry) "extension"); [simpl; auto|].
    destruct (String.eqb_spec (PaymentEntry.mode entry) "cash") as [Hc|Hc];
      destruct (String.eqb_spec (PaymentEntry.mode entry) "gpay") as [Hg|Hg];
      try (rewrite Hc in Hg; discriminate);
      destruct (String.eqb (PaymentEntry.type entry) "initial");
      try destruct (String.eqb (PaymentEntry.type entry) "advance"); simpl; auto.
  - intros H1 H2 H3 H4.
    apply String.eqb_neq in H1, H2, H3, H4. by rewrite H1, H2, H3, H4.
  - intros Hc Hg. apply String.eqb_neq in Hc, Hg. rewrite Hc, Hg.
    repeat destruct (String.eqb (PaymentEntry.type entry) _); simpl; auto.
Qed.

Lemma historyRow_columns_witness :
  historyRow (PaymentEntry.mk "p9" 75 "n/a" "extra-fee" 70 None)
  = HistoryRow.mk "" None None None
  /\ HistoryRow.cashAmount (historyRow (PaymentEntry.mk "p8" 300 "card" "advance" 80 None))
     = None.
Proof.
  destruct (historyRow_columns (PaymentEntry.mk "p9" 75 "n/a" "extra-fee" 70 None)
              "x" 0 []) as (_ & _ & Hother & _).
  destruct (historyRow_columns (PaymentEntry.mk "p8" 300 "card" "advance" 80 None)
              "x" 0 []) as (_ & _ & _ & Hmode & _).
  split; [apply Hother; discriminate|].
  destruct Hmode as [Hcash _]; [discriminate | discriminate | exact Hcash].
Defined.

Section AddPaymentFacts.
Variable parseFloat : string -> option Z.

Lemma handleAddPayment_cases (now : Z) (selectedCustomer : option Customer.t)
    (paymentAmount : string) (db : Db) :
  (handleAddPayment parseFloat now selectedCustomer paymentAmount db = db
   /\ (selectedCustomer = None \/ paymentAmount = ""
       \/ parseFloat paymentAmount = None
       \/ exists amount, parseFloat paymentAmount = Some amount /\ amount <= 0))
  \/ (exists customer amount,
         selectedCustomer = Some customer /\ paymentAmount <> ""
         /\ parseFloat paymentAmount = Some amount /\ 0 < amount
         /\ handleAddPayment parseFloat now selectedCustomer paymentAmount db
            = mkDb (inventory db) (purchases db) (checkins db)
                   (<[Customer.id customer :=
                        paymentsOf (Customer.id customer) db ++ [addedPayment now amount]]>
                      (payments db))).
Proof.
  unfold handleAddPayment.
  destruct selectedCustomer as [customer|]; [|left; auto].
  destruct (String.eqb_spec paymentAmount ""); [left; auto|].
  destruct (parseFloat paymentAmount) as [amount|] eqn:Hparse; [|left; auto].
  destruct (Z.leb_spec amount 0).
  { left. split; [reflexivity|]. right. right. right. by exists amount. }
  right. exists customer, amount. simpl. auto.
Qed.

(** X18.  [handleAddPayment] of the room history.  It writes nothing when no
    customer is selected, when the amount field is empty, when the text is not
    a number, or when the amount is zero or negative.  Otherwise it appends
    exactly one entry to the payments of the selected customer: the amount,
    mode 'cash', type 'advance'.  In no case does it touch the inventory, the
    purchase records, any check-in document (the stored initialPayment stays
    as it is) or the payments of another check-in, and the entry it adds is
    not a shop-purchase entry. *)
Theorem handleAddPayment_effect (now : Z) (selectedCustomer : option Customer.t)
    (paymentAmount : string) (db : Db) :
  inventory (handleAddPayment parseFloat now selectedCustomer paymentAmount db)
  = inventory db
  /\ purchases (handleAddPayment parseFloat now selectedCustomer paymentAmount db)
     = purchases db
  /\ checkins (handleAddPayment parseFloat now selectedCustomer paymentAmount db)
     = checkins db
  /\ (forall c, shopPurchaseEntries c
                  (handleAddPayment parseFloat now selectedCustomer paymentAmount db)
                = shopPurchaseEntries c db)
  /\ (selectedCustomer = None \/ paymentAmount = ""
      \/ parseFloat paymentAmount = None
      \/ (exists amount, parseFloat paymentAmount = Some amount /\ amount <= 0) ->
      handleAddPayment parseFloat now selectedCustomer paymentAmount db = db)
  /\ (forall customer amount,
        selectedCustomer = Some customer -> paymentAmount <> "" ->
        parseFloat paymentAmount = Some amount -> 0 < amount ->
        paymentsOf (Customer.id customer)
          (handleAddPayment parseFloat now selectedCustomer paymentAmount db)
        = paymentsOf (Customer.id customer) db
          ++ [PaymentDoc.mk amount "cash" "advance" now
                "Payment added for checked-out guest"]
        /\ forall c, c <> Customer.id customer ->
             paymentsOf c (handleAddPayment parseFloat now selectedCustomer paymentAmount db)
             = paymentsOf c db).
Proof.
  destruct (handleAddPayment_cases now selectedCustomer paymentAmount db)
    as [[-> Hwhy] | (customer & amount & Hsel & Htext & Hparse & Hpos & ->)].
  - split; [reflexivity|]. split; [reflexivity|]. split; [reflexivity|].
    split; [reflexivity|]. split; [reflexivity|].
    intros customer amount Hsel Htext Hparse Hpos. exfalso.
    destruct Hwhy as [Hw|[Hw|[Hw|(a & Hw & Ha)]]]; try congruence.
    assert (a = amount) by congruence. lia.
  - simpl. split; [reflexivity|]. split; [reflexivity|]. split; [reflexivity|].
    split; [|split].
    + intros c. unfold shopPurchaseEntries, paymentsOf. simpl.
      destruct (decide (Customer.id customer = c)) as [<-|Hne].
      * rewrite lookup_insert_eq. simpl. rewrite List.filter_app. simpl.
        by rewrite app_nil_r.
      * by rewrite lookup_insert_ne.
    + intros [H|[H|[H|(a & H & Ha)]]]; try congruence.
      assert (a = amount) by congruence. lia.
    + intros customer' amount' Hsel' _ Hparse' _.
      assert (customer' = customer) as -> by congruence.
      assert (amount' = amount) as -> by congruence.
      unfold paymentsOf at 1. simpl. rewrite lookup_insert_eq. simpl.
      split; [reflexivity|]. intros c Hne.
      unfold paymentsOf. simpl. by rewrite lookup_insert_ne.
Qed.

End AddPaymentFacts.

Lemma handleAddPayment_effect_witness :
  let parse := fun text : string => if String.eqb text "250" then Some 250 else None in
  let customer := Customer.mk "stay2" "Ravi" "9000000001" (Some 50) (Some 95) 800 true
                              "room-102" in
  paymentsOf "stay2" (handleAddPayment parse 96 (Some customer) "250" exampleDb)
  = [PaymentDoc.mk 250 "cash" "advance" 96 "Payment added for checked-out guest"]
  /\ handleAddPayment parse 96 (Some customer) "abc" exampleDb = exampleDb.
Proof.
  intros parse customer.
  destruct (handleAddPayment_effect parse 96 (Some customer) "250" exampleDb)
    as (_ & _ & _ & _ & _ & Hadd).
  destruct (Hadd customer 250) as [Hown _]; try reflexivity; try discriminate.
  destruct (handleAddPayment_effect parse 96 (Some customer) "abc" exampleDb)
    as (_ & _ & _ & _ & Hrej & _).
  split; [exact Hown|].
  apply Hrej. right. right. left. reflexivity.
Defined.

(** * The inventory screen *)

Lemma handleUpdateQuantity_cases (stamp : string) (page : InventoryPage.t)
    (itemId : string) (operation : Operation) (db : Db) :
  (handleUpdateQuantity stamp page itemId operation db = (page, db)
   /\ (List.find (fun item => String.eqb (StockItem.id item) itemId)
                 (InventoryPage.inventoryItems page) = None
       \/ InventoryPage.updateQuantity page !! itemId = None
       \/ InventoryPage.updateQuantity page !! itemId = Some 0
       \/ itemId = ""
       \/ inventory db !! itemId = None))
  \/ (exists item quantity d,
         List.find (fun item => String.eqb (StockItem.id item) itemId)
                   (InventoryPage.inventoryItems page) = Some item
         /\ InventoryPage.updateQuantity page !! itemId = Some quantity
         /\ quantity <> 0 /\ itemId <> ""
         /\ inventory db !! itemId = Some d
         /\ handleUpdateQuantity stamp page itemId operation db
            = (InventoryPage.mk
                 (map (fun it =>
                         if String.eqb (StockItem.id it) itemId
                         then StockItem.restock
                                (newQuantity operation item quantity)
                                (match operation with
                                 | OpAdd => stamp
                                 | OpRemove => StockItem.lastRestocked it
                                 end) it
                         else it)
                      (InventoryPage.inventoryItems page))
                 (<[itemId := 0]> (InventoryPage.updateQuantity page)),
               mkDb (<[itemId := InventoryDoc.mk (InventoryDoc.itemName d)
                                   (newQuantity operation item quantity)
                                   (InventoryDoc.unitPrice d) (InventoryDoc.category d)]>
                       (inventory db))
                    (purchases db) (checkins db) (payments db))).
Proof.
  unfold handleUpdateQuantity.
  destruct (List.find _ (InventoryPage.inventoryItems page)) as [item|]; [|left; auto].
  destruct (InventoryPage.updateQuantity page !! itemId) as [quantity|] eqn:Hq;
    [|left; auto].
  destruct (Z.eq_dec quantity 0) as [->|Hnz]; [left; auto|].
  assert (Hmatch : forall (X : Type) (a b : X),
             match quantity with 0 => a | _ => b end = b)
    by (intros; destruct quantity; [done | reflexivity | reflexivity]).
  rewrite Hmatch. clear Hmatch.
  unfold doc. destruct (String.eqb_spec itemId "") as [->|Hid]; [left; auto 6|].
  simpl. unfold updateDocQuantity.
  destruct (inventory db !! itemId) as [d|] eqn:Hd; simpl; [|left; auto 6].
  right. exists item, quantity, d. auto 8.
Qed.

(** What the update does, in the form the later proofs use. *)
Lemma handleUpdateQuantity_facts (stamp : string) (page : InventoryPage.t)
    (itemId : string) (operation : Operation) (db : Db) :
  (List.find (fun item => String.eqb (StockItem.id item) itemId)
             (InventoryPage.inventoryItems page) = None
   \/ InventoryPage.updateQuantity page !! itemId = None
   \/ InventoryPage.updateQuantity page !! itemId = Some 0
   \/ inventory db !! itemId = None ->
   handleUpdateQuantity stamp page itemId operation db = (page, db))
  /\ (forall item quantity d,
        List.find (fun item => String.eqb (StockItem.id item) itemId)
                  (InventoryPage.inventoryItems page) = Some item ->
        InventoryPage.updateQuantity page !! itemId = Some quantity ->
        quantity <> 0 -> itemId <> "" ->
        inventory db !! itemId = Some d ->
        inventory (snd (handleUpdateQuantity stamp page itemId operation db)) !! itemId
        = Some (InventoryDoc.mk (InventoryDoc.itemName d)
                  (newQuantity operation item quantity)
                  (InventoryDoc.unitPrice d) (InventoryDoc.category d))
        /\ (operation = OpRemove -> 0 <= newQuantity operation item quantity)
        /\ (forall other, other <> itemId ->
              inventory (snd (handleUpdateQuantity stamp page itemId operation db)) !! other
              = inventory db !! other)
        /\ InventoryPage.updateQuantity
             (fst (handleUpdateQuantity stamp page itemId operation db)) !! itemId
           = Some 0)
  /\ purchases (snd (handleUpdateQuantity stamp page itemId operation db)) = purchases db
  /\ checkins (snd (handleUpdateQuantity stamp page itemId operation db)) = checkins db
  /\ payments (snd (handleUpdateQuantity stamp page itemId operation db)) = payments db
  /\ handleUpdateQuantity stamp
       (fst (handleUpdateQuantity stamp page itemId operation db)) itemId operation
       (snd (handleUpdateQuantity stamp page itemId operation db))
     = handleUpdateQuantity stamp page itemId operation db.
Proof.
  destruct (handleUpdateQuantity_cases stamp page itemId operation db)
    as [[Hsame Hwhy] | (item & quantity & d & Hfind & Hq & Hnz & Hid & Hd & Hres)].
  - rewrite Hsame. simpl. split; [auto|].
    split; [|by rewrite Hsame].
    intros item quantity d Hfind Hq Hnz Hid Hd. exfalso.
    destruct Hwhy as [H|[H|[H|[H|H]]]]; congruence.
  - rewrite Hres. simpl. split.
    { intros [H|[H|[H|H]]]; congruence. }
    split; [|split; [reflexivity|split; [reflexivity|split; [reflexivity|]]]].
    + intros item' quantity' d' Hfind' Hq' _ _ Hd'.
      assert (item' = item) as -> by congruence.
      assert (quantity' = quantity) as -> by congruence.
      assert (d' = d) as -> by congruence.
      split; [apply lookup_insert_eq|].
      split; [intros ->; simpl; lia|].
      split; [intros other Hne; by rewrite lookup_insert_ne|].
      apply lookup_insert_eq.
    + unfold handleUpdateQuantity at 1. simpl.
      rewrite lookup_insert_eq.
      match goal with |- match ?x with _ => _ end = _ => destruct x end; reflexivity.
Qed.

(** X19.  [handleUpdateQuantity] of the inventory screen.  It does nothing
    when the item is not listed, when its entry field is missing or zero,
    or when the document does not exist.  Otherwise it overwrites the stored
    quantity with a figure computed from the listed quantity, leaves the name,
    price and category of the document and every other document alone, and
    sets the entry field back to zero.  A removal never stores a negative
    quantity, whatever is entered.  Pressing the button a second time changes
    nothing more. *)
Theorem handleUpdateQuantity_effect (stamp : string) (page : InventoryPage.t)
    (itemId : string) (operation : Operation) (db : Db) :
  (List.find (fun item => String.eqb (StockItem.id item) itemId)
             (InventoryPage.inventoryItems page) = None
   \/ InventoryPage.updateQuantity page !! itemId = None
   \/ InventoryPage.updateQuantity page !! itemId = Some 0
   \/ inventory db !! itemId = None ->
   handleUpdateQuantity stamp page itemId operation db = (page, db))
  /\ (forall item quantity d,
        List.find (fun item => String.eqb (StockItem.id item) itemId)
                  (InventoryPage.inventoryItems page) = Some item ->
        InventoryPage.updateQuantity page !! itemId = Some quantity ->
        quantity <> 0 -> itemId <> "" ->
        inventory db !! itemId = Some d ->
        inventory (snd (handleUpdateQuantity stamp page itemId operation db)) !! itemId
        = Some (InventoryDoc.mk (InventoryDoc.itemName d)
                  (newQuantity operation item quantity)
                  (InventoryDoc.unitPrice d) (InventoryDoc.category d))
        /\ (operation = OpRemove -> 0 <= newQuantity operation item quantity)
        /\ (forall other, other <> itemId ->
              inventory (snd (handleUpdateQuantity stamp page itemId operation db)) !! other
              = inventory db !! other)
        /\ InventoryPage.updateQuantity
             (fst (handleUpdateQuantity stamp page itemId operation db)) !! itemId
           = Some 0)
  /\ purchases (snd (handleUpdateQuantity stamp page itemId operation db)) = purchases db
  /\ checkins (snd (handleUpdateQuantity stamp page itemId operation db)) = checkins db
  /\ payments (snd (handleUpdateQuantity stamp page itemId operation db)) = payments db
  /\ handleUpdateQuantity stamp
       (fst (handleUpdateQuantity stamp page itemId operation db)) itemId operation
       (snd (handleUpdateQuantity stamp page itemId operation db))
     = handleUpdateQuantity stamp page itemId operation db.
Proof. exact (handleUpdateQuantity_facts stamp page itemId operation db). Qed.

Lemma handleUpdateQuantity_effect_witness :
  let page := InventoryPage.mk
                [StockItem.mk "soap" "Soap" 5 50 "toiletries" 2 "2024-01-01T00:00:00.000Z"]
                (<["soap" := 9]> ∅) in
  InventoryDoc.quantity
    <$> inventory (snd (handleUpdateQuantity "2024-02-02T00:00:00.000Z" page "soap"
                          OpRemove exampleDb)) !! "soap"
  = Some 0.
Proof.
  intros page.
  destruct (handleUpdateQuantity_effect "2024-02-02T00:00:00.000Z" page "soap"
              OpRemove exampleDb) as (_ & Hok & _).
  destruct (Hok (StockItem.mk "soap" "Soap" 5 50 "toiletries" 2 "2024-01-01T00:00:00.000Z")
                9 soapDoc) as (Hdoc & _).
  - vm_compute. reflexivity.
  - vm_compute. reflexivity.
  - discriminate.
  - discriminate.
  - vm_compute. reflexivity.
  - rewrite Hdoc. reflexivity.
Defined.

(** X20.  The inventory screen writes from its list, not from the store.  When
    its list was read before a purchase committed, adding [n] units of an
    item afterwards stores the listed quantity plus [n]: the units the
    purchase took out are back in stock, while the purchase records still
    count them as sold. *)
Theorem restock_from_stale_list_undoes_purchase (stamp : string)
    (page : InventoryPage.t) (itemId : string) (item : StockItem.t) (n : Z)
    (now : Z) (checkinId : string) (cartItems : list CartItem.t)
    (db0 db1 : Db) (d0 : InventoryDoc.t) :
  processPurchase now checkinId cartItems db0 = (Success, db1) ->
  inventory db0 !! itemId = Some d0 ->
  List.find (fun it => String.eqb (StockItem.id it) itemId)
            (InventoryPage.inventoryItems page) = Some item ->
  StockItem.quantity item = InventoryDoc.quantity d0 ->
  InventoryPage.updateQuantity page !! itemId = Some n ->
  n <> 0 -> itemId <> "" ->
  InventoryDoc.quantity <$> inventory db1 !! itemId
  = Some (InventoryDoc.quantity d0 - requestedQuantity itemId cartItems)
  /\ InventoryDoc.quantity
       <$> inventory (snd (handleUpdateQuantity stamp page itemId OpAdd db1)) !! itemId
     = Some (InventoryDoc.quantity d0 + n)
  /\ unitsSold itemId (snd (handleUpdateQuantity stamp page itemId OpAdd db1))
     = unitsSold itemId db0 + requestedQuantity itemId cartItems.
Proof.
  intros Hp Hd0 Hfind Hlisted Hn Hnz Hid.
  pose proof (processPurchase_inventory _ _ _ _ _ itemId Hp) as Hd1.
  rewrite Hd0 in Hd1. simpl in Hd1.
  split; [rewrite Hd1; simpl; f_equal; lia|].
  destruct (handleUpdateQuantity_facts stamp page itemId OpAdd db1)
    as (_ & Hok & Hpur & _).
  destruct (Hok item n _ Hfind Hn Hnz Hid Hd1) as (Hd2 & _).
  split.
  - rewrite Hd2. simpl. by rewrite Hlisted.
  - unfold unitsSold at 1. rewrite Hpur.
    apply (unitsSold_after_purchase _ _ itemId _ _ _ Hp).
Qed.

Lemma restock_from_stale_list_undoes_purchase_witness :
  let page := InventoryPage.mk
                [StockItem.mk "soap" "Soap" 5 50 "toiletries" 2 "2024-01-01T00:00:00.000Z"]
                (<["soap" := 1]> ∅) in
  let db1 := snd (processPurchase 7 "stay1" twoSoaps exampleDb) in
  InventoryDoc.quantity <$> inventory db1 !! "soap" = Some 3
  /\ InventoryDoc.quantity
       <$> inventory (snd (handleUpdateQuantity "2024-02-02T00:00:00.000Z" page "soap"
                             OpAdd db1)) !! "soap"
     = Some 6.
Proof.
  intros page db1.
  destruct (restock_from_stale_list_undoes_purchase "2024-02-02T00:00:00.000Z" page "soap"
              (StockItem.mk "soap" "Soap" 5 50 "toiletries" 2 "2024-01-01T00:00:00.000Z")
              1 7 "stay1" twoSoaps exampleDb db1 soapDoc)
    as (Hafter & Hrestock & _).
  - vm_compute. reflexivity.
  - vm_compute. reflexivity.
  - vm_compute. reflexivity.
  - reflexivity.
  - vm_compute. reflexivity.
  - discriminate.
  - discriminate.
  - split; [exact Hafter | exact Hrestock].
Defined.

(** X21.  [handleDeleteItem] does nothing without an item id.  With one, it
    removes the inventory document and the item's row, and nothing else: the
    other documents and the purchase records that name the item stay.  From
    then on every purchase whose cart names the item fails and changes
    nothing. *)
Theorem deleted_item_cannot_be_bought (page : InventoryPage.t) (itemId : string) (db : Db) :
  handleDeleteItem page None db = (page, db)
  /\ handleDeleteItem page (Some "") db = (page, db)
  /\ (itemId <> "" ->
      inventory (snd (handleDeleteItem page (Some itemId) db)) !! itemId = None
      /\ (forall other, other <> itemId ->
            inventory (snd (handleDeleteItem page (Some itemId) db)) !! other
            = inventory db !! other)
      /\ purchases (snd (handleDeleteItem page (Some itemId) db)) = purchases db
      /\ checkins (snd (handleDeleteItem page (Some itemId) db)) = checkins db
      /\ Forall (fun item => StockItem.id item <> itemId)
                (InventoryPage.inventoryItems (fst (handleDeleteItem page (Some itemId) db)))
      /\ forall now checkinId cartItems,
           In itemId (map CartItem.inventoryId cartItems) ->
           exists e,
             processPurchase now checkinId cartItems
               (snd (handleDeleteItem page (Some itemId) db))
             = (Failure e, snd (handleDeleteItem page (Some itemId) db))).
Proof.
  split; [reflexivity|]. split; [reflexivity|]. intros Hid.
  unfold handleDeleteItem. rewrite (doc_nonempty _ Hid). simpl.
  split; [apply lookup_delete_eq|].
  split; [intros other Hne; by apply lookup_delete_ne|].
  split; [reflexivity|]. split; [reflexivity|]. split.
  - apply List.Forall_forall. intros item Hin.
    apply filter_In in Hin as [_ Hkeep].
    by apply negb_true_iff, String.eqb_neq in Hkeep.
  - intros now checkinId cartItems Hin.
    set (db' := mkDb (delete itemId (inventory db)) (purchases db) (checkins db)
                     (payments db)).
    destruct (processPurchase now checkinId cartItems db') as [[|e] db''] eqn:Hp.
    + exfalso.
      assert (Hok : fst (processPurchase now checkinId cartItems db') = Success)
        by (by rewrite Hp).
      apply processPurchase_success_criterion in Hok as (_ & _ & Hlines & _).
      apply in_map_iff in Hin as (line & Hline & Hin).
      rewrite List.Forall_forall in Hlines.
      destruct (Hlines line Hin) as [_ [d Hd]].
      rewrite Hline in Hd. unfold db' in Hd. simpl in Hd.
      rewrite lookup_delete_eq in Hd. discriminate.
    + exists e. by rewrite (processPurchase_Failure _ _ _ _ _ _ Hp).
Qed.

Lemma deleted_item_cannot_be_bought_witness :
  let page := InventoryPage.mk
                [StockItem.mk "soap" "Soap" 5 50 "toiletries" 2 "2024-01-01T00:00:00.000Z"]
                ∅ in
  exists e, processPurchase 7 "stay1" twoSoaps (snd (handleDeleteItem page (Some "soap") exampleDb))
            = (Failure e, snd (handleDeleteItem page (Some "soap") exampleDb)).
Proof.
  intros page.
  destruct (deleted_item_cannot_be_bought page "soap" exampleDb) as (_ & _ & Hdel).
  destruct Hdel as (_ & _ & _ & _ & _ & Hfail); [discriminate|].
  apply Hfail. by left.
Defined.

(** * The payment log *)

Lemma sumPayments_cons (p : PaymentRecord.t) (l : list PaymentRecord.t) :
  sumPayments (p :: l) = PaymentRecord.amount p + sumPayments l.
Proof. unfold sumPayments. rewrite fold_left_sum_cons by shift_tac. lia. Qed.

Lemma summaryTotal_cons (wanted : string) (p : PaymentRecord.t) (l : list PaymentRecord.t) :
  summaryTotal wanted (p :: l)
  = (if String.eqb (PaymentRecord.mode p) wanted
        || (String.eqb (PaymentRecord.paymentMode p) wanted && (0 <? PaymentRecord.amount p))
     then PaymentRecord.amount p else 0)
    + summaryTotal wanted l.
Proof.
  unfold summaryTotal. rewrite fold_left_sum_cons by shift_tac.
  by destruct (_ || _).
Qed.

Lemma payment_log_totals (filteredPayments : list PaymentRecord.t) :
  Forall (fun p => PaymentRecord.paymentMode p = PaymentRecord.mode p) filteredPayments ->
  getTotalAmount filteredPayments
  = getCashTotal filteredPayments + getGpayTotal filteredPayments
  /\ summaryTotal "cash" filteredPayments = getCashTotal filteredPayments
  /\ summaryTotal "gpay" filteredPayments = getGpayTotal filteredPayments.
Proof.
  unfold getTotalAmount, getCashTotal, getGpayTotal, isCash, isGpay.
  induction 1 as [|p l Hp _ (IH1 & IH2 & IH3)]; [done|].
  rewrite !summaryTotal_cons, IH2, IH3. simpl.
  rewrite Hp.
  destruct (String.eqb_spec (PaymentRecord.mode p) "cash") as [Hc|Hc];
    destruct (String.eqb_spec (PaymentRecord.mode p) "gpay") as [Hg|Hg];
    try (rewrite Hc in Hg; discriminate); simpl;
    rewrite ?sumPayments_cons, ?IH1; repeat split; lia.
Qed.

(** X22.  The cash and GPay figures of the payment log agree.  A record built
    by [fetchAllPayments] carries the mode of its payment document in both
    [mode] and [paymentMode]; for records like that the cash total and the
    GPay total of the summary panel are those of the page header: each pair
    adds the same amounts in the same order. *)
Theorem payment_log_totals_agree (guestName roomNumber payId : string)
    (payData : PaymentDoc.t) (filteredPayments : list PaymentRecord.t) :
  PaymentRecord.mode (toPaymentRecord guestName roomNumber payId payData)
  = PaymentDoc.mode payData
  /\ PaymentRecord.paymentMode (toPaymentRecord guestName roomNumber payId payData)
     = PaymentDoc.mode payData
  /\ (Forall (fun p => PaymentRecord.paymentMode p = PaymentRecord.mode p) filteredPayments ->
      summaryTotal "cash" filteredPayments = getCashTotal filteredPayments
      /\ summaryTotal "gpay" filteredPayments = getGpayTotal filteredPayments).
Proof.
  split; [reflexivity|]. split; [reflexivity|].
  intros Hmodes.
  destruct (payment_log_totals filteredPayments Hmodes) as (_ & Hcash & Hgpay).
  by split.
Qed.

Lemma payment_log_totals_agree_witness :
  let records := [toPaymentRecord "Asha" "101" "p1" initialCash;
                  toPaymentRecord "Asha" "101" "p2"
                    (PaymentDoc.mk 300 "gpay" "advance" 120 "Payment")] in
  summaryTotal "cash" records = getCashTotal records
  /\ summaryTotal "gpay" records = getGpayTotal records.
Proof.
  intros records.
  destruct (payment_log_totals_agree "Asha" "101" "p1" initialCash records)
    as (_ & _ & Hagree).
  apply Hagree. repeat constructor.
Defined.

(** X25.  For whole-number amounts, the total of the page header is the cash
    total plus the GPay total, for records that carry one mode in both [mode]
    and [paymentMode] as those of [fetchAllPayments] do.  (The total adds cash
    and GPay amounts interleaved, the two others add them apart: with
    fractional amounts the figures can differ in their last digits.) *)
Theorem payment_log_total_is_cash_plus_gpay (filteredPayments : list PaymentRecord.t) :
  Forall (fun p => PaymentRecord.paymentMode p = PaymentRecord.mode p) filteredPayments ->
  getTotalAmount filteredPayments
  = getCashTotal filteredPayments + getGpayTotal filteredPayments.
Proof.
  intros Hmodes. by destruct (payment_log_totals filteredPayments Hmodes) as (Htotal & _).
Qed.

Lemma payment_log_total_is_cash_plus_gpay_witness :
  let records := [toPaymentRecord "Asha" "101" "p1" initialCash;
                  toPaymentRecord "Asha" "101" "p2"
                    (PaymentDoc.mk 300 "gpay" "advance" 120 "Payment");
                  toPaymentRecord "Asha" "101" "p3" (shopPaymentEntry 130 twoSoaps)] in
  getTotalAmount records = getCashTotal records + getGpayTotal records.
Proof.
  intros records. apply (payment_log_total_is_cash_plus_gpay records). repeat constructor.
Defined.

(** X23.  Shop purchases do not show in the totals of the payment log: the
    record made from the payment entry of a purchase (mode 'shop') is left out
    of the total, the cash total and the GPay total, wherever the sorting puts
    it; each figure adds the very amounts it would add without that record. *)
Theorem shop_purchases_outside_payment_totals (guestName roomNumber payId : string)
    (now : Z) (cartItems : list CartItem.t)
    (before after : list PaymentRecord.t) :
  let purchase :=
    toPaymentRecord guestName roomNumber payId (shopPaymentEntry now cartItems) in
  getTotalAmount (before ++ purchase :: after) = getTotalAmount (before ++ after)
  /\ getCashTotal (before ++ purchase :: after) = getCashTotal (before ++ after)
  /\ getGpayTotal (before ++ purchase :: after) = getGpayTotal (before ++ after).
Proof.
  intros purchase.
  unfold getTotalAmount, getCashTotal, getGpayTotal.
  rewrite !List.filter_app. repeat split; reflexivity.
Qed.

(** ** The pages of the payment list *)

Lemma firstn_plus {A : Type} (a b : nat) (l : list A) :
  firstn (a + b) l = firstn a l ++ firstn b (skipn a l).
Proof.
  revert l. induction a as [|a IH]; intros l; [reflexivity|].
  destruct l as [|x l]; simpl; [by rewrite firstn_nil | by rewrite IH].
Qed.

Lemma pages_prefix {A : Type} (sortedPayments : list A) (k : nat) :
  concat (map (currentPagePayments sortedPayments) (seq 1 k))
  = firstn (k * pageSize) sortedPayments.
Proof.
  induction k as [|k IH]; [reflexivity|].
  rewrite seq_S, map_app, concat_app, IH.
  transitivity (firstn (k * pageSize + pageSize) sortedPayments); [|f_equal; lia].
  rewrite firstn_plus. f_equal. cbn [map concat]. rewrite app_nil_r.
  unfold currentPagePayments. do 2 f_equal. lia.
Qed.

Lemma totalPages_bounds {A : Type} (sortedPayments : list A) :
  (length sortedPayments <= totalPages sortedPayments * pageSize)%nat
  /\ (totalPages sortedPayments * pageSize < length sortedPayments + pageSize)%nat.
Proof.
  unfold totalPages, pageSize. change (10 - 1)%nat with 9%nat.
  pose proof (Nat.div_mod_eq (length sortedPayments + 9) 10) as Hdm.
  pose proof (Nat.mod_upper_bound (length sortedPayments + 9) 10) as Hr.
  lia.
Qed.

(** X24.  The pages of the payment list cut the sorted list into consecutive
    pieces: pages 1 to [totalPages], one after the other, give the whole list
    back, nothing lost and nothing twice; each of these pages shows at least
    one and at most ten payments; and [goToPage] never leaves the range of
    pages (it stays where it is when asked for a page outside it). *)
Theorem pages_cover_the_list {A : Type} (sortedPayments : list A) :
  concat (map (currentPagePayments sortedPayments) (seq 1 (totalPages sortedPayments)))
  = sortedPayments
  /\ (forall page, (1 <= page <= totalPages sortedPayments)%nat ->
        (1 <= length (currentPagePayments sortedPayments page) <= 10)%nat)
  /\ (forall currentPage page,
        (1 <= currentPage <= Nat.max 1 (totalPages sortedPayments))%nat ->
        (1 <= goToPage sortedPayments currentPage page
           <= Nat.max 1 (totalPages sortedPayments))%nat).
Proof.
  destruct (totalPages_bounds sortedPayments) as [Hlo Hhi].
  split; [|split].
  - rewrite pages_prefix. by apply firstn_all2.
  - intros page [H1 Hp]. unfold currentPagePayments.
    rewrite length_firstn, length_skipn. unfold pageSize in *. nia.
  - intros currentPage page Hcur. unfold goToPage.
    destruct (Nat.leb_spec 1 page); simpl; [|exact Hcur].
    destruct (Nat.leb_spec page (totalPages sortedPayments)); [lia | exact Hcur].
Qed.

Lemma pages_cover_the_list_witness :
  (1 <= length (currentPagePayments (seq 0 23) 3) <= 10)%nat
  /\ (1 <= goToPage (seq 0 23) 2 4 <= 3)%nat.
Proof.
  destruct (pages_cover_the_list (seq 0 23)) as (_ & Hlen & Hgo).
  split.
  - apply (Hlen 3%nat). change (totalPages (seq 0 23)) with 3%nat. lia.
  - apply (Hgo 2%nat 4%nat). change (totalPages (seq 0 23)) with 3%nat. lia.
Defined.
